(** * Smart ticket manager: routing decision engine and Momence client

    A shallow embedding of
      - [supabase/functions/analyze-ticket/index.ts] (routing decision engine),
      - the priority escalation step of [src/pages/ticket-new.tsx],
      - the [MomenceAPI] class (token manager, member/session client,
        pagination, normaliser helpers),
    together with the properties stated about them. *)

From Stdlib Require Import ZArith Floats List String Ascii Bool Lia Permutation DecimalString.
Import ListNotations.

#[local] Set Warnings "-inexact-float".

Local Open Scope string_scope.
Local Open Scope Z_scope.

(** ** JavaScript strings and truthiness *)

(** [!!s] for a JavaScript string: only the empty string is falsy. *)
Definition truthyStr (s : string) : bool := negb (s =? "")%string.

(** A property that may be absent ([undefined]). *)
Definition truthyOpt (o : option string) : bool :=
  match o with
  | Some s => truthyStr s
  | None => false
  end.

(** The own properties of an object literal: the entries are kept in source
    order, as [Object.entries] enumerates them, and [assoc] finds the value
    of an own property. *)
Fixpoint assoc {A : Type} (key : string) (table : list (string * A)) : option A :=
  match table with
  | [] => None
  | (k, v) :: rest => if (k =? key)%string then Some v else assoc key rest
  end.

(** The properties of [Object.prototype], which every object literal
    inherits: eleven methods, and the accessor [__proto__], which yields
    [Object.prototype] itself.  Their values are functions or objects, hence
    truthy, and none of them has a property [department] or [priority]. *)
Definition objectPrototypeKeys : list string :=
  [ "constructor"; "__defineGetter__"; "__defineSetter__"; "hasOwnProperty";
    "__lookupGetter__"; "__lookupSetter__"; "isPrototypeOf";
    "propertyIsEnumerable"; "toString"; "valueOf"; "__proto__";
    "toLocaleString" ].

Definition inheritedKey (key : string) : bool :=
  existsb (String.eqb key) objectPrototypeKeys.

(** [table[key]] on an object literal used as a lookup table: an own
    property, else a member inherited from [Object.prototype], else
    [undefined]. *)
Inductive Lookup (A : Type) :=
| Own (value : A)
| Inherited (key : string)
| Missing.

Arguments Own {A} value.
Arguments Inherited {A} key.
Arguments Missing {A}.

Definition lookup {A : Type} (key : string) (table : list (string * A)) : Lookup A :=
  match assoc key table with
  | Some v => Own v
  | None => if inheritedKey key then Inherited key else Missing
  end.

(** ** Routing decision engine ([analyze-ticket/index.ts]) *)

Module Routing.

Record CategoryRoute := { cat_department : string; teamCode : string }.

Record SubcategoryRoute := { sub_department : string; sub_priority : option string }.

Definition CATEGORY_ROUTING : list (string * CategoryRoute) :=
  [ ("Booking & Technology", {| cat_department := "IT/Tech Support"; teamCode := "operations" |});
    ("Customer Service",     {| cat_department := "Client Success";  teamCode := "client-success" |});
    ("Health & Safety",      {| cat_department := "Operations";      teamCode := "facilities" |});
    ("Retail Management",    {| cat_department := "Sales";           teamCode := "sales" |});
    ("Community & Culture",  {| cat_department := "HR";              teamCode := "operations" |});
    ("Sales & Marketing",    {| cat_department := "Sales";           teamCode := "sales" |});
    ("Special Programs",     {| cat_department := "Operations";      teamCode := "operations" |});
    ("Miscellaneous",        {| cat_department := "Operations";      teamCode := "operations" |});
    ("Global",               {| cat_department := "Management";      teamCode := "management" |}) ].

Definition SUBCATEGORY_ROUTING : list (string * SubcategoryRoute) :=
  [ ("Payment Processing",  {| sub_department := "Finance";    sub_priority := Some "high" |});
    ("Injury During Class", {| sub_department := "HR";         sub_priority := Some "critical" |});
    ("Medical Disclosure",  {| sub_department := "HR";         sub_priority := Some "high" |});
    ("Theft",               {| sub_department := "Security";   sub_priority := Some "critical" |});
    ("Emergency",           {| sub_department := "Management"; sub_priority := Some "critical" |});
    ("Staff Misconduct",    {| sub_department := "HR";         sub_priority := Some "high" |});
    ("Discrimination",      {| sub_department := "HR";         sub_priority := Some "high" |}) ].

(** The value of the property [routingConfidence] of the parsed answer.  A
    JSON number is the double [JSON.parse] reads; any other value (a string,
    a boolean, an array, an object) is kept by the number the comparison
    converts it to. *)
Inductive Confidence :=
| NoConfidence
| NullConfidence
| Number (x : float)
| Coerced (toNumber : float).

(** The object parsed from the classifier's answer ([aiResponse]); the
    completion is requested with [response_format: json_object], and the
    parsed content is taken to be an object.  A missing property is
    [None]. *)
Record AiResponse := {
  department : option string;
  priority : option string;
  suggestedTags : list string;
  needsEscalation : bool;
  escalationReason : option string;
  routingConfidence : Confidence;
  analysis : option string
}.

(** [aiResponse.department = d]; an assignment of [undefined] leaves a
    property that [JSON.stringify] omits. *)
Definition assign_department (d : option string) (ai : AiResponse) : AiResponse :=
  {| department := d; priority := priority ai;
     suggestedTags := suggestedTags ai; needsEscalation := needsEscalation ai;
     escalationReason := escalationReason ai;
     routingConfidence := routingConfidence ai; analysis := analysis ai |}.

Definition set_department (d : string) (ai : AiResponse) : AiResponse :=
  assign_department (Some d) ai.

Definition set_priority (p : string) (ai : AiResponse) : AiResponse :=
  {| department := department ai; priority := Some p;
     suggestedTags := suggestedTags ai; needsEscalation := needsEscalation ai;
     escalationReason := escalationReason ai;
     routingConfidence := routingConfidence ai; analysis := analysis ai |}.

(** [aiResponse.routingConfidence < 0.7], a comparison of doubles after
    conversion to a number: [undefined] converts to NaN and compares false,
    [null] converts to 0. *)
Definition belowThreshold (c : Confidence) : bool :=
  match c with
  | NoConfidence => false
  | NullConfidence => PrimFloat.ltb 0%float 0.7%float
  | Number x => PrimFloat.ltb x 0.7%float
  | Coerced x => PrimFloat.ltb x 0.7%float
  end.

(** Lines 107-116: subcategory overrides.  An inherited member passes the
    test of line 108 and has neither a [department] nor a [priority]. *)
Definition applySubcategoryOverride (subcategory : option string) (ai : AiResponse)
  : AiResponse :=
  match subcategory with
  | Some sc =>
      if truthyStr sc then
        match lookup sc SUBCATEGORY_ROUTING with
        | Own override =>
            let ai1 := if truthyStr (sub_department override)
                       then set_department (sub_department override) ai
                       else ai in
            if truthyOpt (sub_priority override)
            then match sub_priority override with
                 | Some p => set_priority p ai1
                 | None => ai1
                 end
            else ai1
        | Inherited _ => ai
        | Missing => ai
        end
      else ai
  | None => ai
  end.

(** Lines 118-124: category defaults.  An inherited member passes the test
    of line 119, and its [department] is [undefined]. *)
Definition applyCategoryDefault (category : option string) (ai : AiResponse)
  : AiResponse :=
  match category with
  | Some c =>
      if truthyStr c then
        match lookup c CATEGORY_ROUTING with
        | Own categoryDefault =>
            if negb (truthyOpt (department ai)) || belowThreshold (routingConfidence ai)
            then set_department (cat_department categoryDefault) ai
            else ai
        | Inherited _ =>
            if negb (truthyOpt (department ai)) || belowThreshold (routingConfidence ai)
            then assign_department None ai
            else ai
        | Missing => ai
        end
      else ai
  | None => ai
  end.

Definition applyRouting (category subcategory : option string) (ai : AiResponse)
  : AiResponse :=
  applyCategoryDefault category (applySubcategoryOverride subcategory ai).

(** The JSON body of the request. *)
Record TicketInput := {
  title : string;
  description : string;
  category : option string;
  subcategory : option string;
  studioId : option string
}.

Inductive Method := OPTIONS | POST | GET.

(** What the classification call does.  [Malformed] stands for every way the
    body of a successful answer can fail to yield [aiResponse]:
    [response.json()] rejecting, [data.choices[0].message.content] missing,
    or [JSON.parse] throwing. *)
Inductive Content :=
| Malformed (message : string)
| Parsed (aiResponse : AiResponse).

Inductive Classifier :=
| NetworkError (message : string)
| HttpAnswer (status : Z) (content : Content).

Definition ok (status : Z) : bool := (200 <=? status) && (status <=? 299).

Inductive Body :=
| NoBody
| Decision (error : option string) (decision : AiResponse).

Record Response := { status : Z; body : Body }.

(** Lines 134-143: the body of the [catch] branch. *)
Definition fallback : AiResponse :=
  {| department := Some "Operations";
     priority := Some "medium";
     suggestedTags := [];
     needsEscalation := false;
     escalationReason := None;
     routingConfidence := Number 0%float;
     analysis := Some "Auto-routing failed, using default assignment" |}.

Definition caught (errorMessage : string) : Response :=
  {| status := 200; body := Decision (Some errorMessage) fallback |}.

(** Decimal rendering of a status code for the error message. *)
Definition statusText (status : Z) : string :=
  "OpenAI API error: " ++ String.string_of_list_ascii
     (List.map (fun d => ascii_of_nat (48 + Z.to_nat d))
               [ (status / 100) mod 10; (status / 10) mod 10; status mod 10 ]).

(** The handler passed to [serve].  [input] is [None] when [req.json()]
    rejects; [openAIApiKey] is the environment variable; [classifier] is the
    outcome of the [fetch] to the completion endpoint. *)
Definition handler (method : Method) (input : option TicketInput)
    (openAIApiKey : option string) (classifier : Classifier) : Response :=
  match method with
  | OPTIONS => {| status := 200; body := NoBody |}
  | _ =>
      match input with
      | None => caught "Unexpected end of JSON input"
      | Some t =>
          if negb (truthyOpt openAIApiKey)
          then caught "OPENAI_API_KEY is not configured"
          else
            match classifier with
            | NetworkError message => caught message
            | HttpAnswer st content =>
                if negb (ok st) then caught (statusText st)
                else
                  match content with
                  | Malformed message => caught message
                  | Parsed aiResponse =>
                      {| status := 200;
                         body := Decision None
                                   (applyRouting (category t) (subcategory t) aiResponse) |}
                  end
            end
      end
  end.

(** The classification step failed: no key, a network error, a non-success
    status, or an answer that cannot be read. *)
Definition classificationFailed (openAIApiKey : option string) (classifier : Classifier)
  : Prop :=
  truthyOpt openAIApiKey = false \/
  (exists m, classifier = NetworkError m) \/
  (exists st c, classifier = HttpAnswer st c /\ ok st = false) \/
  (exists st m, classifier = HttpAnswer st (Malformed m)).

(** A ticket and a classifier answer used in the statements below. *)
Definition theftTicket : TicketInput :=
  {| title := "Bag taken from locker"; description := "A member reports a missing bag";
     category := Some "Health & Safety"; subcategory := Some "Theft";
     studioId := None |}.

Definition unsure : AiResponse :=
  {| department := Some "Facilities"; priority := Some "low"; suggestedTags := [];
     needsEscalation := false; escalationReason := None;
     routingConfidence := Number 0.5%float; analysis := Some "Possibly a lost item" |}.

End Routing.

(** ** Priority escalation in the submission flow ([ticket-new.tsx], [onSubmit]) *)

Module Submission.

Definition priorityOrder : list string := ["low"; "medium"; "high"; "critical"].

Fixpoint indexOfFrom (x : string) (l : list string) (i : Z) : Z :=
  match l with
  | [] => -1
  | y :: rest => if (y =? x)%string then i else indexOfFrom x rest (i + 1)
  end.

(** [Array.prototype.indexOf]: the position of the first occurrence, or -1. *)
Definition indexOf (l : list string) (x : string) : Z := indexOfFrom x l 0.

(** Lines 310-317.  [routingData] is [None] when the invocation reported an
    error or returned nothing; [dataPriority] is the priority of the form. *)
Definition submittedPriority (dataPriority : string)
    (routingData : option Routing.AiResponse) : string :=
  match routingData with
  | Some aiRouting =>
      match Routing.priority aiRouting with
      | Some p =>
          if truthyStr p && (indexOf priorityOrder dataPriority <? indexOf priorityOrder p)
          then p
          else dataPriority
      | None => dataPriority
      end
  | None => dataPriority
  end.

(** The ordered scale of the specification. *)
Inductive Priority := low | medium | high | critical.

Definition name (p : Priority) : string :=
  match p with
  | low => "low" | medium => "medium" | high => "high" | critical => "critical"
  end.

Definition rank (p : Priority) : nat :=
  match p with
  | low => 0 | medium => 1 | high => 2 | critical => 3
  end%nat.

Definition decisionWith (p : string) : Routing.AiResponse :=
  Routing.set_priority p Routing.fallback.

End Submission.

(** ** Data normaliser ([MomenceAPI.getMembershipStatus]) *)

Module Normalizer.

Record Membership := {
  isFrozen : bool;
  endDate : option string
}.

Section Status.

(** [new Date(s).getTime()]: the time value of a date string, [None] for an
    invalid date (NaN). *)
Variable parseDate : string -> option Z.

(** The time value of [new Date()]. *)
Variable now : Z.

Definition getMembershipStatus (membership : option Membership) : string :=
  match membership with
  | None => "inactive"
  | Some m =>
      if isFrozen m then "frozen"
      else
        let endDate := if truthyOpt (endDate m)
                       then match endDate m with
                            | Some s => Some (parseDate s)
                            | None => None
                            end
                       else None in
        match endDate with
        | Some (Some t) => if t <? now then "expired" else "active"
        | Some None => "active"
        | None => "active"
        end
  end.

End Status.

(** A date parser for the examples: it knows two dates. *)
Definition sampleParse (s : string) : option Z :=
  if (s =? "2020-01-01T00:00:00Z")%string then Some 1577836800000
  else if (s =? "2030-01-01T00:00:00Z")%string then Some 1893456000000
  else None.

Definition sampleNow : Z := 1705314645123.

End Normalizer.

(** ** Location lookup ([MomenceAPI.getLocationId])

    A string is the sequence of the bytes of its UTF-8 encoding; equality and
    containment of well-formed strings are those of their encodings. *)

Module Location.

Definition locationMap : list (string * string) :=
  [ ("Kwality House", "9030");
    ("Supreme HQ, Bandra", "29821");
    ("Supreme HQ Bandra", "29821");
    ("Kwality House, Kemps Corner", "9030") ].

(** What [getLocationId] returns: [undefined], an identifier of the table,
    or a member of [Object.prototype] (a function or an object, not a
    string) that the lookup [locationMap[locationName]] inherits. *)
Inductive LocationId :=
| Unresolved
| Id (id : string)
| PrototypeMember (key : string).

(** [s.includes(sub)]. *)
Fixpoint includes (s sub : string) : bool :=
  String.prefix sub s ||
  match s with
  | EmptyString => false
  | String _ rest => includes rest sub
  end.

Section Lookup.

(** [String.prototype.toLowerCase], the case mapping of the runtime. *)
Variable toLowerCase : string -> string.

(** The [for ... of Object.entries(locationMap)] loop. *)
Fixpoint substringMatch (lowerName : string) (entries : list (string * string))
  : option string :=
  match entries with
  | [] => None
  | (key, value) :: rest =>
      if includes lowerName (toLowerCase key) then Some value
      else substringMatch lowerName rest
  end.

(** Lines 630-636: the case-insensitive scan of the table. *)
Definition partialMatch (locationName : string) : LocationId :=
  match substringMatch (toLowerCase locationName) locationMap with
  | Some id => Id id
  | None => Unresolved
  end.

(** [None] is an absent ([undefined]) argument. *)
Definition getLocationId (locationName : option string) : LocationId :=
  match locationName with
  | None => Unresolved
  | Some n =>
      if negb (truthyStr n) then Unresolved
      else
        match lookup n locationMap with
        | Own id => if truthyStr id then Id id else partialMatch n
        | Inherited key => PrototypeMember key
        | Missing => partialMatch n
        end
  end.

End Lookup.

(** The case mapping on strings of ASCII characters, where only the letters
    A to Z change. *)
Definition lowerChar (c : ascii) : ascii :=
  let n := nat_of_ascii c in
  if (65 <=? n)%nat && (n <=? 90)%nat then ascii_of_nat (n + 32) else c.

Fixpoint lowerAscii (s : string) : string :=
  match s with
  | EmptyString => EmptyString
  | String c rest => String (lowerChar c) (lowerAscii rest)
  end.

End Location.

(** ** JSON values, as the client handles them ([any]) *)

Module Js.

#[local] Set Warnings "-register-all".

Inductive Json :=
| JUndefined
| JNull
| JBool (b : bool)
| JNum (n : Z)
| JStr (s : string)
| JArr (items : list Json)
| JObj (fields : list (string * Json)).

Definition truthy (v : Json) : bool :=
  match v with
  | JUndefined | JNull => false
  | JBool b => b
  | JNum n => negb (n =? 0)
  | JStr s => truthyStr s
  | JArr _ | JObj _ => true
  end.

(** [a || b]. *)
Definition or_else (a b : Json) : Json := if truthy a then a else b.

(** [v.key], for the keys the client reads, none of which a prototype
    defines: a TypeError ([None]) on [undefined] and [null], [undefined] for
    a property that is not there. *)
Definition prop (key : string) (v : Json) : option Json :=
  match v with
  | JUndefined | JNull => None
  | JObj fields =>
      Some (match assoc key fields with
            | Some x => x
            | None => JUndefined
            end)
  | _ => Some JUndefined
  end.

(** [v.length]. *)
Definition lengthOf (v : Json) : Json :=
  match v with
  | JArr items => JNum (Z.of_nat (List.length items))
  | JStr s => JNum (Z.of_nat (String.length s))
  | _ => JUndefined
  end.

(** [{ ...obj, key: value }] on the fields of an object: an existing key keeps
    its place and takes the new value, a new key goes last. *)
Fixpoint setField (key : string) (value : Json) (fields : list (string * Json))
  : list (string * Json) :=
  match fields with
  | [] => [(key, value)]
  | (k, v) :: rest =>
      if (k =? key)%string then (k, value) :: rest
      else (k, v) :: setField key value rest
  end.

(** The property name of an array index. *)
Definition indexKey (i : nat) : string := NilZero.string_of_uint (Nat.to_uint i).

Fixpoint indexed {A : Type} (i : nat) (items : list A) : list (string * A) :=
  match items with
  | [] => []
  | x :: rest => (indexKey i, x) :: indexed (S i) rest
  end.

(** The characters of a string, each as a string. *)
Fixpoint characters (s : string) : list Json :=
  match s with
  | EmptyString => []
  | String c rest => JStr (String c EmptyString) :: characters rest
  end.

(** The own enumerable properties copied by [...v]: the fields of an object,
    the elements of an array and the characters of a string (of ASCII
    characters) under their indices, and nothing for the other values. *)
Definition spread (v : Json) : list (string * Json) :=
  match v with
  | JObj fields => fields
  | JArr items => indexed 0 items
  | JStr s => indexed 0 (characters s)
  | _ => []
  end.

End Js.

(** ** Pagination and aggregation ([MomenceAPI.getAllSessionsWithDetails]) *)

Module Pagination.
Import Js.

(** What [this.getSessions] resolves to.  [payload] is the array of rows,
    [None] when the property is missing; [totalCount] is the number that
    [response.pagination?.totalCount] is in the comparison of line 547
    ([null] counts as 0 there), [None] when [pagination] or its count is
    missing and the comparison is false. *)
Record Envelope := {
  payload : option (list Json);
  totalCount : option Z
}.

Section Loop.

(** The answer of [this.getSessions(page, 200, startsBefore, locationId)]
    for each page the loop asks for. *)
Variable getSessions : nat -> Envelope.

(** The answer of [this.getSessionById(session.id)] for a session of a
    page. *)
Variable getSessionById : nat -> Json -> Json.

(** The object [{ ...session, detailedInfo: detailedSession }]. *)
Definition enriched (page : nat) (session id : Json) : Json :=
  JObj (setField "detailedInfo" (getSessionById page id) (spread session)).

(** The callback of [response.payload.map]; [None] is a rejected promise.
    Reading [session.id] throws on [null] and [undefined]; the inner [catch]
    then reads [session.id] again for its log line, before it can return the
    session, and throws in turn.  Nothing else in the callback throws. *)
Definition withDetails (page : nat) (session : Json) : option Json :=
  match prop "id" session with
  | None => None
  | Some id => Some (enriched page session id)
  end.

(** [await Promise.all(payload.map(...))]: the results in order, or a
    rejection when a callback rejects. *)
Fixpoint allDetails (page : nat) (sessions : list Json) : option (list Json) :=
  match sessions with
  | [] => Some []
  | session :: rest =>
      match withDetails page session, allDetails page rest with
      | Some s, Some l => Some (s :: l)
      | _, _ => None
      end
  end.

(** [response.pagination?.totalCount <= (currentPage + 1) * 200]. *)
Definition totalCovered (response : Envelope) (currentPage : nat) : bool :=
  match totalCount response with
  | Some total => total <=? (Z.of_nat currentPage + 1) * 200
  | None => false
  end.

(** The [while (hasMoreData && currentPage < maxPages)] loop; [budget] is
    [maxPages - currentPage].  The first component is [allSessions] when the
    loop ends, [None] when an exception leaves it; the second records the
    pages requested, in order. *)
Fixpoint pageLoop (budget currentPage : nat) (allSessions : list Json)
    (requested : list nat) : option (list Json) * list nat :=
  match budget with
  | O => (Some allSessions, requested)
  | S budget' =>
      let response := getSessions currentPage in
      let requested' := (requested ++ [currentPage])%list in
      match payload response with
      | Some (first :: others) =>
          let rows := first :: others in
          match allDetails currentPage rows with
          | Some sessionsWithDetails =>
              let allSessions' := (allSessions ++ sessionsWithDetails)%list in
              if (Z.of_nat (List.length rows) <? 200) || totalCovered response currentPage
              then (Some allSessions', requested')
              else pageLoop budget' (S currentPage) allSessions' requested'
          | None => (None, requested')
          end
      | _ => (Some allSessions, requested')
      end
  end.

(** Lines 514-563: the loop inside [try], and [return []] in the [catch]. *)
Definition getAllSessionsWithDetails (maxPages : nat) : list Json :=
  match fst (pageLoop maxPages 0 [] []) with
  | Some allSessions => allSessions
  | None => []
  end.

Definition pagesRequested (maxPages : nat) : list nat :=
  snd (pageLoop maxPages 0 [] []).

(** The rows of a page. *)
Definition rows (page : nat) : list Json :=
  match payload (getSessions page) with
  | Some l => l
  | None => []
  end.

(** [session.id], for a row that has properties. *)
Definition idOf (session : Json) : Json :=
  match prop "id" session with
  | Some id => id
  | None => JUndefined
  end.

(** The rows of a page, each with the details fetched for it. *)
Definition enrichedRows (page : nat) : list Json :=
  List.map (fun session => enriched page session (idOf session)) (rows page).

(** The page is short, or the reported total is covered once it is in. *)
Definition lastPage (page : nat) : Prop :=
  (Z.of_nat (List.length (rows page)) < 200) \/
  (exists total, totalCount (getSessions page) = Some total /\
                 total <= (Z.of_nat page + 1) * 200).

(** No row of the page is [null] or [undefined]. *)
Definition noNullRow (page : nat) : Prop :=
  Forall (fun session => session <> JNull /\ session <> JUndefined) (rows page).

(** Every row of the page is an object. *)
Definition objectRows (page : nat) : Prop :=
  Forall (fun session => exists fields, session = JObj fields) (rows page).

(** The aggregation over at most [maxPages] pages, as stated: it requests
    the pages 0 to [n - 1] in order, none of them but the last being a last
    page, stops before the page budget only on a last page, and returns the
    rows of these pages in page order. *)
Definition aggregates (maxPages n : nat) : Prop :=
  (1 <= n <= maxPages)%nat /\
  pagesRequested maxPages = seq 0 n /\
  getAllSessionsWithDetails maxPages = flat_map enrichedRows (seq 0 n) /\
  (forall k, (k + 1 < n)%nat -> ~ lastPage k) /\
  ((n < maxPages)%nat -> lastPage (n - 1)).

End Loop.

(** Example servers: full pages of 200 rows for ever, a short second page,
    and a first page with a [null] row. *)
Definition fullPage : list Json := List.repeat (JObj [("id", JNum 1)]) 200.

Definition endless (page : nat) : Envelope :=
  {| payload := Some fullPage; totalCount := Some 100000 |}.

Definition shortSecond (page : nat) : Envelope :=
  match page with
  | O => {| payload := Some fullPage; totalCount := None |}
  | _ => {| payload := Some [JObj [("id", JNum 7)]]; totalCount := None |}
  end.

Definition nullRow (page : nat) : Envelope :=
  {| payload := Some [JObj [("id", JNum 7)]; JNull]; totalCount := Some 2 |}.

Definition noDetail (page : nat) (id : Json) : Json := JNull.

End Pagination.

(** ** The [Date] operations used by [getSessions]

    Time values are milliseconds since the epoch; the operations follow the
    abstract operations of the language standard ([Day], [TimeWithinDay],
    [DayFromYear], [MonthFromTime], [DateFromTime], [MakeDay], [MakeDate]).
    The offset of the local time zone from UTC depends on the instant, as
    [LocalTZA] of the standard does.  Time values are those a clock reads,
    well inside the range of [Date], where [TimeClip] changes nothing. *)

Module JsDate.

Definition msPerDay : Z := 86400000.
Definition msPerHour : Z := 3600000.
Definition msPerMinute : Z := 60000.
Definition msPerSecond : Z := 1000.

Definition Day (t : Z) : Z := t / msPerDay.
Definition TimeWithinDay (t : Z) : Z := t mod msPerDay.

Definition DaysInYear (y : Z) : Z :=
  if (y mod 4 =? 0) && (negb (y mod 100 =? 0) || (y mod 400 =? 0)) then 366 else 365.

Definition DayFromYear (y : Z) : Z :=
  365 * (y - 1970) + (y - 1969) / 4 - (y - 1901) / 100 + (y - 1601) / 400.

(** The year a day number falls in, by the era decomposition of the
    proleptic Gregorian calendar (eras of 400 years starting on 1 March). *)
Definition YearFromDay (d : Z) : Z :=
  let z := d + 719468 in
  let era := z / 146097 in
  let doe := z - era * 146097 in
  let yoe := (doe - doe / 1460 + doe / 36524 - doe / 146096) / 365 in
  let doy := doe - (365 * yoe + yoe / 4 - yoe / 100) in
  let mp := (5 * doy + 2) / 153 in
  yoe + era * 400 + (if mp <? 10 then 0 else 1).

Definition YearFromTime (t : Z) : Z := YearFromDay (Day t).

(** 1 in a leap year, 0 otherwise. *)
Definition leapOfYear (y : Z) : Z := if DaysInYear y =? 366 then 1 else 0.
Definition InLeapYear (t : Z) : Z := leapOfYear (YearFromTime t).

Definition DayWithinYear (t : Z) : Z := Day t - DayFromYear (YearFromTime t).

(** Days of the year before the first of month [m] (0 = January). *)
Definition monthStart (leap m : Z) : Z :=
  if m =? 0 then 0
  else if m =? 1 then 31
  else if m =? 2 then 59 + leap
  else if m =? 3 then 90 + leap
  else if m =? 4 then 120 + leap
  else if m =? 5 then 151 + leap
  else if m =? 6 then 181 + leap
  else if m =? 7 then 212 + leap
  else if m =? 8 then 243 + leap
  else if m =? 9 then 273 + leap
  else if m =? 10 then 304 + leap
  else 334 + leap.

Definition MonthFromTime (t : Z) : Z :=
  let d := DayWithinYear t in
  let leap := InLeapYear t in
  if d <? 31 then 0
  else if d <? 59 + leap then 1
  else if d <? 90 + leap then 2
  else if d <? 120 + leap then 3
  else if d <? 151 + leap then 4
  else if d <? 181 + leap then 5
  else if d <? 212 + leap then 6
  else if d <? 243 + leap then 7
  else if d <? 273 + leap then 8
  else if d <? 304 + leap then 9
  else if d <? 334 + leap then 10
  else 11.

Definition DateFromTime (t : Z) : Z :=
  DayWithinYear t - monthStart (InLeapYear t) (MonthFromTime t) + 1.

Definition HourFromTime (t : Z) : Z := (t / msPerHour) mod 24.
Definition MinFromTime (t : Z) : Z := (t / msPerMinute) mod 60.
Definition SecFromTime (t : Z) : Z := (t / msPerSecond) mod 60.
Definition msFromTime (t : Z) : Z := t mod msPerSecond.

Definition MakeDay (year month date : Z) : Z :=
  let ym := year + month / 12 in
  let mn := month mod 12 in
  DayFromYear ym + monthStart (leapOfYear ym) mn + date - 1.

Definition MakeDate (day time : Z) : Z := day * msPerDay + time.

Section Zone.

(** [LocalTZA(t, isUTC)]: the offset of local time from UTC, in
    milliseconds, in force at the instant [t] when [isUTC] is true, and at
    the local time [t] otherwise. *)
Variable LocalTZA : Z -> bool -> Z.

Definition LocalTime (t : Z) : Z := t + LocalTZA t true.
Definition UTC (t : Z) : Z := t - LocalTZA t false.

(** [date.getDate()]. *)
Definition getDate (t : Z) : Z := DateFromTime (LocalTime t).

(** [date.setDate(dt)]: the new time value of the date. *)
Definition setDate (t dt : Z) : Z :=
  let lt := LocalTime t in
  UTC (MakeDate (MakeDay (YearFromTime lt) (MonthFromTime lt) dt) (TimeWithinDay lt)).

End Zone.

(** A zone whose offset never changes. *)
Definition fixedZone (offset : Z) : Z -> bool -> Z := fun _ _ => offset.

(** A zone one hour ahead of UTC whose clocks go forward by one hour at
    2024-03-31T01:00:00Z; a local time in the hour that is skipped is read
    with the offset before the change. *)
Definition clocksForward : Z -> bool -> Z :=
  fun t isUTC =>
    if isUTC
    then if t <? 1711846800000 then 3600000 else 7200000
    else if t <? 1711846800000 + 7200000 then 3600000 else 7200000.

Definition digits : list ascii :=
  ["0"; "1"; "2"; "3"; "4"; "5"; "6"; "7"; "8"; "9"]%char.

Definition digit (n : Z) : ascii := nth (Z.to_nat (n mod 10)) digits "0"%char.

Definition pad2 (n : Z) : string :=
  String (digit (n / 10)) (String (digit n) EmptyString).

Definition pad3 (n : Z) : string := String (digit (n / 100)) (pad2 n).

Definition pad4 (n : Z) : string := String (digit (n / 1000)) (pad3 n).

Definition pad6 (n : Z) : string :=
  String (digit (n / 100000)) (String (digit (n / 10000)) (pad4 n)).

Definition yearString (y : Z) : string :=
  if (0 <=? y) && (y <=? 9999) then pad4 y
  else String (if y <? 0 then "-"%char else "+"%char) (pad6 (Z.abs y)).

(** [YYYY-MM-DDTHH:mm:ss] in UTC. *)
Definition isoSeconds (t : Z) : string :=
  yearString (YearFromTime t) ++ "-" ++ pad2 (MonthFromTime t + 1) ++ "-" ++
  pad2 (DateFromTime t) ++ "T" ++ pad2 (HourFromTime t) ++ ":" ++
  pad2 (MinFromTime t) ++ ":" ++ pad2 (SecFromTime t).

(** [date.toISOString()]. *)
Definition toISOString (t : Z) : string :=
  isoSeconds t ++ "." ++ pad3 (msFromTime t) ++ "Z".

(** [s.split('.')[0]]: what precedes the first dot. *)
Fixpoint beforeDot (s : string) : string :=
  match s with
  | EmptyString => EmptyString
  | String c rest => if (c =? ".")%char then EmptyString else String c (beforeDot rest)
  end.

(** No dot occurs in the string. *)
Fixpoint noDot (s : string) : bool :=
  match s with
  | EmptyString => true
  | String c rest => negb (c =? ".")%char && noDot rest
  end.

(** The start of the calendar day (UTC) that follows the day of [t]. *)
Definition startOfNextDayUTC (t : Z) : Z := (Day t + 1) * msPerDay.

End JsDate.

(** ** The Momence client ([MomenceAPI])

    Strings are well formed, so that [encodeURIComponent] does not throw on
    them.  An operation returns its recursive call without awaiting it; the
    call resolves to a value whatever happens, and is placed inside the
    [try] of its caller. *)

Module Momence.
Import Js.

(** The instance fields of the class. *)
Record MomenceAPI := {
  accessToken : Json;
  refreshToken : Json;
  baseURL : string;
  authToken : string;
  username : string;
  password : string
}.

(** The paths requested below [baseURL], with their query parameters. *)
Inductive Endpoint :=
| MembersSearch (query : string)
| MemberById (memberId : string)
| MemberSessions (memberId : string)
| MemberActiveMemberships (memberId : string)
| MemberBookings (memberId : string)
| Sessions (page pageSize : Z) (startsBefore : string) (locationId : option string)
| SessionById (sessionId : string).

(** A call of [fetch]: the two token grants (POST, Basic authorization) and the
    data requests (GET, Bearer authorization with the access token held). *)
Inductive Request :=
| PasswordGrant (basic user pass : string)
| RefreshGrant (basic : string) (refresh_token : Json)
| Get (endpoint : Endpoint) (bearer : Json).

(** What [fetch] does: it rejects, or resolves to a response with a status
    and a body; [None] is a body [response.json()] rejects. *)
Inductive Fetched :=
| Rejected
| Answer (status : Z) (json : option Json).

(** The upstream platform: its answer to a request, given the requests it
    has received before (oldest first). *)
Definition Server : Type := list Request -> Request -> Fetched.

Record World := {
  this : MomenceAPI;
  trace : list Request
}.

(** Computations of the client: a result, an exception in flight, or the
    recursion budget of the model running out; with the world reached. *)
Inductive Res (A : Type) :=
| Ok (a : A)
| Throw
| OutOfFuel.

Arguments Ok {A} a.
Arguments Throw {A}.
Arguments OutOfFuel {A}.

Definition M (A : Type) : Type := World -> Res A * World.

Definition ret {A : Type} (a : A) : M A := fun w => (Ok a, w).

Definition throw {A : Type} : M A := fun w => (Throw, w).

Definition outOfFuel {A : Type} : M A := fun w => (OutOfFuel, w).

Definition bind {A B : Type} (m : M A) (k : A -> M B) : M B :=
  fun w =>
    match m w with
    | (Ok a, w') => k a w'
    | (Throw, w') => (Throw, w')
    | (OutOfFuel, w') => (OutOfFuel, w')
    end.

(** [try { body } catch { return handler }]. *)
Definition try_catch {A : Type} (body : M A) (handler : M A) : M A :=
  fun w =>
    match body w with
    | (Throw, w') => handler w'
    | r => r
    end.

Declare Scope client_scope.
Delimit Scope client_scope with client.

Notation "x <- m ;; k" := (bind m (fun x => k))
  (at level 61, m at next level, right associativity) : client_scope.
Notation "m ;;; k" := (bind m (fun _ => k))
  (at level 61, right associativity) : client_scope.

Local Open Scope client_scope.

Definition getThis : M MomenceAPI := fun w => (Ok (this w), w).

Definition setAccessToken (v : Json) : M unit :=
  fun w =>
    (Ok tt,
     {| this := {| accessToken := v; refreshToken := refreshToken (this w);
                   baseURL := baseURL (this w); authToken := authToken (this w);
                   username := username (this w); password := password (this w) |};
        trace := trace w |}).

Definition setRefreshToken (v : Json) : M unit :=
  fun w =>
    (Ok tt,
     {| this := {| accessToken := accessToken (this w); refreshToken := v;
                   baseURL := baseURL (this w); authToken := authToken (this w);
                   username := username (this w); password := password (this w) |};
        trace := trace w |}).

(** [v.key] inside a [try] block. *)
Definition get_prop (key : string) (v : Json) : M Json :=
  match prop key v with
  | Some x => ret x
  | None => throw
  end.

Definition okStatus (status : Z) : bool := (200 <=? status) && (status <=? 299).

(** [!this.authToken || !this.username || !this.password]. *)
Definition missingCredentials (api : MomenceAPI) : bool :=
  negb (truthyStr (authToken api)) || negb (truthyStr (username api)) ||
  negb (truthyStr (password api)).

Definition emptyEnvelope : Json :=
  JObj [ ("payload", JArr []);
         ("pagination", JObj [("totalCount", JNum 0); ("page", JNum 0); ("pageSize", JNum 0)]) ].

Section Client.

Variable server : Server.

(** The offset of the local time zone, for [getDate] and [setDate]. *)
Variable LocalTZA : Z -> bool -> Z.

(** [await fetch(...)]: the request reaches the server and is recorded. *)
Definition fetch (r : Request) : M (Z * option Json) :=
  fun w =>
    let w' := {| this := this w; trace := (trace w ++ [r])%list |} in
    match server (trace w) r with
    | Rejected => (Throw, w')
    | Answer status json => (Ok (status, json), w')
    end.

(** [await response.json()]. *)
Definition json (response : Z * option Json) : M Json :=
  match snd response with
  | Some v => ret v
  | None => throw
  end.

(** Lines 52-96. *)
Definition authenticate : M bool :=
  try_catch
    (api <- getThis ;;
     if missingCredentials api then ret false
     else
       response <- fetch (PasswordGrant (authToken api) (username api) (password api)) ;;
       if negb (okStatus (fst response)) then throw
       else
         data <- json response ;;
         access_token <- get_prop "access_token" data ;;
         refresh_token <- get_prop "refresh_token" data ;;
         refreshToken' <- get_prop "refreshToken" data ;;
         setAccessToken access_token ;;;
         setRefreshToken (or_else refresh_token refreshToken') ;;;
         ret true)
    (ret false).

(** Lines 98-126. *)
Definition refreshAccessToken : M bool :=
  try_catch
    (api <- getThis ;;
     response <- fetch (RefreshGrant (authToken api) (refreshToken api)) ;;
     if negb (okStatus (fst response)) then throw
     else
       data <- json response ;;
       access_token <- get_prop "access_token" data ;;
       setAccessToken access_token ;;;
       refreshToken' <- get_prop "refreshToken" data ;;
       setRefreshToken refreshToken' ;;;
       ret true)
    (ret false).

(** [if (!this.accessToken) { ... await this.authenticate() ... }], with the
    outcome of the authentication ([true] when none was needed). *)
Definition ensureToken : M bool :=
  api <- getThis ;;
  if negb (truthy (accessToken api)) then authenticate else ret true.

(** Lines 128-188. *)
Fixpoint searchCustomers (fuel : nat) (query : string) : M Json :=
  match fuel with
  | O => outOfFuel
  | S fuel' =>
      try_catch
        (api <- getThis ;;
         if missingCredentials api then ret (JArr [])
         else
           authSuccess <- ensureToken ;;
           if negb authSuccess then ret (JArr [])
           else
             api <- getThis ;;
             response <- fetch (Get (MembersSearch query) (accessToken api)) ;;
             if fst response =? 401 then
               refreshSuccess <- refreshAccessToken ;;
               if refreshSuccess then searchCustomers fuel' query
               else ret (JArr [])
             else if negb (okStatus (fst response)) then ret (JArr [])
             else
               data <- json response ;;
               payload <- get_prop "payload" data ;;
               ret (or_else payload (JArr [])))
        (ret (JArr []))
  end.

(** The second and third request of [getCustomerById]: the body when the
    answer is ok, [{ payload: [] }] otherwise. *)
Definition fetchOptional (e : Endpoint) : M Json :=
  api <- getThis ;;
  response <- fetch (Get e (accessToken api)) ;;
  if okStatus (fst response) then json response
  else ret (JObj [("payload", JArr [])]).

(** Lines 190-275. *)
Fixpoint getCustomerById (fuel : nat) (memberId : string) : M Json :=
  match fuel with
  | O => outOfFuel
  | S fuel' =>
      try_catch
        (ensureToken ;;;
         api <- getThis ;;
         memberResponse <- fetch (Get (MemberById memberId) (accessToken api)) ;;
         if fst memberResponse =? 401 then
           refreshAccessToken ;;;
           getCustomerById fuel' memberId
         else if negb (okStatus (fst memberResponse)) then throw
         else
           memberData <- json memberResponse ;;
           sessionsData <- fetchOptional (MemberSessions memberId) ;;
           membershipsData <- fetchOptional (MemberActiveMemberships memberId) ;;
           sessionsPayload <- get_prop "payload" sessionsData ;;
           membershipsPayload <- get_prop "payload" membershipsData ;;
           let sessions := or_else sessionsPayload (JArr []) in
           let activeMemberships := or_else membershipsPayload (JArr []) in
           ret (JObj (setField "totalMemberships" (lengthOf activeMemberships)
                     (setField "totalSessions" (lengthOf sessions)
                     (setField "activeMemberships" activeMemberships
                     (setField "sessions" sessions (spread memberData)))))))
        (ret JNull)
  end.

(** Lines 277-309. *)
Fixpoint getCustomerBookings (fuel : nat) (memberId : string) : M Json :=
  match fuel with
  | O => outOfFuel
  | S fuel' =>
      try_catch
        (ensureToken ;;;
         api <- getThis ;;
         response <- fetch (Get (MemberBookings memberId) (accessToken api)) ;;
         if fst response =? 401 then
           refreshAccessToken ;;;
           getCustomerBookings fuel' memberId
         else if negb (okStatus (fst response)) then throw
         else
           data <- json response ;;
           payload <- get_prop "payload" data ;;
           ret (or_else payload (JArr [])))
        (ret (JArr []))
  end.

(** Lines 410-416: the default of [startsBefore], read at time [now]. *)
Definition defaultStartsBefore (now : Z) : string :=
  let tomorrow := JsDate.setDate LocalTZA now (JsDate.getDate LocalTZA now + 1) in
  (JsDate.beforeDot (JsDate.toISOString tomorrow) ++ "Z")%string.

(** Lines 420-423: the [locationId] parameter is added when it is truthy. *)
Definition locationParam (locationId : option string) : option string :=
  match locationId with
  | Some l => if truthyStr l then Some l else None
  | None => None
  end.

(** [startsBeforeParam] after lines 411-416. *)
Definition startsBeforeParam (now : Z) (startsBefore : option string) : string :=
  match startsBefore with
  | Some s => if truthyStr s then s else defaultStartsBefore now
  | None => defaultStartsBefore now
  end.

(** Lines 393-459.  [now] is the time value [new Date()] reads; an absent
    [startsBefore] or [locationId] is [None].  The log line of a successful
    answer reads [data.payload] before [data] is returned. *)
Fixpoint getSessions (fuel : nat) (now : Z) (page pageSize : Z)
    (startsBefore locationId : option string) : M Json :=
  match fuel with
  | O => outOfFuel
  | S fuel' =>
      try_catch
        (api <- getThis ;;
         if missingCredentials api then ret emptyEnvelope
         else
           authSuccess <- ensureToken ;;
           if negb authSuccess then ret emptyEnvelope
           else
             let startsBeforeParam := startsBeforeParam now startsBefore in
             let location := locationParam locationId in
             api <- getThis ;;
             response <- fetch (Get (Sessions page pageSize startsBeforeParam location)
                                    (accessToken api)) ;;
             if fst response =? 401 then
               refreshSuccess <- refreshAccessToken ;;
               if refreshSuccess
               then getSessions fuel' now page pageSize (Some startsBeforeParam) locationId
               else ret emptyEnvelope
             else if negb (okStatus (fst response)) then ret emptyEnvelope
             else
               data <- json response ;;
               get_prop "payload" data ;;;
               ret data)
        (ret emptyEnvelope)
  end.

(** Lines 461-512. *)
Fixpoint getSessionById (fuel : nat) (sessionId : string) : M Json :=
  match fuel with
  | O => outOfFuel
  | S fuel' =>
      try_catch
        (api <- getThis ;;
         if missingCredentials api then ret JNull
         else
           authSuccess <- ensureToken ;;
           if negb authSuccess then ret JNull
           else
             api <- getThis ;;
             response <- fetch (Get (SessionById sessionId) (accessToken api)) ;;
             if fst response =? 401 then
               refreshSuccess <- refreshAccessToken ;;
               if refreshSuccess then getSessionById fuel' sessionId
               else ret JNull
             else if negb (okStatus (fst response)) then ret JNull
             else json response)
        (ret JNull)
  end.

End Client.

End Momence.

(** ** Servers and initial states used in the statements below *)

Module Scenario.
Import Js Momence.

(** Number of refresh grants, and of data requests, in a trace. *)
Fixpoint refreshCount (trace : list Request) : nat :=
  match trace with
  | [] => 0
  | RefreshGrant _ _ :: rest => S (refreshCount rest)
  | _ :: rest => refreshCount rest
  end%nat.

Fixpoint getCount (trace : list Request) : nat :=
  match trace with
  | [] => 0
  | Get _ _ :: rest => S (getCount rest)
  | _ :: rest => getCount rest
  end%nat.

(** The [startsBefore] parameters of the session listings in a trace. *)
Fixpoint startsBeforeSent (trace : list Request) : list string :=
  match trace with
  | [] => []
  | Get (Sessions _ _ s _) _ :: rest => s :: startsBeforeSent rest
  | _ :: rest => startsBeforeSent rest
  end.

Definition grantBody : Json :=
  JObj [ ("access_token", JStr "fresh"); ("refreshToken", JStr "next");
         ("token_type", JStr "Bearer") ].

(** The body of a successful data answer: a page of [rows] for the listings,
    the record itself for the detail endpoints. *)
Definition content (rows : list Json) (e : Endpoint) : Json :=
  match e with
  | MemberById id | SessionById id => JObj [("id", JStr id)]
  | _ => JObj [("payload", JArr rows)]
  end.

(** A server whose access tokens keep expiring: it grants every token
    request, answers 401 to data requests until it has seen [n] refresh
    grants, and 200 afterwards. *)
Definition expiring (n : nat) (rows : list Json) : Server :=
  fun history request =>
    match request with
    | Get e _ =>
        if (refreshCount history <? n)%nat then Answer 401 None
        else Answer 200 (Some (content rows e))
    | _ => Answer 200 (Some grantBody)
    end.

(** A server that never accepts the token: 401 to every data request, every
    grant succeeds. *)
Definition always401 : Server :=
  fun history request =>
    match request with
    | Get _ _ => Answer 401 None
    | _ => Answer 200 (Some grantBody)
    end.

(** A server that checks what it is sent: it accepts the bearer token
    ["live"] only, grants a token to user ["host"] with password ["secret"],
    and refuses everything else with 401. *)
Definition strict (rows : list Json) : Server :=
  fun history request =>
    match request with
    | Get e (JStr "live") => Answer 200 (Some (content rows e))
    | PasswordGrant _ "host" "secret" =>
        Answer 200 (Some (JObj [("access_token", JStr "live"); ("refresh_token", JStr "again")]))
    | RefreshGrant _ (JStr "again") =>
        Answer 200 (Some (JObj [("access_token", JStr "live"); ("refresh_token", JStr "again")]))
    | _ => Answer 401 None
    end.

(** A deployment with its three variables set, holding a token pair. *)
Definition configured : MomenceAPI :=
  {| accessToken := JStr "stale"; refreshToken := JStr "again";
     baseURL := "https://api.momence.com/api/v2";
     authToken := "basic"; username := "host"; password := "secret" |}.

(** The state the constructor leaves when no variable is set. *)
Definition unconfigured : MomenceAPI :=
  {| accessToken := JStr ""; refreshToken := JStr "";
     baseURL := "https://api.momence.com/api/v2";
     authToken := ""; username := ""; password := "" |}.

Definition fresh (api : MomenceAPI) : World := {| this := api; trace := [] |}.

(** The world after a data request answered 401 and the refresh grant of
    [expiring] that follows it. *)
Definition refreshed (e : Endpoint) (w : World) : World :=
  {| this := {| accessToken := JStr "fresh"; refreshToken := JStr "next";
                baseURL := baseURL (this w); authToken := authToken (this w);
                username := username (this w); password := password (this w) |};
     trace := (trace w ++ [Get e (accessToken (this w));
                           RefreshGrant (authToken (this w)) (refreshToken (this w))])%list |}.

(** The world after a data request. *)
Definition asked (e : Endpoint) (w : World) : World :=
  {| this := this w; trace := (trace w ++ [Get e (accessToken (this w))])%list |}.

(** What [getCustomerById] assembles from the answers of [expiring]. *)
Definition customerRecord (memberId : string) (rows : list Json) : Json :=
  JObj [ ("id", JStr memberId);
         ("sessions", JArr rows);
         ("activeMemberships", JArr rows);
         ("totalSessions", JNum (Z.of_nat (List.length rows)));
         ("totalMemberships", JNum (Z.of_nat (List.length rows))) ].

(** The state a retried operation starts from: the three credentials, and a
    non-empty access token. *)
Definition ready (w : World) : Prop :=
  missingCredentials (this w) = false /\ truthy (accessToken (this w)) = true.

(** An operation run from world [w] returns [result], having sent [refreshes]
    more refresh grants and [gets] more data requests. *)
Definition returnsAfter (refreshes gets : nat) (result : Json) (w : World)
    (outcome : Res Json * World) : Prop :=
  fst outcome = Ok result /\
  refreshCount (trace (snd outcome)) = (refreshCount (trace w) + refreshes)%nat /\
  getCount (trace (snd outcome)) = (getCount (trace w) + gets)%nat.

(** What an operation that checks the refresh does after a 401, from the
    world in which the refused request has been sent: one refresh attempt; on
    success the operation [again], otherwise its [empty] value. *)
Definition afterRefresh (server : Server) (empty : Json) (again : M Json)
    (w : World) : Res Json * World :=
  match refreshAccessToken server w with
  | (Ok true, w') =>
      match again w' with
      | (Throw, w'') => (Ok empty, w'')
      | r => r
      end
  | (Ok false, w') => (Ok empty, w')
  | (Throw, w') => (Ok empty, w')
  | (OutOfFuel, w') => (OutOfFuel, w')
  end.

(** The same for [getCustomerById] and [getCustomerBookings], which run again
    whatever the refresh returned. *)
Definition afterRefreshUnchecked (server : Server) (empty : Json) (again : M Json)
    (w : World) : Res Json * World :=
  match refreshAccessToken server w with
  | (Ok _, w') =>
      match again w' with
      | (Throw, w'') => (Ok empty, w'')
      | r => r
      end
  | (Throw, w') => (Ok empty, w')
  | (OutOfFuel, w') => (OutOfFuel, w')
  end.

(** One refresh attempt from world [w]: [refreshAccessToken] sends the
    refresh grant, and nothing else, and returns [granted]; [w'] is the world
    it leaves. *)
Definition refreshAttempt (server : Server) (w : World) (granted : bool) (w' : World)
  : Prop :=
  refreshAccessToken server w = (Ok granted, w') /\
  trace w' = (trace w ++ [RefreshGrant (authToken (this w)) (refreshToken (this w))])%list.

(** The server answers 401 to the data request for [e] sent from [w]. *)
Definition refused (server : Server) (e : Endpoint) (w : World) : Prop :=
  exists body, server (trace w) (Get e (accessToken (this w))) = Answer 401 body.

Definition row : Json := JObj [("id", JStr "s1")].

(** The single-retry policy, as stated: after a second 401 the operation
    gives up with its empty value, having made one refresh attempt and one
    retry. *)
Definition givesUpAfterSecond401 (empty : Json) (w : World)
    (outcome : Res Json * World) : Prop :=
  returnsAfter 1 2 empty w outcome.

(** The default of [startsBefore]: the local time of the call moved one
    calendar day ahead, as an instant. *)
Definition sameTimeNextDay (LocalTZA : Z -> bool -> Z) (now : Z) : Z :=
  JsDate.UTC LocalTZA (JsDate.LocalTime LocalTZA now + JsDate.msPerDay).

(** The default of [startsBefore], as stated: the start of the next calendar
    day in UTC, to the second. *)
Definition startOfNextDayParam (now : Z) : string :=
  (JsDate.isoSeconds (JsDate.startOfNextDayUTC now) ++ "Z")%string.

(** The trace of [w'] continues the trace of [w], and every session listing
    sent in between carries [startsBefore = s]. *)
Definition sendsStartsBefore (s : string) (w w' : World) : Prop :=
  exists sent, trace w' = (trace w ++ sent)%list /\
               Forall (eq s) (startsBeforeSent sent).

Definition sampleNow : Z := 1705314645123.

End Scenario.

(** ** Location names, by containment *)

Module LocationMore.
Import Location.

(** The lookup by containment alone: the first key, lower-cased, decides for
    9030; the two spellings of the second studio for 29821. *)
Definition byContainment (toLowerCase : string -> string) (name : string) : LocationId :=
  let lowerName := toLowerCase name in
  if includes lowerName "kwality house" then Id "9030"
  else if includes lowerName "supreme hq, bandra" || includes lowerName "supreme hq bandra"
       then Id "29821"
       else Unresolved.

(** The case mapping leaves a string of ASCII characters as [lowerAscii]
    maps it; this is all that is used of it on the keys of the table. *)
Definition lowersKeys (toLowerCase : string -> string) : Prop :=
  forall key id, In (key, id) locationMap -> toLowerCase key = lowerAscii key.

End LocationMore.

(** ** Reasoning about client computations *)

Module ClientLogic.
Import Js Momence.

(** The credential set of an instance: what the constructor reads from the
    environment. *)
Definition credentials (api : MomenceAPI) : string * string * string * string :=
  (baseURL api, authToken api, username api, password api).

(** A computation keeps the credentials, only appends to the trace, and every
    request it sends satisfies [P]. *)
Definition sends {A : Type} (P : Request -> Prop) (m : M A) : Prop :=
  forall w,
    credentials (this (snd (m w))) = credentials (this w) /\
    exists sent, trace (snd (m w)) = (trace w ++ sent)%list /\ Forall P sent.

(** A computation never ends with an exception in flight. *)
Definition neverThrows {A : Type} (m : M A) : Prop :=
  forall w, fst (m w) <> Throw.

(** The data requests among the requests satisfy [E]; the token grants are
    not constrained. *)
Definition dataRequests (E : Endpoint -> Prop) (r : Request) : Prop :=
  match r with
  | Get e _ => E e
  | _ => True
  end.


(** An answer to a data request that is a failure other than 401: the
    request is rejected (network error), or the status is not a success. *)
Definition plainFailure (f : Fetched) : Prop :=
  f = Rejected \/
  exists st body, f = Answer st body /\ okStatus st = false /\ st <> 401.

(** A token grant that is refused: the request is rejected, or the status is
    not a success. *)
Definition refusedGrant (f : Fetched) : Prop :=
  f = Rejected \/ exists st body, f = Answer st body /\ okStatus st = false.

(** The world after a token request. *)
Definition granted (r : Request) (w : World) : World :=
  {| this := this w; trace := (trace w ++ [r])%list |}.

Definition passwordGrant (api : MomenceAPI) : Request :=
  PasswordGrant (authToken api) (username api) (password api).

Definition refreshGrant (api : MomenceAPI) : Request :=
  RefreshGrant (authToken api) (refreshToken api).

(** The instance after a successful authentication with body [data]. *)
Definition withTokens (access refresh : Json) (api : MomenceAPI) : MomenceAPI :=
  {| accessToken := access; refreshToken := refresh;
     baseURL := baseURL api; authToken := authToken api;
     username := username api; password := password api |}.

(** A server that is down: it answers every request with [status] and no
    readable body; and a network that rejects every request. *)
Definition broken (status : Z) : Server := fun _ _ => Answer status None.

Definition offline : Server := fun _ _ => Rejected.

(** A deployment with its three variables set that has not authenticated
    yet. *)
Definition unauthenticated : MomenceAPI :=
  {| accessToken := JStr ""; refreshToken := JStr "";
     baseURL := "https://api.momence.com/api/v2";
     authToken := "basic"; username := "host"; password := "secret" |}.

(** A server on which only the member record can be read: the two lists of
    [getCustomerById] are answered 500. *)
Definition memberOnly : Server :=
  fun _ request =>
    match request with
    | Get (MemberById id) _ =>
        Answer 200 (Some (JObj [("id", JStr id); ("firstName", JStr "Asha")]))
    | _ => Answer 500 None
    end.

End ClientLogic.

(** ** Data normaliser, continued ([getActivityLevel], [formatCustomerData])
    and the status shown by the client search component *)

Module NormalizerMore.
Import Js Normalizer.

(** Lines 384-390 of the client. *)
Definition getActivityLevel (totalVisits : Z) : string :=
  if totalVisits =? 0 then "new"
  else if totalVisits <=? 5 then "beginner"
  else if totalVisits <=? 20 then "regular"
  else if totalVisits <=? 50 then "frequent"
  else "vip".

(** The order of the tiers. *)
Definition levelRank (level : string) : nat :=
  if (level =? "new")%string then 0
  else if (level =? "beginner")%string then 1
  else if (level =? "regular")%string then 2
  else if (level =? "frequent")%string then 3
  else 4.

Section Component.

Variable parseDate : string -> option Z.
Variable now : Z.

(** [!m.endDate || new Date(m.endDate) > new Date()]. *)
Definition notEnded (m : Membership) : bool :=
  negb (truthyOpt (endDate m)) ||
  match endDate m with
  | Some s => match parseDate s with
              | Some t => now <? t
              | None => false
              end
  | None => false
  end.

(** [getMembershipStatus] of [momence-client-search.tsx], lines 253-260, over
    the memberships loaded for the selected member. *)
Definition shownMembershipStatus (memberMemberships : list Membership) : string :=
  match memberMemberships with
  | [] => "inactive"
  | _ =>
      let hasActive := existsb (fun m => negb (isFrozen m) && notEnded m) memberMemberships in
      let hasFrozen := existsb (fun m => isFrozen m) memberMemberships in
      if hasActive then "active"
      else if hasFrozen then "frozen"
      else "expired"
  end.

End Component.

(** The records [formatCustomerData] reads.  An absent property is [None];
    counters are integers. *)
Record Visits := {
  total : option Z;
  appointments : option Z;
  bookings : option Z;
  appointmentsVisits : option Z;
  bookingsVisits : option Z;
  v_openAreaVisits : option Z
}.

Record SessionInfo := {
  startsAt : option string;
  sessionName : option string
}.

(** An entry of [customer.sessions]. *)
Record Booking := {
  session : option SessionInfo;
  checkedIn : bool
}.

Record Plan := {
  planId : Json;
  planName : option string
}.

(** An entry of [customer.activeMemberships]. *)
Record BoughtMembership := {
  membership : option Plan;
  membershipType : option string;
  startDate : option string;
  m_endDate : option string;
  m_isFrozen : bool;
  eventCreditsLeft : option Z;
  usedSessions : option Z;
  usageLimitForSessions : option Z;
  usedAppointments : option Z;
  usageLimitForAppointments : option Z
}.

Record Customer := {
  id : Json;
  firstName : option string;
  lastName : option string;
  email : option string;
  phoneNumber : option string;
  phone : option string;
  pictureUrl : option string;
  firstSeen : option string;
  lastSeen : option string;
  visits : option Visits;
  sessions : option (list Booking);
  activeMemberships : option (list BoughtMembership);
  c_totalSessions : option Z;
  c_totalMemberships : option Z;
  customerFields : option (list Json);
  customerTags : option (list Json);
  notes : option string
}.

Record FormattedCustomer := {
  f_id : Json;
  f_firstName : string;
  f_lastName : string;
  f_email : string;
  f_phone : string;
  f_pictureUrl : string;
  f_firstSeen : option string;
  f_lastSeen : option string;
  totalVisits : Z;
  totalAppointments : Z;
  totalBookings : Z;
  appointmentVisits : Z;
  bookingVisits : Z;
  openAreaVisits : Z;
  f_sessions : list Booking;
  totalSessions : Z;
  recentSessions : list Booking;
  lastSessionDate : option string;
  lastSessionName : option string;
  f_activeMemberships : list BoughtMembership;
  totalMemberships : Z;
  currentMembershipName : option string;
  currentMembershipType : option string;
  membershipStartDate : option string;
  membershipEndDate : option string;
  membershipFrozen : bool;
  creditsLeft : option Z;
  sessionsUsed : Z;
  sessionsLimit : option Z;
  appointmentsUsed : Z;
  appointmentsLimit : option Z;
  f_customerFields : list Json;
  f_customerTags : list Json;
  membershipStatus : string;
  activityLevel : string;
  membershipId : Json;
  joinDate : option string;
  lastVisit : option string;
  f_notes : string
}.

(** [s || ''] and [s || null] on an optional string. *)
Definition orEmpty (s : option string) : string :=
  match s with
  | Some x => x
  | None => ""
  end.

Definition orNull (s : option string) : option string :=
  match s with
  | Some x => if truthyStr x then Some x else None
  | None => None
  end.

(** [n || 0] and [n || null] on an optional number, and [a || b] on
    numbers. *)
Definition orZero (n : option Z) : Z :=
  match n with
  | Some x => x
  | None => 0
  end.

Definition orNullZ (n : option Z) : option Z :=
  match n with
  | Some x => if x =? 0 then None else Some x
  | None => None
  end.

Definition orElseZ (a b : Z) : Z := if a =? 0 then b else a.

(** [a?.f] on an optional record. *)
Definition opt {A B : Type} (a : option A) (f : A -> option B) : option B :=
  match a with
  | Some x => f x
  | None => None
  end.

(** [list.slice(-n)]. *)
Definition lastN {A : Type} (n : nat) (l : list A) : list A :=
  skipn (List.length l - n) l.

(** [list[list.length - 1]]. *)
Definition lastOf {A : Type} (l : list A) : option A :=
  nth_error l (List.length l - 1).

(** The object [getMembershipStatus] looks at. *)
Definition statusView (m : BoughtMembership) : Membership :=
  {| isFrozen := m_isFrozen m; endDate := m_endDate m |}.

Section Format.

Variable parseDate : string -> option Z.
Variable now : Z.

(** Lines 311-371 of the client. *)
Definition formatCustomerData (customer : Customer) : FormattedCustomer :=
  let activeMembership :=
    match activeMemberships customer with
    | Some (m :: _) => Some m
    | _ => None
    end in
  let recentSessions :=
    match sessions customer with
    | Some l => lastN 5 l
    | None => []
    end in
  let lastSession := opt (sessions customer) lastOf in
  let sessionList :=
    match sessions customer with
    | Some l => l
    | None => []
    end in
  let count (f : Booking -> bool) := Z.of_nat (List.length (List.filter f sessionList)) in
  {| f_id := id customer;
     f_firstName := orEmpty (firstName customer);
     f_lastName := orEmpty (lastName customer);
     f_email := orEmpty (email customer);
     f_phone := match orNull (phoneNumber customer) with
                | Some p => p
                | None => orEmpty (phone customer)
                end;
     f_pictureUrl := orEmpty (pictureUrl customer);
     f_firstSeen := orNull (firstSeen customer);
     f_lastSeen := orNull (lastSeen customer);
     totalVisits := orElseZ (Z.of_nat (List.length sessionList))
                            (orZero (opt (visits customer) total));
     totalAppointments := orZero (opt (visits customer) appointments);
     totalBookings := orElseZ (count (fun s => match session s with
                                               | Some _ => true
                                               | None => false
                                               end))
                              (orZero (opt (visits customer) bookings));
     appointmentVisits := orZero (opt (visits customer) appointmentsVisits);
     bookingVisits := orElseZ (count checkedIn)
                              (orZero (opt (visits customer) bookingsVisits));
     openAreaVisits := orZero (opt (visits customer) v_openAreaVisits);
     f_sessions := sessionList;
     totalSessions := orElseZ (Z.of_nat (List.length sessionList))
                              (orZero (c_totalSessions customer));
     recentSessions := recentSessions;
     lastSessionDate := orNull (opt (opt lastSession session) startsAt);
     lastSessionName := orNull (opt (opt lastSession session) sessionName);
     f_activeMemberships := match activeMemberships customer with
                            | Some l => l
                            | None => []
                            end;
     totalMemberships := orZero (c_totalMemberships customer);
     currentMembershipName := orNull (opt (opt activeMembership membership) planName);
     currentMembershipType := orNull (opt activeMembership membershipType);
     membershipStartDate := orNull (opt activeMembership startDate);
     membershipEndDate := orNull (opt activeMembership m_endDate);
     membershipFrozen := match activeMembership with
                         | Some m => m_isFrozen m
                         | None => false
                         end;
     creditsLeft := orNullZ (opt activeMembership eventCreditsLeft);
     sessionsUsed := orZero (opt activeMembership usedSessions);
     sessionsLimit := orNullZ (opt activeMembership usageLimitForSessions);
     appointmentsUsed := orZero (opt activeMembership usedAppointments);
     appointmentsLimit := orNullZ (opt activeMembership usageLimitForAppointments);
     f_customerFields := match customerFields customer with
                         | Some l => l
                         | None => []
                         end;
     f_customerTags := match customerTags customer with
                       | Some l => l
                       | None => []
                       end;
     membershipStatus :=
       getMembershipStatus parseDate now (option_map statusView activeMembership);
     activityLevel := getActivityLevel (orZero (opt (visits customer) total));
     membershipId := match opt activeMembership membership with
                     | Some p => or_else (planId p) (JStr "")
                     | None => JStr ""
                     end;
     joinDate := orNull (firstSeen customer);
     lastVisit := orNull (lastSeen customer);
     f_notes := orEmpty (notes customer) |}.

End Format.

(** The membership [formatCustomerData] takes its membership fields from. *)
Definition firstMembership (customer : Customer) : option BoughtMembership :=
  match activeMemberships customer with
  | Some (m :: _) => Some m
  | _ => None
  end.

(** A member with seven bookings and no visit statistics, for the
    examples. *)
Definition booking (n : string) (attended : bool) : Booking :=
  {| session := Some {| startsAt := Some "2024-01-10T08:00:00Z"; sessionName := Some n |};
     checkedIn := attended |}.

Definition sevenBookings : list Booking :=
  [ booking "a" true; booking "b" true; booking "c" false; booking "d" true;
    booking "e" true; booking "f" false; booking "g" true ].

Definition frozenPlan : BoughtMembership :=
  {| membership := Some {| planId := JNum 7; planName := Some "Unlimited" |};
     membershipType := Some "subscription"; startDate := Some "2019-01-01T00:00:00Z";
     m_endDate := Some "2020-01-01T00:00:00Z"; m_isFrozen := true;
     eventCreditsLeft := Some 0; usedSessions := Some 3;
     usageLimitForSessions := None; usedAppointments := None;
     usageLimitForAppointments := None |}.

Definition openPlan : BoughtMembership :=
  {| membership := Some {| planId := JNum 8; planName := Some "Class pack" |};
     membershipType := Some "package"; startDate := Some "2023-06-01T00:00:00Z";
     m_endDate := None; m_isFrozen := false;
     eventCreditsLeft := Some 4; usedSessions := Some 6;
     usageLimitForSessions := Some 10; usedAppointments := None;
     usageLimitForAppointments := None |}.

Definition regularMember : Customer :=
  {| id := JStr "42"; firstName := Some "Asha"; lastName := Some "Rao";
     email := Some "asha@example.com"; phoneNumber := None; phone := Some "555";
     pictureUrl := None; firstSeen := Some "2019-01-01T00:00:00Z"; lastSeen := None;
     visits := None; sessions := Some sevenBookings;
     activeMemberships := Some [frozenPlan; openPlan];
     c_totalSessions := None; c_totalMemberships := Some 2;
     customerFields := None; customerTags := None; notes := None |}.

(** The same member holding the frozen membership only. *)
Definition frozenOnlyMember : Customer :=
  {| id := JStr "42"; firstName := Some "Asha"; lastName := Some "Rao";
     email := Some "asha@example.com"; phoneNumber := None; phone := Some "555";
     pictureUrl := None; firstSeen := Some "2019-01-01T00:00:00Z"; lastSeen := None;
     visits := None; sessions := Some sevenBookings;
     activeMemberships := Some [frozenPlan];
     c_totalSessions := None; c_totalMemberships := Some 1;
     customerFields := None; customerTags := None; notes := None |}.

End NormalizerMore.

(** ** The proxy function ([momence-api], an edge function in front of the
    platform) *)

Module Proxy.
Import Js.

(** The JSON body of a request ([MomenceRequest]); an absent property is
    [None]. *)
Record MomenceRequest := {
  action : string;
  query : option string;
  memberId : option Z;
  sessionId : option Z;
  page : option Z;
  pageSize : option Z
}.

(** The URLs requested below [MOMENCE_BASE_URL], with their parameters. *)
Inductive Url :=
| MembersUrl (page pageSize : Z) (query : string)
| MemberSessionsUrl (memberId page pageSize : Z) (startBefore : string)
| MemberMembershipsUrl (memberId page : Z)
| SessionsUrl (page pageSize : Z)
| SessionDetailsUrl (sessionId : Z).

Inductive Method := OPTIONS | POST.

(** The body of the answer: none (preflight), the upstream JSON, or
    [{ error }]; the message is [None] where the runtime words it (a rejected
    [fetch], an unreadable body, a TypeError). *)
Inductive Body :=
| NoBody
| Data (json : Json)
| Failure (message : option string).

Record Response := { status : Z; body : Body }.

(** [!n] on an optional number: absent and 0 are falsy. *)
Definition givenId (n : option Z) : option Z :=
  match n with
  | Some z => if z =? 0 then None else Some z
  | None => None
  end.

(** A default parameter of the destructuring. *)
Definition withDefault (d : Z) (n : option Z) : Z :=
  match n with
  | Some z => z
  | None => d
  end.

(** Decimal digits of a status code. *)
Definition statusDigits (status : Z) : string :=
  String.string_of_list_ascii
    (List.map JsDate.digit [status / 100; status / 10; status]).

(** The [switch (action)]: the URL to fetch, or the message of the error
    thrown.  [now] is the time value [new Date()] reads. *)
Definition route (now : Z) (r : MomenceRequest) : string + Url :=
  let page := withDefault 0 (page r) in
  let pageSize := withDefault 100 (pageSize r) in
  if (action r =? "searchMembers")%string then
    inr (MembersUrl page pageSize (match query r with Some q => q | None => "" end))
  else if (action r =? "getMemberSessions")%string then
    match givenId (memberId r) with
    | Some m => inr (MemberSessionsUrl m page pageSize (JsDate.toISOString now))
    | None => inl "memberId is required"
    end
  else if (action r =? "getMemberMemberships")%string then
    match givenId (memberId r) with
    | Some m => inr (MemberMembershipsUrl m page)
    | None => inl "memberId is required"
    end
  else if (action r =? "getSessions")%string then
    inr (SessionsUrl page pageSize)
  else if (action r =? "getSessionDetails")%string then
    match givenId (sessionId r) with
    | Some s => inr (SessionDetailsUrl s)
    | None => inl "sessionId is required"
    end
  else inl ("Unknown action: " ++ action r).

Definition failed (message : option string) : Response :=
  {| status := 500; body := Failure message |}.

(** The handler passed to [serve]: the answer, and the upstream requests
    made.  [momenceToken] is the environment variable, [input] is [None]
    when [req.json()] rejects, [upstream] is the platform. *)
Definition handler (method : Method) (momenceToken : option string)
    (input : option MomenceRequest) (now : Z) (upstream : Url -> Momence.Fetched)
  : Response * list Url :=
  match method with
  | OPTIONS => ({| status := 200; body := NoBody |}, [])
  | POST =>
      if negb (truthyOpt momenceToken)
      then (failed (Some "Momence API not configured"), [])
      else
        match input with
        | None => (failed None, [])
        | Some r =>
            match route now r with
            | inl message => (failed (Some message), [])
            | inr url =>
                match upstream url with
                | Momence.Rejected => (failed None, [url])
                | Momence.Answer st json =>
                    if negb (Momence.okStatus st)
                    then (failed (Some ("Momence API error: " ++ statusDigits st)), [url])
                    else
                      match json with
                      | None => (failed None, [url])
                      | Some data =>
                          (* the log line reads data.payload *)
                          match prop "payload" data with
                          | None => (failed None, [url])
                          | Some _ => ({| status := 200; body := Data data |}, [url])
                          end
                      end
                end
            end
        end
  end.

(** A platform that answers every request with one page, and one that is
    down. *)
Definition onePage (u : Url) : Momence.Fetched :=
  Momence.Answer 200 (Some (JObj [("payload", JArr [JObj [("id", JNum 1)]])])).

Definition down (u : Url) : Momence.Fetched := Momence.Answer 503 None.

Definition searchFor (q : string) : MomenceRequest :=
  {| action := "searchMembers"; query := Some q; memberId := None; sessionId := None;
     page := None; pageSize := None |}.

Definition sessionsOf (m : option Z) : MomenceRequest :=
  {| action := "getMemberSessions"; query := None; memberId := m; sessionId := None;
     page := None; pageSize := None |}.

End Proxy.

(** ** The new-ticket form ([ticket-new.tsx]) *)

Module Form.
Import Js.

(** *** Steps (lines 450-456) *)

Definition nextStep (currentStep : Z) : Z :=
  if currentStep <? 4 then currentStep + 1 else currentStep.

Definition prevStep (currentStep : Z) : Z :=
  if 1 <? currentStep then currentStep - 1 else currentStep.

Inductive Click := Next | Previous.

Definition click (currentStep : Z) (c : Click) : Z :=
  match c with
  | Next => nextStep currentStep
  | Previous => prevStep currentStep
  end.

(** The step shown after a series of clicks; the form opens on step 1. *)
Definition stepAfter (clicks : list Click) : Z := fold_left click clicks 1.

(** *** Attachments (lines 439-448) *)

Section Files.

Variable File : Type.

(** [[...prev, ...newFiles].slice(0, 5)]. *)
Definition handleFileChange (newFiles prev : list File) : list File :=
  firstn 5 (prev ++ newFiles).

(** [prev.filter((_, i) => i !== index)], counting from [i]. *)
Fixpoint filterIndex (index i : nat) (prev : list File) : list File :=
  match prev with
  | [] => []
  | f :: rest =>
      if (i =? index)%nat then filterIndex index (S i) rest
      else f :: filterIndex index (S i) rest
  end.

Definition removeFile (index : nat) (prev : list File) : list File :=
  filterIndex index 0 prev.

Inductive FileAction :=
| Choose (newFiles : list File)
| Remove (index : nat).

Definition applyFileAction (prev : list File) (a : FileAction) : list File :=
  match a with
  | Choose newFiles => handleFileChange newFiles prev
  | Remove index => removeFile index prev
  end.

(** The attachments after a series of actions, starting with none. *)
Definition filesAfter (actions : list FileAction) : list File :=
  fold_left applyFileAction actions [].

End Files.

End Form.

(** * Properties *)

(** ** Routing decision engine *)

Module RoutingFacts.
Import Routing.

Lemma set_department_priority (d : string) (ai : AiResponse) :
  priority (set_department d ai) = priority ai.
Proof. reflexivity. Qed.

(** Every entry of the override table names a department and a priority. *)
Lemma lookup_own {A : Type} (key : string) (table : list (string * A)) (v : A) :
  assoc key table = Some v -> lookup key table = Own v.
Proof. intros H. unfold lookup. rewrite H. reflexivity. Qed.

Lemma override_entry_complete (sc : string) (o : SubcategoryRoute) :
  assoc sc SUBCATEGORY_ROUTING = Some o ->
  truthyStr (sub_department o) = true /\
  exists p, sub_priority o = Some p /\ truthyStr p = true.
Proof.
  unfold SUBCATEGORY_ROUTING; cbn [assoc].
  repeat match goal with
         | |- context [if ?b then _ else _] => destruct b
         end;
    intros H; inversion H; subst; cbn; eauto.
Qed.

(** The override step alone does what the table says. *)
Lemma override_applied (sc : string) (o : SubcategoryRoute) (ai : AiResponse) :
  assoc sc SUBCATEGORY_ROUTING = Some o ->
  department (applySubcategoryOverride (Some sc) ai) = Some (sub_department o) /\
  priority (applySubcategoryOverride (Some sc) ai) = sub_priority o.
Proof.
  intros H.
  destruct (override_entry_complete sc o H) as [Hd [p [Hp Hpt]]].
  assert (Hsc : truthyStr sc = true).
  { destruct sc; [discriminate H | reflexivity]. }
  unfold applySubcategoryOverride.
  rewrite Hsc, (lookup_own _ _ _ H), Hd, Hp. cbn [truthyOpt]. rewrite Hpt.
  split; reflexivity.
Qed.

(** The category step never touches the priority. *)
Lemma category_default_keeps_priority (c : option string) (ai : AiResponse) :
  priority (applyCategoryDefault c ai) = priority ai.
Proof.
  unfold applyCategoryDefault.
  destruct c as [c|]; [|reflexivity].
  destruct (truthyStr c); [|reflexivity].
  destruct (lookup c CATEGORY_ROUTING); [| |reflexivity];
    destruct (_ || _); reflexivity.
Qed.

(** The priority of a matching subcategory always reaches the decision. *)
Lemma override_priority_final (c : option string) (sc : string)
    (o : SubcategoryRoute) (ai : AiResponse) :
  assoc sc SUBCATEGORY_ROUTING = Some o ->
  priority (applyRouting c (Some sc) ai) = sub_priority o.
Proof.
  intros H. unfold applyRouting.
  rewrite category_default_keeps_priority.
  apply (override_applied sc o ai H).
Qed.

(** The department of a matching subcategory reaches the decision when the
    category selects nothing in its table, or the classifier's confidence is
    not below the threshold. *)
Lemma override_department_final (c : option string) (sc : string)
    (o : SubcategoryRoute) (ai : AiResponse) :
  assoc sc SUBCATEGORY_ROUTING = Some o ->
  (match c with Some k => lookup k CATEGORY_ROUTING = Missing | None => True end \/
   belowThreshold (routingConfidence ai) = false) ->
  department (applyRouting c (Some sc) ai) = Some (sub_department o).
Proof.
  intros H Hc.
  destruct (override_applied sc o ai H) as [Hd _].
  destruct (override_entry_complete sc o H) as [Hdt _].
  assert (Hconf : routingConfidence (applySubcategoryOverride (Some sc) ai)
                  = routingConfidence ai).
  { unfold applySubcategoryOverride.
    repeat match goal with
           | |- context [match ?x with _ => _ end] => destruct x
           end; reflexivity. }
  unfold applyRouting, applyCategoryDefault.
  destruct c as [k|]; [|exact Hd].
  destruct (truthyStr k); [|exact Hd].
  destruct Hc as [Hc|Hc].
  - rewrite Hc. exact Hd.
  - destruct (lookup k CATEGORY_ROUTING); [| |exact Hd];
      rewrite Hd, Hconf, Hc; cbn [truthyOpt]; rewrite Hdt; exact Hd.
Qed.

(** A category that names a member every object inherits passes the test of
    the category step: with no department, or a confidence below the
    threshold, the decision loses its department. *)
Lemma inherited_category_clears_department (k key : string) (ai : AiResponse) :
  truthyStr k = true ->
  lookup k CATEGORY_ROUTING = Inherited key ->
  truthyOpt (department ai) = false \/ belowThreshold (routingConfidence ai) = true ->
  department (applyCategoryDefault (Some k) ai) = None.
Proof.
  intros Hk Hl Hc. unfold applyCategoryDefault. rewrite Hk, Hl.
  destruct Hc as [Hc|Hc]; rewrite Hc; [|rewrite Bool.orb_true_r]; reflexivity.
Qed.

Lemma constructor_category_clears_department :
  department (applyCategoryDefault (Some "constructor") unsure) = None.
Proof. reflexivity. Qed.

(** The threshold is the double nearest to 0.7: a [null] confidence and the
    double below the threshold compare below it, the literal
    0.69999999999999999 reads as the threshold itself and does not. *)
Lemma belowThreshold_examples :
  belowThreshold NullConfidence = true /\
  belowThreshold NoConfidence = false /\
  belowThreshold (Number 0.69999999999999999%float) = false /\
  belowThreshold (Number 0.6999999999999999%float) = true /\
  belowThreshold (Number 0.7%float) = false.
Proof. repeat split. Qed.

(** Whatever the category and the classifier's answer, a "Theft" ticket comes
    out with priority critical. *)
Lemma theft_priority_critical (c : option string) (ai : AiResponse) :
  priority (applyRouting c (Some "Theft") ai) = Some "critical".
Proof.
  apply (override_priority_final c "Theft"
           {| sub_department := "Security"; sub_priority := Some "critical" |} ai).
  reflexivity.
Qed.

(** C1.  A ticket of subcategory "Theft" filed under the category
    "Health & Safety", with a classifier answer of confidence 0.5: the
    override sets the department to Security and the priority to critical,
    and the category default that follows replaces the department by
    Operations.  The decision returned has department Operations, not the
    Security of the override table; its priority is critical. *)
Theorem theft_override_lost_to_category_default :
  assoc "Theft" SUBCATEGORY_ROUTING
    = Some {| sub_department := "Security"; sub_priority := Some "critical" |} /\
  handler POST (Some theftTicket) (Some "sk-key") (HttpAnswer 200 (Parsed unsure))
    = {| status := 200;
         body := Decision None
                   {| department := Some "Operations"; priority := Some "critical";
                      suggestedTags := []; needsEscalation := false;
                      escalationReason := None; routingConfidence := Number 0.5%float;
                      analysis := Some "Possibly a lost item" |} |}.
Proof. split; reflexivity. Qed.

(** C4.  Whenever the classification step fails (no key, a network error, a
    non-success status, or an answer that cannot be read) the handler answers
    a POST with status 200 and the fixed fallback decision: department
    Operations, priority medium, no tags, no escalation, confidence 0, and
    the explanatory analysis string; the error is only reported as an extra
    field next to it. *)
Theorem classifier_failure_yields_fallback (t : TicketInput)
    (key : option string) (classifier : Classifier) :
  classificationFailed key classifier ->
  exists message,
    handler POST (Some t) key classifier
      = {| status := 200; body := Decision (Some message) fallback |} /\
    department fallback = Some "Operations" /\
    priority fallback = Some "medium" /\
    suggestedTags fallback = [] /\
    needsEscalation fallback = false /\
    routingConfidence fallback = Number 0%float /\
    analysis fallback = Some "Auto-routing failed, using default assignment".
Proof.
  intros Hfail. unfold handler.
  destruct Hfail as [Hkey | [[m Hnet] | [[st [c [Hc Hst]]] | [st [m Hc]]]]].
  - rewrite Hkey. cbn. eexists. repeat split.
  - subst classifier. destruct (truthyOpt key); cbn; eexists; repeat split.
  - subst classifier. rewrite Hst.
    destruct (truthyOpt key); cbn; eexists; repeat split.
  - subst classifier.
    destruct (truthyOpt key); cbn; [|eexists; repeat split].
    destruct (ok st); cbn; eexists; repeat split.
Qed.

Lemma classifier_failure_yields_fallback_witness :
  exists message,
    handler POST (Some theftTicket) (Some "sk-key") (HttpAnswer 503 (Parsed unsure))
      = {| status := 200; body := Decision (Some message) fallback |} /\
    department fallback = Some "Operations" /\
    priority fallback = Some "medium" /\
    suggestedTags fallback = [] /\
    needsEscalation fallback = false /\
    routingConfidence fallback = Number 0%float /\
    analysis fallback = Some "Auto-routing failed, using default assignment".
Proof.
  apply (classifier_failure_yields_fallback theftTicket (Some "sk-key")
           (HttpAnswer 503 (Parsed unsure))).
  right; right; left. exists 503, (Parsed unsure). split; reflexivity.
Defined.

(** The handler never answers with an error status. *)
Lemma handler_status_200 (m : Method) (input : option TicketInput)
    (key : option string) (classifier : Classifier) :
  status (handler m input key classifier) = 200.
Proof.
  unfold handler.
  destruct m; [reflexivity| |];
    (destruct input; [|reflexivity];
     destruct (negb (truthyOpt key)); [reflexivity|];
     destruct classifier as [|st c]; [reflexivity|];
     destruct (negb (ok st)); [reflexivity|];
     destruct c; reflexivity).
Qed.

End RoutingFacts.

(** ** Priority escalation *)

Module SubmissionFacts.
Import Submission.

(** C5.  For a user priority [u] and a routing decision of priority [d] on
    the scale low < medium < high < critical, the submitted priority is [d]
    when [d] ranks strictly higher than [u], and stays [u] otherwise. *)
Theorem priority_never_downgraded (u d : Priority) (aiRouting : Routing.AiResponse) :
  Routing.priority aiRouting = Some (name d) ->
  ((rank u < rank d)%nat -> submittedPriority (name u) (Some aiRouting) = name d) /\
  ((rank d <= rank u)%nat -> submittedPriority (name u) (Some aiRouting) = name u).
Proof.
  intros Hd. unfold submittedPriority. rewrite Hd.
  split; intros H; destruct u, d; cbn in H; try lia; reflexivity.
Qed.

Lemma priority_never_downgraded_witness :
  submittedPriority "medium" (Some (decisionWith "critical")) = "critical" /\
  submittedPriority "high" (Some (decisionWith "low")) = "high".
Proof.
  split.
  - apply (proj1 (priority_never_downgraded medium critical (decisionWith "critical")
                    eq_refl)).
    cbn. lia.
  - apply (proj2 (priority_never_downgraded high low (decisionWith "low") eq_refl)).
    cbn. lia.
Defined.

(** Without a routing decision the priority of the form is kept. *)
Lemma priority_kept_without_decision (p : string) :
  submittedPriority p None = p.
Proof. reflexivity. Qed.

End SubmissionFacts.

(** ** Membership status *)

Module NormalizerFacts.
Import Normalizer.

(** C6.  [getMembershipStatus] answers "inactive" without a membership;
    "frozen" when the frozen flag is set, whatever the end date; otherwise
    "expired" when the end date lies before now; otherwise "active", in
    particular when there is no end date. *)
Theorem membership_status_cases (parseDate : string -> option Z) (now : Z) :
  getMembershipStatus parseDate now None = "inactive" /\
  (forall m, isFrozen m = true ->
     getMembershipStatus parseDate now (Some m) = "frozen") /\
  (forall m s t, isFrozen m = false -> endDate m = Some s -> s <> "" ->
     parseDate s = Some t -> t < now ->
     getMembershipStatus parseDate now (Some m) = "expired") /\
  (forall m, isFrozen m = false ->
     (endDate m = None \/ endDate m = Some "" \/
      exists s, endDate m = Some s /\
                (parseDate s = None \/ exists t, parseDate s = Some t /\ now <= t)) ->
     getMembershipStatus parseDate now (Some m) = "active").
Proof.
  repeat split.
  - intros m Hf. cbn. rewrite Hf. reflexivity.
  - intros m s t Hf He Hs Hp Hlt. cbn. rewrite Hf, He. cbn [truthyOpt].
    assert (Ht : truthyStr s = true).
    { unfold truthyStr. destruct (String.eqb_spec s ""); [contradiction|reflexivity]. }
    rewrite Ht, Hp.
    destruct (Z.ltb_spec t now); [reflexivity|lia].
  - intros m Hf Hcases. cbn. rewrite Hf.
    destruct Hcases as [He | [He | [s [He Hp]]]]; rewrite He; cbn [truthyOpt].
    + reflexivity.
    + reflexivity.
    + destruct (truthyStr s); [|reflexivity].
      destruct Hp as [Hp | [t [Hp Hle]]]; rewrite Hp; [reflexivity|].
      destruct (Z.ltb_spec t now); [lia|reflexivity].
Qed.

Lemma membership_status_cases_witness :
  getMembershipStatus sampleParse sampleNow
    (Some {| isFrozen := true; endDate := Some "2020-01-01T00:00:00Z" |}) = "frozen" /\
  getMembershipStatus sampleParse sampleNow
    (Some {| isFrozen := false; endDate := Some "2020-01-01T00:00:00Z" |}) = "expired" /\
  getMembershipStatus sampleParse sampleNow
    (Some {| isFrozen := false; endDate := None |}) = "active".
Proof.
  destruct (membership_status_cases sampleParse sampleNow) as [_ [Hfrozen [Hexpired Hactive]]].
  split; [|split].
  - apply Hfrozen. reflexivity.
  - apply (Hexpired _ "2020-01-01T00:00:00Z" 1577836800000).
    + reflexivity.
    + reflexivity.
    + discriminate.
    + reflexivity.
    + reflexivity.
  - apply Hactive; [reflexivity | left; reflexivity].
Defined.

End NormalizerFacts.

(** ** Location lookup *)

Module LocationFacts.
Import Location.

Section Lookup.

Variable toLowerCase : string -> string.

Lemma substringMatch_first (lowerName : string) (before : list (string * string))
    (key id : string) (after : list (string * string)) :
  includes lowerName (toLowerCase key) = true ->
  (forall k v, In (k, v) before -> includes lowerName (toLowerCase k) = false) ->
  substringMatch toLowerCase lowerName (before ++ (key, id) :: after) = Some id.
Proof.
  intros Hkey. induction before as [|[k v] before IH]; intros Hbefore; cbn.
  - rewrite Hkey. reflexivity.
  - rewrite (Hbefore k v (or_introl eq_refl)).
    apply IH. intros k' v' Hin. apply (Hbefore k' v'). right. exact Hin.
Qed.

Lemma substringMatch_none (lowerName : string) (entries : list (string * string)) :
  (forall k v, In (k, v) entries -> includes lowerName (toLowerCase k) = false) ->
  substringMatch toLowerCase lowerName entries = None.
Proof.
  induction entries as [|[k v] entries IH]; intros H; cbn; [reflexivity|].
  rewrite (H k v (or_introl eq_refl)).
  apply IH. intros k' v' Hin. apply (H k' v'). right. exact Hin.
Qed.

(** No key of the table is the name of an inherited member, so a name with an
    entry is looked up in the table alone. *)
Lemma lookup_exact (name id : string) :
  assoc name locationMap = Some id -> lookup name locationMap = Own id.
Proof. intros H. unfold lookup. rewrite H. reflexivity. Qed.

Lemma lookup_missing (name : string) :
  assoc name locationMap = None -> inheritedKey name = false ->
  lookup name locationMap = Missing.
Proof. intros H Hi. unfold lookup. rewrite H, Hi. reflexivity. Qed.

Lemma lookup_inherited (name : string) :
  inheritedKey name = true -> lookup name locationMap = Inherited name.
Proof.
  intros Hi. unfold lookup.
  destruct (assoc name locationMap) as [id|] eqn:H; [|rewrite Hi; reflexivity].
  exfalso. revert H Hi. unfold locationMap. cbn [assoc].
  repeat match goal with
         | |- context [(?k =? name)%string] =>
             destruct (String.eqb_spec k name) as [<-|]
         end; intros H; try discriminate H; intros Hi; discriminate Hi.
Qed.

(** The resolution of names that are not the name of a member inherited from
    [Object.prototype]: the id of an exact key match; failing that, the id of
    the first key of the table (in table order) whose lower-cased form occurs
    in the lower-cased name; and [undefined] when no key matches or no name
    is given. *)
Lemma getLocationId_resolution :
  (forall name id,
     assoc name locationMap = Some id ->
     getLocationId toLowerCase (Some name) = Id id) /\
  (forall name before key id after,
     name <> "" ->
     assoc name locationMap = None ->
     inheritedKey name = false ->
     locationMap = (before ++ (key, id) :: after)%list ->
     includes (toLowerCase name) (toLowerCase key) = true ->
     (forall k v, In (k, v) before ->
                  includes (toLowerCase name) (toLowerCase k) = false) ->
     getLocationId toLowerCase (Some name) = Id id) /\
  (forall name,
     assoc name locationMap = None ->
     inheritedKey name = false ->
     (forall k v, In (k, v) locationMap ->
                  includes (toLowerCase name) (toLowerCase k) = false) ->
     getLocationId toLowerCase (Some name) = Unresolved) /\
  getLocationId toLowerCase None = Unresolved /\
  getLocationId toLowerCase (Some "") = Unresolved.
Proof.
  split; [|split; [|split; [|split]]].
  - intros name id H. unfold getLocationId. rewrite (lookup_exact name id H).
    revert H. unfold locationMap. cbn [assoc].
    repeat match goal with
           | |- context [(?k =? name)%string] =>
               destruct (String.eqb_spec k name) as [<-|]
           end; intros H; inversion H; subst; reflexivity.
  - intros name before key id after Hne Hexact Hinh Hsplit Hkey Hbefore.
    unfold getLocationId. rewrite (lookup_missing name Hexact Hinh).
    destruct name as [|c name]; [congruence|].
    cbn [truthyStr String.eqb negb]. unfold partialMatch. rewrite Hsplit.
    rewrite (substringMatch_first _ before key id after Hkey Hbefore). reflexivity.
  - intros name Hexact Hinh Hnone. unfold getLocationId.
    rewrite (lookup_missing name Hexact Hinh).
    destruct (negb (truthyStr name)); [reflexivity|].
    unfold partialMatch. rewrite (substringMatch_none _ _ Hnone). reflexivity.
  - reflexivity.
  - reflexivity.
Qed.

(** A name that is the name of an inherited member resolves to that member,
    whatever the table holds. *)
Lemma getLocationId_inherited (name : string) :
  inheritedKey name = true ->
  getLocationId toLowerCase (Some name) = PrototypeMember name.
Proof.
  intros Hi. unfold getLocationId. rewrite (lookup_inherited name Hi).
  destruct name; [discriminate Hi | reflexivity].
Qed.

End Lookup.

Lemma getLocationId_resolution_examples :
  getLocationId lowerAscii (Some "Supreme HQ Bandra") = Id "29821" /\
  getLocationId lowerAscii (Some "kwality house - studio 2") = Id "9030" /\
  getLocationId lowerAscii (Some "Pop Up") = Unresolved.
Proof. repeat split. Qed.

(** C9.  The name "constructor" is no key of the table and no key occurs in
    it, so it is a name that does not resolve; looked up in the table, it
    finds the [constructor] that every object inherits, and [getLocationId]
    returns that function, whatever the case mapping, where [undefined] is
    expected. *)
Theorem getLocationId_returns_inherited_member :
  assoc "constructor" locationMap = None /\
  (forall k v, In (k, v) locationMap ->
               includes (lowerAscii "constructor") (lowerAscii k) = false) /\
  forall toLowerCase,
    getLocationId toLowerCase (Some "constructor") = PrototypeMember "constructor" /\
    getLocationId toLowerCase (Some "constructor") <> Unresolved.
Proof.
  split; [reflexivity|]. split.
  - unfold locationMap. cbn [In].
    intros k v [H | [H | [H | [H | []]]]]; inversion H; subst; reflexivity.
  - intros toLowerCase. split; [reflexivity | discriminate].
Qed.

End LocationFacts.

(** ** Pagination *)

Module PaginationFacts.
Import Js Pagination.

Lemma prop_not_null (key : string) (v : Json) :
  v <> JNull /\ v <> JUndefined <-> prop key v <> None.
Proof.
  destruct v; cbn; split; try (intros [H1 H2]); try congruence;
    intros _; split; discriminate.
Qed.

Section Loop.

Variable getSessions : nat -> Envelope.
Variable getSessionById : nat -> Json -> Json.

Lemma totalCovered_lastPage (page : nat) :
  totalCovered (getSessions page) page = true -> lastPage getSessions page.
Proof.
  unfold totalCovered, lastPage. intros H. right.
  destruct (totalCount (getSessions page)) as [total|]; [|discriminate].
  exists total. split; [reflexivity|]. apply Z.leb_le. exact H.
Qed.

Lemma full_uncovered_not_last (page : nat) (l : list Json) :
  payload (getSessions page) = Some l ->
  (Z.of_nat (List.length l) <? 200) || totalCovered (getSessions page) page = false ->
  ~ lastPage getSessions page.
Proof.
  unfold lastPage.
  intros Hp Hc [Hshort | [total [Ht Hle]]];
    apply Bool.orb_false_iff in Hc; destruct Hc as [Hlen Hcov].
  - unfold rows in Hshort. rewrite Hp in Hshort.
    apply Z.ltb_ge in Hlen. lia.
  - unfold totalCovered in Hcov. rewrite Ht in Hcov.
    apply Z.leb_gt in Hcov. lia.
Qed.

(** [Promise.all] over the rows of a page resolves exactly when no row is
    [null] or [undefined], to the rows with their details. *)
Lemma allDetails_spec (page : nat) (l : list Json) :
  (Forall (fun session => session <> JNull /\ session <> JUndefined) l /\
   allDetails getSessionById page l
     = Some (List.map (fun session => enriched getSessionById page session (idOf session)) l))
  \/
  (~ Forall (fun session => session <> JNull /\ session <> JUndefined) l /\
   allDetails getSessionById page l = None).
Proof.
  induction l as [|session l IH]; [left; split; [constructor | reflexivity]|].
  cbn [allDetails List.map]. unfold withDetails, idOf.
  destruct (prop "id" session) as [id|] eqn:Hid.
  - assert (Hs : session <> JNull /\ session <> JUndefined).
    { apply (prop_not_null "id"). congruence. }
    destruct IH as [[Hl ->] | [Hl ->]].
    + left. split; [constructor; assumption | reflexivity].
    + right. split; [|reflexivity]. intros H. inversion H; subst. auto.
  - right. split.
    + intros H. inversion H as [|? ? Hs _]; subst.
      apply (prop_not_null "id") in Hs. congruence.
    + destruct (allDetails getSessionById page l); reflexivity.
Qed.

Lemma page_without_rows (page : nat) :
  rows getSessions page = [] ->
  noNullRow getSessions page /\ enrichedRows getSessions getSessionById page = [] /\
  lastPage getSessions page.
Proof.
  intros H. unfold noNullRow, enrichedRows, lastPage. rewrite H.
  split; [constructor|]. split; [reflexivity|]. left. cbn. lia.
Qed.

(** The loop from any page on: it requests [n] consecutive pages, at least
    one and at most [budget]; every page before the last has rows, none of
    them [null], and is not a last page.  Either the last page requested has
    no [null] row either, and the loop ends with the rows of all these pages
    appended in order, before the budget only at a last page; or it has one,
    and an exception leaves the loop. *)
Lemma pageLoop_spec (budget : nat) :
  forall currentPage allSessions requested,
    (1 <= budget)%nat ->
    exists n,
      (1 <= n <= budget)%nat /\
      snd (pageLoop getSessions getSessionById budget currentPage allSessions requested)
        = (requested ++ seq currentPage n)%list /\
      (forall k, (currentPage <= k)%nat -> (k + 1 < currentPage + n)%nat ->
                 ~ lastPage getSessions k /\ noNullRow getSessions k) /\
      ((noNullRow getSessions (currentPage + n - 1) /\
        fst (pageLoop getSessions getSessionById budget currentPage allSessions requested)
          = Some (allSessions ++
                  flat_map (enrichedRows getSessions getSessionById) (seq currentPage n))%list /\
        ((n < budget)%nat -> lastPage getSessions (currentPage + n - 1)))
       \/
       (~ noNullRow getSessions (currentPage + n - 1) /\
        fst (pageLoop getSessions getSessionById budget currentPage allSessions requested)
          = None)).
Proof.
  induction budget as [|budget IH]; intros currentPage allSessions requested Hb; [lia|].
  cbn [pageLoop].
  assert (Hone : (currentPage + 1 - 1)%nat = currentPage) by lia.
  destruct (payload (getSessions currentPage)) as [[|first others]|] eqn:Hp.
  - assert (Hrows : rows getSessions currentPage = []) by (unfold rows; rewrite Hp; reflexivity).
    destruct (page_without_rows currentPage Hrows) as [Hnn [Hen Hlast]].
    exists 1%nat. split; [lia|]. split; [reflexivity|]. split; [intros; lia|].
    left. rewrite Hone. split; [exact Hnn|]. split; [|intros _; exact Hlast].
    cbn [seq flat_map fst]. rewrite Hen, !app_nil_r. reflexivity.
  - assert (Hrows : rows getSessions currentPage = first :: others)
      by (unfold rows; rewrite Hp; reflexivity).
    destruct (allDetails_spec currentPage (first :: others)) as [[Hnn Hall] | [Hnn Hall]];
      rewrite Hall.
    + assert (Hen : enrichedRows getSessions getSessionById currentPage
                    = List.map (fun session => enriched getSessionById currentPage session
                                                 (idOf session)) (first :: others)).
      { unfold enrichedRows. rewrite Hrows. reflexivity. }
      assert (Hnn' : noNullRow getSessions currentPage).
      { unfold noNullRow. rewrite Hrows. exact Hnn. }
      destruct ((Z.of_nat (List.length (first :: others)) <? 200)
                || totalCovered (getSessions currentPage) currentPage) eqn:Hstop.
      * exists 1%nat. split; [lia|]. split; [reflexivity|]. split; [intros; lia|].
        left. rewrite Hone. split; [exact Hnn'|]. split.
        -- cbn [seq flat_map fst]. rewrite Hen, app_nil_r. reflexivity.
        -- intros _. apply Bool.orb_true_iff in Hstop. destruct Hstop as [Hlen | Hcov].
           ++ left. rewrite Hrows. apply Z.ltb_lt. exact Hlen.
           ++ apply totalCovered_lastPage. exact Hcov.
      * destruct budget as [|budget'].
        -- exists 1%nat. split; [lia|]. split; [reflexivity|]. split; [intros; lia|].
           left. rewrite Hone. split; [exact Hnn'|]. split; [|intros; lia].
           cbn [pageLoop seq flat_map fst]. rewrite Hen, app_nil_r. reflexivity.
        -- destruct (IH (S currentPage)
                       (allSessions ++ List.map (fun session =>
                                          enriched getSessionById currentPage session
                                            (idOf session)) (first :: others))%list
                       (requested ++ [currentPage])%list) as [n [Hn [Hreq [Hcont Hend]]]];
             [lia|].
           exists (S n). split; [lia|]. split; [|split].
           ++ rewrite Hreq. cbn [seq]. rewrite <- app_assoc. reflexivity.
           ++ intros k H1 H2.
              destruct (Nat.eq_dec k currentPage) as [->|Hne].
              ** split; [|exact Hnn'].
                 apply (full_uncovered_not_last currentPage (first :: others) Hp Hstop).
              ** apply Hcont; lia.
           ++ replace (currentPage + S n - 1)%nat with (S currentPage + n - 1)%nat by lia.
              destruct Hend as [[Hlastnn [Hfst Hlast]] | [Hlastnn Hfst]].
              ** left. split; [exact Hlastnn|]. split; [|intros; apply Hlast; lia].
                 rewrite Hfst. cbn [seq flat_map]. rewrite Hen, <- app_assoc. reflexivity.
              ** right. split; [exact Hlastnn | exact Hfst].
    + exists 1%nat. split; [lia|]. split; [reflexivity|]. split; [intros; lia|].
      right. rewrite Hone. split; [|reflexivity].
      unfold noNullRow. rewrite Hrows. exact Hnn.
  - assert (Hrows : rows getSessions currentPage = []) by (unfold rows; rewrite Hp; reflexivity).
    destruct (page_without_rows currentPage Hrows) as [Hnn [Hen Hlast]].
    exists 1%nat. split; [lia|]. split; [reflexivity|]. split; [intros; lia|].
    left. rewrite Hone. split; [exact Hnn|]. split; [|intros _; exact Hlast].
    cbn [seq flat_map fst]. rewrite Hen, !app_nil_r. reflexivity.
Qed.

(** A [null] row on a requested page empties the whole result: the rows of
    the pages before it are lost with it. *)
Lemma null_row_gives_empty (maxPages : nat) :
  (1 <= maxPages)%nat ->
  (exists k, In k (pagesRequested getSessions getSessionById maxPages) /\
             ~ noNullRow getSessions k) ->
  getAllSessionsWithDetails getSessions getSessionById maxPages = [].
Proof.
  intros Hm [k [Hin Hk]].
  destruct (pageLoop_spec maxPages 0%nat [] [] Hm) as [n [Hn [Hreq [Hcont Hend]]]].
  unfold pagesRequested in Hin. rewrite Hreq in Hin. cbn [app] in Hin.
  apply in_seq in Hin.
  unfold getAllSessionsWithDetails.
  destruct Hend as [[Hlastnn _] | [_ ->]]; [|reflexivity].
  exfalso. apply Hk.
  destruct (Nat.eq_dec k (0 + n - 1)) as [->|Hne]; [exact Hlastnn|].
  apply Hcont; lia.
Qed.

Lemma objectRows_noNullRow (page : nat) :
  objectRows getSessions page -> noNullRow getSessions page.
Proof.
  unfold objectRows, noNullRow. apply Forall_impl.
  intros session [fields ->]. split; discriminate.
Qed.


End Loop.



(** A short page ends the loop before [maxPages] is reached: with a full
    first page and a one-row second page, two pages are requested out of a
    budget of five. *)
Lemma short_page_ends_loop :
  pagesRequested shortSecond noDetail 5 = [0; 1]%nat /\
  List.length (getAllSessionsWithDetails shortSecond noDetail 5) = 201%nat.
Proof. split; vm_compute; reflexivity. Qed.

(** With full pages and an uncovered total the loop ends with the budget. *)
Lemma budget_ends_loop :
  pagesRequested endless noDetail 3 = [0; 1; 2]%nat /\
  List.length (getAllSessionsWithDetails endless noDetail 3) = 600%nat.
Proof. split; vm_compute; reflexivity. Qed.

End PaginationFacts.

(** ** Dates *)

Module JsDateFacts.
Import JsDate.

Lemma MonthFromTime_range (t : Z) : 0 <= MonthFromTime t <= 11.
Proof.
  unfold MonthFromTime.
  repeat match goal with
         | |- context [if ?b then _ else _] => destruct b
         end; lia.
Qed.

(** [MakeDay] on the year and month of [t] counts from the first of that
    month. *)
Lemma MakeDay_same_month (t dt : Z) :
  MakeDay (YearFromTime t) (MonthFromTime t) dt = Day t + (dt - DateFromTime t).
Proof.
  pose proof (MonthFromTime_range t) as Hm.
  unfold MakeDay, DateFromTime, DayWithinYear, InLeapYear.
  rewrite (Z.div_small (MonthFromTime t) 12) by lia.
  rewrite (Z.mod_small (MonthFromTime t) 12) by lia.
  rewrite Z.add_0_r. lia.
Qed.

(** [d.setDate(d.getDate() + 1)] moves a date by exactly one day. *)
(** [setDate(getDate() + 1)] keeps the local time of day and moves the
    local date one day ahead. *)
Lemma setDate_next_day (LocalTZA : Z -> bool -> Z) (t : Z) :
  setDate LocalTZA t (getDate LocalTZA t + 1)
    = UTC LocalTZA (LocalTime LocalTZA t + msPerDay).
Proof.
  unfold setDate, getDate. f_equal.
  generalize (LocalTime LocalTZA t). intros lt.
  unfold MakeDate. rewrite MakeDay_same_month.
  unfold Day, TimeWithinDay.
  pose proof (Z.div_mod lt msPerDay) as H.
  assert (Hd : msPerDay <> 0) by (unfold msPerDay; lia).
  specialize (H Hd). lia.
Qed.

(** With the same offset at both ends, that is 24 hours later. *)
Lemma next_day_same_offset (LocalTZA : Z -> bool -> Z) (t : Z) :
  LocalTZA (LocalTime LocalTZA t + msPerDay) false = LocalTZA t true ->
  UTC LocalTZA (LocalTime LocalTZA t + msPerDay) = t + msPerDay.
Proof. unfold UTC, LocalTime. intros H. rewrite H. lia. Qed.

Lemma noDot_app (a b : string) : noDot (a ++ b) = noDot a && noDot b.
Proof.
  induction a as [|c a IH]; cbn; [reflexivity|].
  rewrite IH. apply Bool.andb_assoc.
Qed.

Lemma beforeDot_app (a b : string) :
  noDot a = true -> beforeDot (a ++ String "."%char b) = a.
Proof.
  induction a as [|c a IH]; cbn; intros H; [reflexivity|].
  apply Bool.andb_true_iff in H. destruct H as [Hc Ha].
  destruct (c =? ".")%char; [discriminate|].
  rewrite (IH Ha). reflexivity.
Qed.

Lemma digit_not_dot (n : Z) : (digit n =? ".")%char = false.
Proof.
  unfold digit, digits.
  generalize (Z.to_nat (n mod 10)). intros k.
  do 11 (destruct k as [|k]; [reflexivity|]). reflexivity.
Qed.

Lemma noDot_pad2 (n : Z) : noDot (pad2 n) = true.
Proof. unfold pad2. cbn [noDot]. rewrite !digit_not_dot. reflexivity. Qed.

Lemma noDot_pad4 (n : Z) : noDot (pad4 n) = true.
Proof. unfold pad4, pad3, pad2. cbn [noDot]. rewrite !digit_not_dot. reflexivity. Qed.

Lemma noDot_yearString (y : Z) : noDot (yearString y) = true.
Proof.
  unfold yearString.
  destruct ((0 <=? y) && (y <=? 9999)); [apply noDot_pad4|].
  destruct (y <? 0); unfold pad6, pad4, pad3, pad2; cbn [noDot];
    rewrite !digit_not_dot; reflexivity.
Qed.

Lemma noDot_isoSeconds (t : Z) : noDot (isoSeconds t) = true.
Proof.
  unfold isoSeconds.
  rewrite !noDot_app, noDot_yearString, !noDot_pad2. reflexivity.
Qed.

(** Cutting the ISO string at its dot drops the milliseconds and the zone. *)
Lemma beforeDot_toISOString (t : Z) : beforeDot (toISOString t) = isoSeconds t.
Proof.
  unfold toISOString.
  apply (beforeDot_app (isoSeconds t) (pad3 (msFromTime t) ++ "Z")).
  apply noDot_isoSeconds.
Qed.

Lemma app_Z_truthy (s : string) : truthyStr (s ++ "Z") = true.
Proof. destruct s; reflexivity. Qed.

End JsDateFacts.

(** ** Token manager and client *)

Module ClientFacts.
Import Js Momence Scenario.

Lemma refreshCount_app (a b : list Request) :
  refreshCount (a ++ b) = (refreshCount a + refreshCount b)%nat.
Proof.
  induction a as [|r a IH]; cbn; [reflexivity|].
  destruct r; cbn; rewrite IH; reflexivity.
Qed.

Lemma getCount_app (a b : list Request) :
  getCount (a ++ b) = (getCount a + getCount b)%nat.
Proof.
  induction a as [|r a IH]; cbn; [reflexivity|].
  destruct r; cbn; rewrite IH; reflexivity.
Qed.

Lemma refreshed_counts (e : Endpoint) (w : World) :
  refreshCount (trace (refreshed e w)) = S (refreshCount (trace w)) /\
  getCount (trace (refreshed e w)) = S (getCount (trace w)).
Proof.
  unfold refreshed. cbn [trace]. rewrite refreshCount_app, getCount_app. cbn. lia.
Qed.

Lemma asked_counts (e : Endpoint) (w : World) :
  refreshCount (trace (asked e w)) = refreshCount (trace w) /\
  getCount (trace (asked e w)) = S (getCount (trace w)).
Proof.
  unfold asked. cbn [trace]. rewrite refreshCount_app, getCount_app. cbn. lia.
Qed.

(** Unfolding of the monadic plumbing. *)
Ltac run :=
  unfold ensureToken, fetchOptional, refreshAccessToken, authenticate;
  unfold try_catch, bind, getThis, fetch, json, get_prop, ret, throw, outOfFuel,
    setAccessToken, setRefreshToken;
  cbn -[Nat.ltb].

(** One more round: the outcome of the retry is the outcome of the call. *)
Ltac retry_step Hm Ht Hc :=
  apply Nat.ltb_lt in Hc; unfold asked, refreshed; run;
  rewrite ?Hm, ?Ht; cbn -[Nat.ltb];
  rewrite Hc; cbn; rewrite <- ?app_assoc; reflexivity.

Ltac final_step Hm Ht Hc :=
  apply Nat.ltb_ge in Hc; unfold asked, refreshed, customerRecord; run;
  rewrite ?Hm, ?Ht; cbn -[Nat.ltb];
  repeat (progress (rewrite ?refreshCount_app, ?Nat.add_0_r, ?Hc; cbn -[Nat.ltb]));
  rewrite <- ?app_assoc; cbn; reflexivity.

Lemma ready_refreshed (e : Endpoint) (w : World) : ready w -> ready (refreshed e w).
Proof. intros [Hm Ht]. split; [exact Hm | reflexivity]. Qed.

(** The induction shared by the five operations: an operation that goes
    through one more round after each 401, and answers once the server has
    seen [n] refresh grants, returns after exactly the rounds left. *)
Section Generic.

Variable n : nat.
Variable A : Type.
Variable op : A -> nat -> World -> Res Json * World.
Variable again : A -> A.
Variable endpoint : A -> Endpoint.
Variable landed : A -> World -> World.
Variable empty result : Json.
Variable gets : nat.

Hypothesis op_retry : forall a f w,
  ready w -> (refreshCount (trace w) < n)%nat ->
  op a (S f) w = match op (again a) f (refreshed (endpoint a) w) with
                 | (Throw, w') => (Ok empty, w')
                 | r => r
                 end.

Hypothesis op_final : forall a f w,
  ready w -> (n <= refreshCount (trace w))%nat ->
  op a (S f) w = (Ok result, landed a w).

Hypothesis landed_counts : forall a w,
  refreshCount (trace (landed a w)) = refreshCount (trace w) /\
  getCount (trace (landed a w)) = (getCount (trace w) + S gets)%nat.

Lemma rounds (k : nat) :
  forall a f w,
    ready w -> (refreshCount (trace w) + k = n)%nat -> (k < f)%nat ->
    returnsAfter k (k + S gets) result w (op a f w).
Proof.
  induction k as [|k IH]; intros a f w Hw Hn Hf; (destruct f as [|f]; [lia|]).
  - rewrite op_final by (assumption || lia).
    destruct (landed_counts a w) as [Hr Hg].
    unfold returnsAfter. cbn [fst snd]. rewrite Hr, Hg. repeat split; lia.
  - rewrite op_retry by (assumption || lia).
    destruct (refreshed_counts (endpoint a) w) as [Hr Hg].
    destruct (IH (again a) f (refreshed (endpoint a) w)) as [Hres [Hr' Hg']];
      [apply ready_refreshed; assumption | lia | lia |].
    destruct (op (again a) f (refreshed (endpoint a) w)) as [res w'].
    cbn [fst snd] in *. subst res.
    unfold returnsAfter. cbn [fst snd]. repeat split; lia.
Qed.

End Generic.

Section Rounds.

Variable n : nat.
Variable rows : list Json.
Variable LocalTZA : Z -> bool -> Z.

Lemma searchCustomers_retry (q : string) (f : nat) (w : World) :
  ready w -> (refreshCount (trace w) < n)%nat ->
  searchCustomers (expiring n rows) (S f) q w =
    match searchCustomers (expiring n rows) f q (refreshed (MembersSearch q) w) with
    | (Throw, w') => (Ok (JArr []), w')
    | r => r
    end.
Proof. intros [Hm Ht] Hc. cbn [searchCustomers]. retry_step Hm Ht Hc. Qed.

Lemma searchCustomers_final (q : string) (f : nat) (w : World) :
  ready w -> (n <= refreshCount (trace w))%nat ->
  searchCustomers (expiring n rows) (S f) q w
    = (Ok (JArr rows), asked (MembersSearch q) w).
Proof. intros [Hm Ht] Hc. cbn [searchCustomers]. final_step Hm Ht Hc. Qed.

Lemma getCustomerById_retry (id : string) (f : nat) (w : World) :
  ready w -> (refreshCount (trace w) < n)%nat ->
  getCustomerById (expiring n rows) (S f) id w =
    match getCustomerById (expiring n rows) f id (refreshed (MemberById id) w) with
    | (Throw, w') => (Ok JNull, w')
    | r => r
    end.
Proof. intros [Hm Ht] Hc. cbn [getCustomerById]. retry_step Hm Ht Hc. Qed.

Lemma getCustomerById_final (id : string) (f : nat) (w : World) :
  ready w -> (n <= refreshCount (trace w))%nat ->
  getCustomerById (expiring n rows) (S f) id w
    = (Ok (customerRecord id rows),
       asked (MemberActiveMemberships id)
             (asked (MemberSessions id) (asked (MemberById id) w))).
Proof. intros [Hm Ht] Hc. cbn [getCustomerById]. final_step Hm Ht Hc. Qed.

Lemma getCustomerBookings_retry (id : string) (f : nat) (w : World) :
  ready w -> (refreshCount (trace w) < n)%nat ->
  getCustomerBookings (expiring n rows) (S f) id w =
    match getCustomerBookings (expiring n rows) f id (refreshed (MemberBookings id) w) with
    | (Throw, w') => (Ok (JArr []), w')
    | r => r
    end.
Proof. intros [Hm Ht] Hc. cbn [getCustomerBookings]. retry_step Hm Ht Hc. Qed.

Lemma getCustomerBookings_final (id : string) (f : nat) (w : World) :
  ready w -> (n <= refreshCount (trace w))%nat ->
  getCustomerBookings (expiring n rows) (S f) id w
    = (Ok (JArr rows), asked (MemberBookings id) w).
Proof. intros [Hm Ht] Hc. cbn [getCustomerBookings]. final_step Hm Ht Hc. Qed.

Lemma getSessionById_retry (id : string) (f : nat) (w : World) :
  ready w -> (refreshCount (trace w) < n)%nat ->
  getSessionById (expiring n rows) (S f) id w =
    match getSessionById (expiring n rows) f id (refreshed (SessionById id) w) with
    | (Throw, w') => (Ok JNull, w')
    | r => r
    end.
Proof. intros [Hm Ht] Hc. cbn [getSessionById]. retry_step Hm Ht Hc. Qed.

Lemma getSessionById_final (id : string) (f : nat) (w : World) :
  ready w -> (n <= refreshCount (trace w))%nat ->
  getSessionById (expiring n rows) (S f) id w
    = (Ok (JObj [("id", JStr id)]), asked (SessionById id) w).
Proof. intros [Hm Ht] Hc. cbn [getSessionById]. final_step Hm Ht Hc. Qed.

Variables now page pageSize : Z.
Variable locationId : option string.

Lemma startsBeforeParam_truthy (sb : option string) :
  truthyStr (startsBeforeParam LocalTZA now sb) = true.
Proof.
  unfold startsBeforeParam, defaultStartsBefore.
  destruct sb as [s|]; [destruct (truthyStr s) eqn:Hs; [exact Hs|]|];
    apply JsDateFacts.app_Z_truthy.
Qed.

Lemma startsBeforeParam_fixed (sb : option string) :
  startsBeforeParam LocalTZA now (Some (startsBeforeParam LocalTZA now sb))
    = startsBeforeParam LocalTZA now sb.
Proof.
  unfold startsBeforeParam at 1. rewrite startsBeforeParam_truthy. reflexivity.
Qed.

Lemma getSessions_retry (sb : option string) (f : nat) (w : World) :
  ready w -> (refreshCount (trace w) < n)%nat ->
  getSessions (expiring n rows) LocalTZA (S f) now page pageSize sb locationId w =
    match getSessions (expiring n rows) LocalTZA f now page pageSize
            (Some (startsBeforeParam LocalTZA now sb)) locationId
            (refreshed (Sessions page pageSize (startsBeforeParam LocalTZA now sb)
                                 (locationParam locationId)) w) with
    | (Throw, w') => (Ok emptyEnvelope, w')
    | r => r
    end.
Proof. intros [Hm Ht] Hc. cbn [getSessions]. retry_step Hm Ht Hc. Qed.

Lemma getSessions_final (sb : option string) (f : nat) (w : World) :
  ready w -> (n <= refreshCount (trace w))%nat ->
  getSessions (expiring n rows) LocalTZA (S f) now page pageSize sb locationId w
    = (Ok (JObj [("payload", JArr rows)]),
       asked (Sessions page pageSize (startsBeforeParam LocalTZA now sb)
                       (locationParam locationId)) w).
Proof. intros [Hm Ht] Hc. cbn [getSessions]. final_step Hm Ht Hc. Qed.

End Rounds.

(** *** The 401 branch, against any server *)

Section On401.

Variable server : Server.
Variable LocalTZA : Z -> bool -> Z.

Ltac on_401 Hm Ht Hs :=
  unfold afterRefresh, afterRefreshUnchecked, asked;
  unfold ensureToken; unfold try_catch, bind, getThis, fetch;
  rewrite ?Hm, ?Ht; cbn [negb ret]; rewrite Hs; cbn [fst Z.eqb Pos.eqb];
  match goal with
  | |- context [refreshAccessToken server ?w] =>
      destruct (refreshAccessToken server w) as [[[|]| |] ?]; reflexivity
  end.

Lemma searchCustomers_on_401 (q : string) (f : nat) (w : World) (body : option Json) :
  ready w ->
  server (trace w) (Get (MembersSearch q) (accessToken (this w))) = Answer 401 body ->
  searchCustomers server (S f) q w
    = afterRefresh server (JArr []) (searchCustomers server f q)
        (asked (MembersSearch q) w).
Proof. intros [Hm Ht] Hs. cbn [searchCustomers]. on_401 Hm Ht Hs. Qed.

Lemma getCustomerById_on_401 (id : string) (f : nat) (w : World) (body : option Json) :
  truthy (accessToken (this w)) = true ->
  server (trace w) (Get (MemberById id) (accessToken (this w))) = Answer 401 body ->
  getCustomerById server (S f) id w
    = afterRefreshUnchecked server JNull (getCustomerById server f id)
        (asked (MemberById id) w).
Proof. intros Ht Hs. cbn [getCustomerById]. on_401 Ht Ht Hs. Qed.

Lemma getCustomerBookings_on_401 (id : string) (f : nat) (w : World)
    (body : option Json) :
  truthy (accessToken (this w)) = true ->
  server (trace w) (Get (MemberBookings id) (accessToken (this w))) = Answer 401 body ->
  getCustomerBookings server (S f) id w
    = afterRefreshUnchecked server (JArr []) (getCustomerBookings server f id)
        (asked (MemberBookings id) w).
Proof. intros Ht Hs. cbn [getCustomerBookings]. on_401 Ht Ht Hs. Qed.

Lemma getSessions_on_401 (now page pageSize : Z) (sb locationId : option string)
    (f : nat) (w : World) (body : option Json) :
  ready w ->
  server (trace w)
         (Get (Sessions page pageSize (startsBeforeParam LocalTZA now sb)
                        (locationParam locationId))
              (accessToken (this w))) = Answer 401 body ->
  getSessions server LocalTZA (S f) now page pageSize sb locationId w
    = afterRefresh server emptyEnvelope
        (getSessions server LocalTZA f now page pageSize
           (Some (startsBeforeParam LocalTZA now sb)) locationId)
        (asked (Sessions page pageSize (startsBeforeParam LocalTZA now sb)
                         (locationParam locationId)) w).
Proof. intros [Hm Ht] Hs. cbn [getSessions]. on_401 Hm Ht Hs. Qed.

Lemma getSessionById_on_401 (id : string) (f : nat) (w : World) (body : option Json) :
  ready w ->
  server (trace w) (Get (SessionById id) (accessToken (this w))) = Answer 401 body ->
  getSessionById server (S f) id w
    = afterRefresh server JNull (getSessionById server f id) (asked (SessionById id) w).
Proof. intros [Hm Ht] Hs. cbn [getSessionById]. on_401 Hm Ht Hs. Qed.

(** [refreshAccessToken] always returns, having sent one request: the
    refresh grant. *)
Lemma refreshAccessToken_attempt (w : World) :
  exists granted w', refreshAttempt server w granted w'.
Proof.
  unfold refreshAttempt. run.
  destruct (server (trace w) (RefreshGrant (authToken (this w)) (refreshToken (this w))))
    as [|st [data|]]; cbn;
    [eexists; eexists; split; reflexivity| |].
  - destruct (negb (okStatus st)); cbn; [eexists; eexists; split; reflexivity|].
    destruct (prop "access_token" data); cbn; [|eexists; eexists; split; reflexivity].
    destruct (prop "refreshToken" data); cbn; eexists; eexists; split; reflexivity.
  - destruct (negb (okStatus st)); cbn; eexists; eexists; split; reflexivity.
Qed.

Lemma afterRefresh_attempt (empty : Json) (again : M Json) (w : World) :
  (forall w', fst (again w') <> Throw) ->
  exists granted w1,
    refreshAttempt server w granted w1 /\
    afterRefresh server empty again w
      = if granted then again w1 else (Ok empty, w1).
Proof.
  intros Hagain.
  destruct (refreshAccessToken_attempt w) as [granted [w1 Hr]].
  exists granted, w1. split; [exact Hr|].
  unfold afterRefresh. destruct Hr as [-> _].
  destruct granted; [|reflexivity].
  specialize (Hagain w1). destruct (again w1) as [[a| |] w2]; cbn in *; congruence.
Qed.

Lemma afterRefreshUnchecked_attempt (empty : Json) (again : M Json) (w : World) :
  (forall w', fst (again w') <> Throw) ->
  exists granted w1,
    refreshAttempt server w granted w1 /\
    afterRefreshUnchecked server empty again w = again w1.
Proof.
  intros Hagain.
  destruct (refreshAccessToken_attempt w) as [granted [w1 Hr]].
  exists granted, w1. split; [exact Hr|].
  unfold afterRefreshUnchecked. destruct Hr as [-> _].
  specialize (Hagain w1). destruct (again w1) as [[a| |] w2]; cbn in *; congruence.
Qed.

(** An operation hands no exception to its caller. *)
Lemma try_catch_ret_no_throw {A : Type} (body : M A) (x : A) (w : World) :
  fst (try_catch body (ret x) w) <> Throw.
Proof. unfold try_catch, ret. destruct (body w) as [[a| |] w']; cbn; discriminate. Qed.

Lemma operations_no_throw (f : nat) (w : World) (now page pageSize : Z)
    (q id : string) (sb locationId : option string) :
  fst (searchCustomers server f q w) <> Throw /\
  fst (getCustomerById server f id w) <> Throw /\
  fst (getCustomerBookings server f id w) <> Throw /\
  fst (getSessions server LocalTZA f now page pageSize sb locationId w) <> Throw /\
  fst (getSessionById server f id w) <> Throw.
Proof.
  destruct f as [|f]; [repeat split; discriminate|].
  repeat split; apply try_catch_ret_no_throw.
Qed.

End On401.





(** Against a server that answers 401 for ever the recursion has no end:
    whatever the budget, the model runs out of it. *)
Lemma searchCustomers_never_returns (fuel : nat) :
  forall (q : string) (w : World),
    ready w -> fst (searchCustomers always401 fuel q w) = OutOfFuel.
Proof.
  induction fuel as [|fuel IH]; intros q w [Hm Ht]; [reflexivity|].
  cbn [searchCustomers]. run. rewrite Hm, Ht. cbn.
  specialize (IH q (refreshed (MembersSearch q) w) (ready_refreshed _ _ (conj Hm Ht))).
  unfold refreshed in IH. rewrite <- app_assoc. cbn [app].
  destruct (searchCustomers always401 fuel q _) as [r w']. cbn [fst] in IH. subst r.
  reflexivity.
Qed.

(** *** Missing credentials *)

Section Guards.

Variable server : Server.
Variable LocalTZA : Z -> bool -> Z.

Lemma authenticate_missing (w : World) :
  missingCredentials (this w) = true -> authenticate server w = (Ok false, w).
Proof. intros Hm. run. rewrite Hm. reflexivity. Qed.

(** The three operations that check the credentials first return their
    empty value and leave the trace as it is. *)
Lemma guarded_operations_short_circuit (fuel : nat) (w : World)
    (now page pageSize : Z) (query sessionId : string)
    (startsBefore locationId : option string) :
  missingCredentials (this w) = true ->
  searchCustomers server (S fuel) query w = (Ok (JArr []), w) /\
  getSessions server LocalTZA (S fuel) now page pageSize startsBefore locationId w
    = (Ok emptyEnvelope, w) /\
  getSessionById server (S fuel) sessionId w = (Ok JNull, w).
Proof.
  intros Hm. repeat split.
  - cbn [searchCustomers]. run. rewrite Hm. reflexivity.
  - cbn [getSessions]. run. rewrite Hm. reflexivity.
  - cbn [getSessionById]. run. rewrite Hm. reflexivity.
Qed.

(** A successful answer whose body is [null]: the log line of [getSessions]
    reads [data.payload], and the listing resolves to the empty envelope;
    [getSessionById] returns the [null] it was sent. *)
Lemma null_body (fuel : nat) (w : World) (now page pageSize : Z) (sessionId : string)
    (startsBefore locationId : option string) :
  ready w ->
  (forall request, server (trace w) request = Answer 200 (Some JNull)) ->
  fst (getSessions server LocalTZA (S fuel) now page pageSize startsBefore locationId w)
    = Ok emptyEnvelope /\
  fst (getSessionById server (S fuel) sessionId w) = Ok JNull.
Proof.
  intros [Hm Ht] Hs. split.
  - cbn [getSessions]. run. rewrite Hm, Ht. cbn. rewrite Hs. reflexivity.
  - cbn [getSessionById]. run. rewrite Hm, Ht. cbn. rewrite Hs. reflexivity.
Qed.

End Guards.

(** C3.  With no credential set, [getCustomerById] and [getCustomerBookings]
    do not short-circuit: they send their data request with an empty bearer
    token.  A server that answers it gets the data returned (three requests
    for [getCustomerById]); a server that refuses it with 401 is asked for a
    refresh grant and the operation starts again. *)
Theorem unguarded_operations_call_out :
  missingCredentials unconfigured = true /\
  getCustomerById (expiring 0 [row]) 1 "42" (fresh unconfigured)
    = (Ok (customerRecord "42" [row]),
       {| this := unconfigured;
          trace := [ Get (MemberById "42") (JStr "");
                     Get (MemberSessions "42") (JStr "");
                     Get (MemberActiveMemberships "42") (JStr "") ] |}) /\
  getCustomerBookings (expiring 0 [row]) 1 "42" (fresh unconfigured)
    = (Ok (JArr [row]),
       {| this := unconfigured;
          trace := [ Get (MemberBookings "42") (JStr "") ] |}) /\
  getCustomerById (strict [row]) 2 "42" (fresh unconfigured)
    = (OutOfFuel,
       {| this := unconfigured;
          trace := [ Get (MemberById "42") (JStr ""); RefreshGrant "" (JStr "");
                     Get (MemberById "42") (JStr ""); RefreshGrant "" (JStr "") ] |}) /\
  getCustomerBookings (strict [row]) 2 "42" (fresh unconfigured)
    = (OutOfFuel,
       {| this := unconfigured;
          trace := [ Get (MemberBookings "42") (JStr ""); RefreshGrant "" (JStr "");
                     Get (MemberBookings "42") (JStr ""); RefreshGrant "" (JStr "") ] |}).
Proof. repeat split. Qed.

(** Without credentials and against a server that refuses the empty token,
    [getCustomerById] never returns: each round sends two more requests. *)
Lemma getCustomerById_unconfigured_never_returns (rows : list Json) (fuel : nat) :
  forall (id : string) (sent : list Request),
    let outcome := getCustomerById (strict rows) fuel id
                     {| this := unconfigured; trace := sent |} in
    fst outcome = OutOfFuel /\
    List.length (trace (snd outcome)) = (List.length sent + 2 * fuel)%nat.
Proof.
  induction fuel as [|fuel IH]; intros id sent; cbv zeta.
  - cbn. split; [reflexivity|lia].
  - cbn [getCustomerById]. run. rewrite <- app_assoc. cbn [app].
    specialize (IH id (sent ++ [Get (MemberById id) (JStr ""); RefreshGrant "" (JStr "")])%list).
    cbv zeta in IH. unfold unconfigured in IH.
    destruct (getCustomerById (strict rows) fuel id _) as [r w'].
    cbn [fst snd] in *. destruct IH as [-> Hlen]. cbn [fst snd].
    split; [reflexivity|]. rewrite Hlen, length_app. cbn. lia.
Qed.

(** *** Refresh token *)

(** C10.  From the body of a successful grant, [authenticate] stores as
    refresh token the field [refresh_token], or the field [refreshToken] when
    the first is missing or empty; [refreshAccessToken] stores the field
    [refreshToken] whatever [refresh_token] holds.  A body that carries the
    refresh token under [refresh_token] only thus leaves the stored refresh
    token [undefined] after a refresh, where [authenticate], given the same
    body, stores the token. *)
Theorem refresh_drops_refresh_token (server : Server) (w : World) (st : Z)
    (data access snake camel : Json) :
  okStatus st = true ->
  prop "access_token" data = Some access ->
  prop "refresh_token" data = Some snake ->
  prop "refreshToken" data = Some camel ->
  (server (trace w) (RefreshGrant (authToken (this w)) (refreshToken (this w)))
     = Answer st (Some data) ->
   exists w', refreshAccessToken server w = (Ok true, w') /\
              accessToken (this w') = access /\
              refreshToken (this w') = camel) /\
  (missingCredentials (this w) = false ->
   server (trace w)
          (PasswordGrant (authToken (this w)) (username (this w)) (password (this w)))
     = Answer st (Some data) ->
   exists w', authenticate server w = (Ok true, w') /\
              accessToken (this w') = access /\
              refreshToken (this w') = (if truthy snake then snake else camel) /\
              (forall token, snake = JStr token -> token <> "" -> camel = JUndefined ->
                             refreshToken (this w') = JStr token) /\
              (snake = JUndefined -> refreshToken (this w') = camel)).
Proof.
  intros Hst Ha Hr Hr'.
  split.
  - intros Hs. run. rewrite Hs. cbn. rewrite Hst. cbn. rewrite Ha. cbn. rewrite Hr'. cbn.
    eexists. split; [reflexivity|]. split; reflexivity.
  - intros Hm Hs. run. rewrite Hm, Hs. cbn. rewrite Hst. cbn.
    rewrite Ha. cbn. rewrite Hr. cbn. rewrite Hr'. cbn.
    eexists. split; [reflexivity|]. split; [reflexivity|]. unfold or_else.
    split; [reflexivity|]. split.
    + intros token -> Ht _. cbn.
      unfold truthyStr. destruct (String.eqb_spec token ""); [contradiction|reflexivity].
    + intros ->. reflexivity.
Qed.

Lemma refresh_drops_refresh_token_witness :
  (exists w', refreshAccessToken (strict [row]) (fresh configured) = (Ok true, w') /\
              accessToken (this w') = JStr "live" /\
              refreshToken (this w') = JUndefined) /\
  (exists w', authenticate (strict [row]) (fresh configured) = (Ok true, w') /\
              accessToken (this w') = JStr "live" /\
              refreshToken (this w') = JStr "again").
Proof.
  destruct (refresh_drops_refresh_token (strict [row]) (fresh configured) 200
              (JObj [("access_token", JStr "live"); ("refresh_token", JStr "again")])
              (JStr "live") (JStr "again") JUndefined) as [Hrefresh Hauth];
    try reflexivity.
  split.
  - apply Hrefresh. reflexivity.
  - destruct Hauth as [w' [Hrun [Haccess [_ [Hsnake _]]]]]; try reflexivity.
    exists w'. split; [exact Hrun|]. split; [exact Haccess|].
    apply (Hsnake "again"); [reflexivity | discriminate | reflexivity].
Defined.

(** The two field names in turn, against a server that grants every token
    request with the same body.  With the token under [refreshToken] both
    operations store it; with the token under [refresh_token] only
    [authenticate] does. *)
Lemma refresh_token_field_names :
  refreshToken (this (snd (authenticate (expiring 0 []) (fresh configured)))) = JStr "next" /\
  refreshToken (this (snd (refreshAccessToken (expiring 0 []) (fresh configured))))
    = JStr "next" /\
  refreshToken (this (snd (authenticate (strict []) (fresh configured)))) = JStr "again" /\
  refreshToken (this (snd (refreshAccessToken (strict []) (fresh configured))))
    = JUndefined.
Proof. repeat split. Qed.

(** *** The default of [startsBefore] *)

Lemma startsBeforeSent_app (a b : list Request) :
  startsBeforeSent (a ++ b) = (startsBeforeSent a ++ startsBeforeSent b)%list.
Proof.
  induction a as [|r a IH]; cbn; [reflexivity|].
  destruct r as [| |e bearer]; try exact IH.
  destruct e; cbn; rewrite ?IH; reflexivity.
Qed.

Lemma sends_refl (s : string) (w : World) : sendsStartsBefore s w w.
Proof. exists []. split; [symmetry; apply app_nil_r | constructor]. Qed.

Lemma sends_trans (s : string) (w1 w2 w3 : World) :
  sendsStartsBefore s w1 w2 -> sendsStartsBefore s w2 w3 -> sendsStartsBefore s w1 w3.
Proof.
  intros [a [Ha Fa]] [b [Hb Fb]]. exists (a ++ b)%list. split.
  - rewrite Hb, Ha. symmetry. apply app_assoc.
  - rewrite startsBeforeSent_app. apply Forall_app. split; assumption.
Qed.

Section Sent.

Variable server : Server.
Variable LocalTZA : Z -> bool -> Z.

(** The token grants send no session listing. *)
Lemma authenticate_sends (s : string) (w : World) :
  sendsStartsBefore s w (snd (authenticate server w)).
Proof.
  run. destruct (missingCredentials (this w)); [apply sends_refl|].
  assert (Hone : forall api,
             sendsStartsBefore s w
               {| this := api;
                  trace := (trace w ++ [PasswordGrant (authToken (this w))
                              (username (this w)) (password (this w))])%list |}).
  { intros api. eexists. split; [reflexivity|constructor]. }
  destruct (server (trace w) _) as [|st body]; cbn; [apply Hone|].
  destruct (negb (okStatus st)); cbn; [apply Hone|].
  destruct body as [data|]; cbn; [|apply Hone].
  destruct (prop "access_token" data); cbn; [|apply Hone].
  destruct (prop "refresh_token" data); cbn; [|apply Hone].
  destruct (prop "refreshToken" data); cbn; apply Hone.
Qed.

Lemma refreshAccessToken_sends (s : string) (w : World) :
  sendsStartsBefore s w (snd (refreshAccessToken server w)).
Proof.
  run.
  assert (Hone : forall api,
             sendsStartsBefore s w
               {| this := api;
                  trace := (trace w ++ [RefreshGrant (authToken (this w))
                              (refreshToken (this w))])%list |}).
  { intros api. eexists. split; [reflexivity|constructor]. }
  destruct (server (trace w) _) as [|st body]; cbn; [apply Hone|].
  destruct (negb (okStatus st)); cbn; [apply Hone|].
  destruct body as [data|]; cbn; [|apply Hone].
  destruct (prop "access_token" data); cbn; [|apply Hone].
  destruct (prop "refreshToken" data); cbn; apply Hone.
Qed.

Lemma ensureToken_sends (s : string) (w : World) :
  sendsStartsBefore s w (snd (ensureToken server w)).
Proof.
  unfold ensureToken, bind, getThis.
  destruct (negb (truthy (accessToken (this w)))); [apply authenticate_sends|].
  apply sends_refl.
Qed.

Variables now page pageSize : Z.
Variable locationId : option string.

Lemma getSessions_sends (fuel : nat) :
  forall (sb : option string) (w : World),
    sendsStartsBefore (startsBeforeParam LocalTZA now sb) w
      (snd (getSessions server LocalTZA fuel now page pageSize sb locationId w)).
Proof.
  induction fuel as [|fuel IH]; intros sb w; [apply sends_refl|].
  cbn [getSessions]. unfold try_catch, bind, getThis.
  destruct (missingCredentials (this w)); [apply sends_refl|].
  pose proof (ensureToken_sends (startsBeforeParam LocalTZA now sb) w) as H1.
  destruct (ensureToken server w) as [[[|]| |] w1]; cbn [snd] in H1; cbn;
    try exact H1.
  unfold fetch.
  set (X := startsBeforeParam LocalTZA now sb) in *.
  set (request := Get (Sessions page pageSize X (locationParam locationId))
                      (accessToken (this w1))).
  assert (H2 : sendsStartsBefore X w
                 {| this := this w1; trace := (trace w1 ++ [request])%list |}).
  { apply (sends_trans X w w1); [exact H1|].
    exists [request]. split; [reflexivity|]. repeat constructor. }
  destruct (server (trace w1) request) as [|st body]; [exact H2|].
  cbn [fst].
  destruct (st =? 401)%Z.
  - pose proof (refreshAccessToken_sends X
                  {| this := this w1; trace := (trace w1 ++ [request])%list |}) as H3.
    assert (H23 : forall w3,
               sendsStartsBefore X
                 {| this := this w1; trace := (trace w1 ++ [request])%list |} w3 ->
               sendsStartsBefore X w w3).
    { intros w3. apply sends_trans. exact H2. }
    destruct (refreshAccessToken server _) as [[[|]| |] w3]; cbn [snd] in H3;
      try (apply H23; exact H3).
    pose proof (IH (Some X) w3) as H4.
    unfold X in H4 at 1. rewrite startsBeforeParam_fixed in H4. fold X in H4.
    destruct (getSessions server LocalTZA fuel now page pageSize (Some X) locationId w3)
      as [r4 w4].
    cbn [snd] in H4.
    assert (H5 : sendsStartsBefore X w w4).
    { apply (sends_trans X w w3); [|exact H4]. apply H23. exact H3. }
    destruct r4; exact H5.
  - destruct (negb (okStatus st)); [exact H2|].
    unfold json, get_prop. cbn [snd].
    destruct body as [data|]; [|exact H2].
    cbn. destruct (prop "payload" data); exact H2.
Qed.
(** With credentials and an access token the listing is the first thing
    sent. *)
Lemma getSessions_first_request (fuel : nat) (sb : option string) (w : World) :
  ready w ->
  exists rest,
    trace (snd (getSessions server LocalTZA (S fuel) now page pageSize sb locationId w))
    = (trace w ++ Get (Sessions page pageSize (startsBeforeParam LocalTZA now sb)
                                (locationParam locationId))
                      (accessToken (this w)) :: rest)%list.
Proof.
  intros [Hm Ht].
  cbn [getSessions]. unfold ensureToken. unfold try_catch, bind, getThis.
  rewrite Hm, Ht. cbn [negb ret]. unfold fetch.
  set (X := startsBeforeParam LocalTZA now sb).
  set (request := Get (Sessions page pageSize X (locationParam locationId))
                      (accessToken (this w))).
  assert (Hext : forall w',
             sendsStartsBefore X
               {| this := this w; trace := (trace w ++ [request])%list |} w' ->
             exists rest, trace w' = (trace w ++ request :: rest)%list).
  { intros w' [sent [Hsent _]]. exists sent. rewrite Hsent. cbn [trace].
    rewrite <- app_assoc. reflexivity. }
  assert (Hhere : exists rest,
             (trace w ++ [request])%list = (trace w ++ request :: rest)%list).
  { exists []. reflexivity. }
  destruct (server (trace w) request) as [|st body]; [exact Hhere|].
  cbn [fst].
  destruct (st =? 401)%Z.
  - pose proof (refreshAccessToken_sends X
                  {| this := this w; trace := (trace w ++ [request])%list |}) as H3.
    destruct (refreshAccessToken server _) as [[[|]| |] w3]; cbn [snd] in H3;
      try (apply Hext; exact H3).
    pose proof (getSessions_sends fuel (Some X) w3) as H4.
    unfold X in H4 at 1. rewrite startsBeforeParam_fixed in H4. fold X in H4.
    destruct (getSessions server LocalTZA fuel now page pageSize (Some X) locationId w3)
      as [r4 w4].
    cbn [snd] in H4.
    assert (H5 : exists rest, trace w4 = (trace w ++ request :: rest)%list).
    { apply Hext. apply (sends_trans X _ w3); assumption. }
    destruct r4; exact H5.
  - destruct (negb (okStatus st)); [exact Hhere|].
    unfold json, get_prop. cbn [snd].
    destruct body as [data|]; [|exact Hhere].
    cbn. destruct (prop "payload" data); exact Hhere.
Qed.

End Sent.

Lemma defaultStartsBefore_next_day (LocalTZA : Z -> bool -> Z) (now : Z) :
  defaultStartsBefore LocalTZA now
    = JsDate.isoSeconds (sameTimeNextDay LocalTZA now) ++ "Z".
Proof.
  unfold defaultStartsBefore.
  rewrite JsDateFacts.setDate_next_day, JsDateFacts.beforeDot_toISOString.
  reflexivity.
Qed.

(** C8 (amended).  When [startsBefore] is not given, every session listing
    that [getSessions] sends, the retries included, carries as [startsBefore]
    the instant at which the local clock shows the time of day of the call
    on the next calendar day, written in UTC to the second; with credentials
    and an access token at hand such a listing is the first request sent.
    That instant is 24 hours after the call whenever the local zone has the
    same offset from UTC at both. *)
Theorem default_startsBefore_one_day_ahead (server : Server)
    (LocalTZA : Z -> bool -> Z) (now page pageSize : Z) (fuel : nat)
    (startsBefore locationId : option string) (w : World) :
  startsBefore = None \/ startsBefore = Some "" ->
  let s := JsDate.isoSeconds (sameTimeNextDay LocalTZA now) ++ "Z" in
  let outcome := getSessions server LocalTZA fuel now page pageSize
                   startsBefore locationId w in
  sendsStartsBefore s w (snd outcome) /\
  (ready w -> fuel <> 0%nat ->
   exists rest,
     trace (snd outcome)
     = (trace w ++ Get (Sessions page pageSize s (locationParam locationId))
                       (accessToken (this w)) :: rest)%list) /\
  (LocalTZA (JsDate.LocalTime LocalTZA now + JsDate.msPerDay) false = LocalTZA now true ->
   sameTimeNextDay LocalTZA now = now + JsDate.msPerDay).
Proof.
  intros Hsb. cbv zeta.
  assert (Hparam : startsBeforeParam LocalTZA now startsBefore
                   = JsDate.isoSeconds (sameTimeNextDay LocalTZA now) ++ "Z").
  { destruct Hsb as [-> | ->]; cbn; apply defaultStartsBefore_next_day. }
  split; [|split].
  - rewrite <- Hparam. apply getSessions_sends.
  - intros Hw Hfuel. destruct fuel as [|fuel]; [contradiction|].
    rewrite <- Hparam. apply getSessions_first_request. exact Hw.
  - apply JsDateFacts.next_day_same_offset.
Qed.

Lemma default_startsBefore_one_day_ahead_witness :
  let zone := JsDate.fixedZone 19800000 in
  let s := JsDate.isoSeconds (sameTimeNextDay zone sampleNow) ++ "Z" in
  let outcome := getSessions (strict [row]) zone 2 sampleNow 0 200 None None
                   (fresh configured) in
  sendsStartsBefore s (fresh configured) (snd outcome) /\
  (exists rest,
     trace (snd outcome)
     = (trace (fresh configured)
          ++ Get (Sessions 0 200 s (locationParam None))
                 (accessToken (this (fresh configured))) :: rest)%list) /\
  sameTimeNextDay zone sampleNow = sampleNow + JsDate.msPerDay.
Proof.
  cbv zeta.
  destruct (default_startsBefore_one_day_ahead (strict [row]) (JsDate.fixedZone 19800000)
              sampleNow 0 200 2 None None (fresh configured))
    as [Hsends [Hfirst Hday]].
  - left. reflexivity.
  - split; [exact Hsends|]. split.
    + apply Hfirst; [split; reflexivity | discriminate].
    + apply Hday. reflexivity.
Defined.

(** Across a change of the clocks the default is not 24 hours ahead: called
    at 2024-03-30T12:00:00Z, 13:00 in a zone whose clocks go forward the
    following night, [getSessions] sends 2024-03-31T11:00:00Z, which is 13:00
    of the next day in that zone and 23 hours after the call. *)
Lemma default_across_clock_change :
  let outcome := getSessions (strict [row]) JsDate.clocksForward 2 1711800000000 0 200
                   None None (fresh configured) in
  JsDate.toISOString 1711800000000 = "2024-03-30T12:00:00.000Z" /\
  startsBeforeSent (trace (snd outcome))
    = ["2024-03-31T11:00:00Z"; "2024-03-31T11:00:00Z"] /\
  sameTimeNextDay JsDate.clocksForward 1711800000000
    = 1711800000000 + 23 * JsDate.msPerHour.
Proof. cbv zeta. repeat split; vm_compute; reflexivity. Qed.

(** C8, as stated, fails: called at 2024-01-15T10:30:45.123Z without
    [startsBefore], in a zone that keeps UTC, [getSessions] sends
    2024-01-16T10:30:45Z (twice; the first listing is answered 401), not the
    start of the next day, 2024-01-16T00:00:00Z. *)
Lemma default_startsBefore_not_start_of_day :
  let outcome := getSessions (strict [row]) (JsDate.fixedZone 0) 2 sampleNow 0 200
                   None None (fresh configured) in
  JsDate.toISOString sampleNow = "2024-01-15T10:30:45.123Z" /\
  startOfNextDayParam sampleNow = "2024-01-16T00:00:00Z" /\
  startsBeforeSent (trace (snd outcome))
    = ["2024-01-16T10:30:45Z"; "2024-01-16T10:30:45Z"] /\
  ~ sendsStartsBefore (startOfNextDayParam sampleNow) (fresh configured) (snd outcome).
Proof.
  cbv zeta. repeat split; try (vm_compute; reflexivity).
  intros [sent [Htrace Hall]].
  cbn [fresh trace app] in Htrace. rewrite <- Htrace in Hall.
  vm_compute in Hall. inversion Hall as [|x l Hx Hl]. discriminate Hx.
Qed.

End ClientFacts.

(** ** Location names *)

Module LocationMoreFacts.
Import Location LocationMore.

Lemma prefix_app_weaken (a b s : string) :
  String.prefix (a ++ b) s = true -> String.prefix a s = true.
Proof.
  revert s. induction a as [|c a IH]; intros s H; [destruct s; reflexivity|].
  destruct s as [|d s]; cbn in *; [discriminate|].
  destruct (ascii_dec c d); [apply IH; exact H | discriminate].
Qed.

Lemma includes_app_weaken (a b s : string) :
  includes s (a ++ b) = true -> includes s a = true.
Proof.
  induction s as [|c s IH]; cbn [includes]; intros H.
  - apply Bool.orb_true_iff in H. destruct H as [H|H]; [|discriminate].
    rewrite (prefix_app_weaken a b _ H). reflexivity.
  - apply Bool.orb_true_iff in H. destruct H as [H|H].
    + rewrite (prefix_app_weaken a b _ H). reflexivity.
    + rewrite (IH H). apply Bool.orb_true_r.
Qed.

Section Lookup.

Variable toLowerCase : string -> string.
Hypothesis lowers : lowersKeys toLowerCase.

Lemma partialMatch_byContainment (name : string) :
  partialMatch toLowerCase name = byContainment toLowerCase name.
Proof.
  unfold partialMatch, byContainment, locationMap. cbn [substringMatch].
  rewrite (lowers "Kwality House" "9030") by (cbn; tauto).
  rewrite (lowers "Supreme HQ, Bandra" "29821") by (cbn; tauto).
  rewrite (lowers "Supreme HQ Bandra" "29821") by (cbn; tauto).
  rewrite (lowers "Kwality House, Kemps Corner" "9030") by (cbn; tauto).
  change (lowerAscii "Kwality House") with "kwality house".
  change (lowerAscii "Supreme HQ, Bandra") with "supreme hq, bandra".
  change (lowerAscii "Supreme HQ Bandra") with "supreme hq bandra".
  change (lowerAscii "Kwality House, Kemps Corner") with "kwality house, kemps corner".
  destruct (includes (toLowerCase name) "kwality house") eqn:Hk; [reflexivity|].
  destruct (includes (toLowerCase name) "supreme hq, bandra"); [reflexivity|].
  destruct (includes (toLowerCase name) "supreme hq bandra"); [reflexivity|].
  destruct (includes (toLowerCase name) "kwality house, kemps corner") eqn:Hkk;
    [|reflexivity].
  apply (includes_app_weaken "kwality house" ", kemps corner") in Hkk. congruence.
Qed.

(** X1.  For a name that is not empty and not the name of a member every
    object inherits, the location lookup depends only on what the lower-cased
    name contains: "kwality house" resolves to 9030; otherwise
    "supreme hq, bandra" or "supreme hq bandra" resolves to 29821; every
    other name resolves to nothing.  The exact-match step and the fourth
    entry of the table never change the result. *)
Theorem location_resolution_by_containment (name : string) :
  name <> "" ->
  inheritedKey name = false ->
  getLocationId toLowerCase (Some name) = byContainment toLowerCase name.
Proof.
  intros Hne Hinh. unfold getLocationId.
  destruct name as [|c name]; [congruence|].
  cbn [truthyStr String.eqb negb].
  destruct (assoc (String c name) locationMap) as [id|] eqn:Hexact.
  - rewrite (LocationFacts.lookup_exact _ _ Hexact).
    assert (Hin : In (String c name, id) locationMap /\ truthyStr id = true).
    { revert Hexact. unfold locationMap. cbn [assoc].
      repeat match goal with
             | |- context [(?k =? ?n)%string] =>
                 destruct (String.eqb_spec k n) as [<-|]
             end; intros H; inversion H; subst; cbn; tauto. }
    destruct Hin as [Hin Ht]. rewrite Ht.
    unfold byContainment. cbv zeta. rewrite (lowers _ _ Hin).
    revert Hin. unfold locationMap. cbn [In].
    intros [H | [H | [H | [H | []]]]]; inversion H; subst; reflexivity.
  - rewrite (LocationFacts.lookup_missing _ Hexact Hinh).
    apply partialMatch_byContainment.
Qed.

End Lookup.

Lemma location_resolution_by_containment_witness :
  getLocationId lowerAscii (Some "The Kwality House annexe")
    = byContainment lowerAscii "The Kwality House annexe".
Proof.
  apply (location_resolution_by_containment lowerAscii).
  - intros key id _. reflexivity.
  - discriminate.
  - reflexivity.
Defined.

End LocationMoreFacts.

(** ** What every client computation keeps *)

Module ClientLogicFacts.
Import Js Momence Scenario ClientLogic.
Local Open Scope client_scope.

Section Combinators.

Variable P : Request -> Prop.

Lemma sends_ret {A : Type} (a : A) : sends P (ret a).
Proof. intros w. split; [reflexivity|]. exists []. split; [symmetry; apply app_nil_r|constructor]. Qed.

Lemma sends_throw {A : Type} : sends P (@throw A).
Proof. intros w. split; [reflexivity|]. exists []. split; [symmetry; apply app_nil_r|constructor]. Qed.

Lemma sends_outOfFuel {A : Type} : sends P (@outOfFuel A).
Proof. intros w. split; [reflexivity|]. exists []. split; [symmetry; apply app_nil_r|constructor]. Qed.

Lemma sends_getThis : sends P getThis.
Proof. intros w. split; [reflexivity|]. exists []. split; [symmetry; apply app_nil_r|constructor]. Qed.

Lemma sends_setAccessToken (v : Json) : sends P (setAccessToken v).
Proof. intros w. split; [reflexivity|]. exists []. split; [symmetry; apply app_nil_r|constructor]. Qed.

Lemma sends_setRefreshToken (v : Json) : sends P (setRefreshToken v).
Proof. intros w. split; [reflexivity|]. exists []. split; [symmetry; apply app_nil_r|constructor]. Qed.

Lemma sends_get_prop (key : string) (v : Json) : sends P (get_prop key v).
Proof. unfold get_prop. destruct (prop key v); [apply sends_ret|apply sends_throw]. Qed.

Lemma sends_json (response : Z * option Json) : sends P (json response).
Proof. unfold json. destruct (snd response); [apply sends_ret|apply sends_throw]. Qed.

(** Running on from a world the computation has reached. *)
Lemma sends_step (w w1 w2 : World) :
  (credentials (this w1) = credentials (this w) /\
   exists sent, trace w1 = (trace w ++ sent)%list /\ Forall P sent) ->
  (credentials (this w2) = credentials (this w1) /\
   exists sent, trace w2 = (trace w1 ++ sent)%list /\ Forall P sent) ->
  credentials (this w2) = credentials (this w) /\
  exists sent, trace w2 = (trace w ++ sent)%list /\ Forall P sent.
Proof.
  intros [Hc1 [s1 [Ht1 Hp1]]] [Hc2 [s2 [Ht2 Hp2]]]. split; [congruence|].
  exists (s1 ++ s2)%list. split.
  - rewrite Ht2, Ht1. symmetry. apply app_assoc.
  - apply Forall_app. split; assumption.
Qed.

Lemma sends_bind {A B : Type} (m : M A) (k : A -> M B) :
  sends P m -> (forall a, sends P (k a)) -> sends P (bind m k).
Proof.
  intros Hm Hk w. unfold bind. specialize (Hm w).
  destruct (m w) as [[a| |] w1]; cbn [snd] in *; try exact Hm.
  apply (sends_step w w1); [exact Hm | apply Hk].
Qed.

Lemma sends_try_catch {A : Type} (body handler : M A) :
  sends P body -> sends P handler -> sends P (try_catch body handler).
Proof.
  intros Hb Hh w. unfold try_catch. specialize (Hb w).
  destruct (body w) as [[a| |] w1]; cbn [snd] in *; try exact Hb.
  apply (sends_step w w1); [exact Hb | apply Hh].
Qed.

Variable server : Server.

Lemma sends_fetch (r : Request) : P r -> sends P (fetch server r).
Proof.
  intros Hr w. unfold fetch.
  assert (H : credentials (this w) = credentials (this w) /\
              exists sent, (trace w ++ [r])%list = (trace w ++ sent)%list /\ Forall P sent).
  { split; [reflexivity|]. exists [r]. split; [reflexivity|]. constructor; [exact Hr|constructor]. }
  destruct (server (trace w) r); exact H.
Qed.

End Combinators.

Ltac sends_tac :=
  repeat first
    [ apply sends_ret | apply sends_throw | apply sends_outOfFuel | apply sends_getThis
    | apply sends_setAccessToken | apply sends_setRefreshToken
    | apply sends_get_prop | apply sends_json
    | apply sends_try_catch
    | apply sends_bind; [|intros ?]
    | apply sends_fetch; cbn; auto; fail
    | match goal with
      | |- sends _ (if ?b then _ else _) => destruct b
      end
    | assumption ].

Section Operations.

Variable server : Server.
Variable LocalTZA : Z -> bool -> Z.

Lemma sends_authenticate (E : Endpoint -> Prop) :
  sends (dataRequests E) (authenticate server).
Proof. unfold authenticate. sends_tac. Qed.

Lemma sends_refreshAccessToken (E : Endpoint -> Prop) :
  sends (dataRequests E) (refreshAccessToken server).
Proof. unfold refreshAccessToken. sends_tac. Qed.

Lemma sends_ensureToken (E : Endpoint -> Prop) :
  sends (dataRequests E) (ensureToken server).
Proof. unfold ensureToken. sends_tac. Qed.

Lemma sends_searchCustomers (query : string) (fuel : nat) :
  sends (dataRequests (eq (MembersSearch query))) (searchCustomers server fuel query).
Proof.
  induction fuel as [|fuel IH]; cbn [searchCustomers]; [apply sends_outOfFuel|].
  pose proof (sends_ensureToken (eq (MembersSearch query))).
  pose proof (sends_refreshAccessToken (eq (MembersSearch query))).
  sends_tac.
Qed.

Lemma sends_getCustomerById (id : string) (fuel : nat) :
  sends (dataRequests (fun e => e = MemberById id \/ e = MemberSessions id \/
                                e = MemberActiveMemberships id))
        (getCustomerById server fuel id).
Proof.
  induction fuel as [|fuel IH]; cbn [getCustomerById]; [apply sends_outOfFuel|].
  unfold fetchOptional. sends_tac.
Qed.

Lemma sends_getCustomerBookings (id : string) (fuel : nat) :
  sends (dataRequests (eq (MemberBookings id))) (getCustomerBookings server fuel id).
Proof.
  induction fuel as [|fuel IH]; cbn [getCustomerBookings]; [apply sends_outOfFuel|].
  sends_tac.
Qed.

Lemma sends_getSessionById (id : string) (fuel : nat) :
  sends (dataRequests (eq (SessionById id))) (getSessionById server fuel id).
Proof.
  induction fuel as [|fuel IH]; cbn [getSessionById]; [apply sends_outOfFuel|].
  sends_tac.
Qed.

Lemma sends_getSessions (now page pageSize : Z) (locationId : option string)
    (fuel : nat) :
  forall sb,
    sends (dataRequests (eq (Sessions page pageSize (startsBeforeParam LocalTZA now sb)
                                      (locationParam locationId))))
          (getSessions server LocalTZA fuel now page pageSize sb locationId).
Proof.
  induction fuel as [|fuel IH]; intros sb; cbn [getSessions]; [apply sends_outOfFuel|].
  pose proof (IH (Some (startsBeforeParam LocalTZA now sb))) as IH'.
  rewrite ClientFacts.startsBeforeParam_fixed in IH'.
  cbv zeta. sends_tac.
Qed.

End Operations.

(** X2.  Whatever the server does and however often an operation retries,
    it leaves the credentials as they are, only adds to the requests sent,
    and every data request it sends is the same request: the same query,
    member, session, page, page size, [startsBefore] and location. *)
Theorem operations_repeat_one_request (server : Server) (LocalTZA : Z -> bool -> Z)
    (now page pageSize : Z)
    (fuel : nat) (query memberId sessionId : string)
    (startsBefore locationId : option string) :
  sends (dataRequests (eq (MembersSearch query)))
        (searchCustomers server fuel query) /\
  sends (dataRequests (fun e => e = MemberById memberId \/ e = MemberSessions memberId \/
                                e = MemberActiveMemberships memberId))
        (getCustomerById server fuel memberId) /\
  sends (dataRequests (eq (MemberBookings memberId)))
        (getCustomerBookings server fuel memberId) /\
  sends (dataRequests (eq (Sessions page pageSize
                             (startsBeforeParam LocalTZA now startsBefore)
                             (locationParam locationId))))
        (getSessions server LocalTZA fuel now page pageSize startsBefore locationId) /\
  sends (dataRequests (eq (SessionById sessionId)))
        (getSessionById server fuel sessionId).
Proof.
  split; [apply sends_searchCustomers|].
  split; [apply sends_getCustomerById|].
  split; [apply sends_getCustomerBookings|].
  split; [apply sends_getSessions | apply sends_getSessionById].
Qed.


Lemma try_catch_ret_neverThrows {A : Type} (body : M A) (a : A) :
  neverThrows (try_catch body (ret a)).
Proof.
  intros w. unfold try_catch, ret.
  destruct (body w) as [[x| |] w']; cbn; discriminate.
Qed.


(** X4.  [authenticate] returns [true] or [false] after at most one request,
    the password grant with the configured credentials; with a credential
    missing it sends nothing; and whenever it returns [false] the instance,
    tokens included, is as it was. *)
Theorem authenticate_outcome (server : Server) (w : World) :
  exists (success : bool) (w' : World),
    authenticate server w = (Ok success, w') /\
    (success = false -> this w' = this w) /\
    (trace w' = trace w \/ trace w' = (trace w ++ [passwordGrant (this w)])%list) /\
    (missingCredentials (this w) = true -> success = false /\ trace w' = trace w).
Proof.
  unfold passwordGrant. ClientFacts.run.
  destruct (missingCredentials (this w)) eqn:Hm.
  { exists false, w. repeat split; auto. }
  destruct (server (trace w) _) as [|st body]; cbn.
  { eexists false, _. repeat split; cbn; auto; discriminate. }
  destruct (negb (okStatus st)); cbn.
  { eexists false, _. repeat split; cbn; auto; discriminate. }
  destruct body as [data|]; cbn.
  2:{ eexists false, _. repeat split; cbn; auto; discriminate. }
  destruct (prop "access_token" data) eqn:Ha; cbn.
  2:{ eexists false, _. repeat split; cbn; auto; discriminate. }
  destruct (prop "refresh_token" data); cbn.
  2:{ eexists false, _. repeat split; cbn; auto; discriminate. }
  destruct (prop "refreshToken" data); cbn.
  2:{ eexists false, _. repeat split; cbn; auto; discriminate. }
  eexists true, _. repeat split; cbn; auto; discriminate.
Qed.

(** X5.  [refreshAccessToken] always sends exactly one request, the refresh
    grant with the stored refresh token (it has no guard of its own), and
    returns [true] or [false]; whenever it returns [false] the instance,
    tokens included, is as it was. *)
Theorem refreshAccessToken_outcome (server : Server) (w : World) :
  exists (success : bool) (w' : World),
    refreshAccessToken server w = (Ok success, w') /\
    trace w' = (trace w ++ [refreshGrant (this w)])%list /\
    (success = false -> this w' = this w).
Proof.
  unfold refreshGrant. ClientFacts.run.
  destruct (server (trace w) _) as [|st body]; cbn.
  { eexists false, _. repeat split; cbn; auto. }
  destruct (negb (okStatus st)); cbn.
  { eexists false, _. repeat split; cbn; auto. }
  destruct body as [data|]; cbn.
  2:{ eexists false, _. repeat split; cbn; auto. }
  destruct (prop "access_token" data) eqn:Ha; cbn.
  2:{ eexists false, _. repeat split; cbn; auto. }
  destruct (prop "refreshToken" data) eqn:Hr; cbn.
  2:{ destruct data; cbn in Ha, Hr; discriminate. }
  eexists true, _. repeat split; cbn; auto; discriminate.
Qed.


(** A data request that fails plainly ends the operation at once. *)
Ltac plain_failure Hm Ht Hf :=
  unfold asked; ClientFacts.run; rewrite ?Hm, ?Ht; cbn;
  destruct Hf as [Hf | [st [body [Hf [Hok Hst]]]]]; rewrite Hf; cbn;
  [reflexivity|];
  apply Z.eqb_neq in Hst; rewrite Hst, Hok; reflexivity.

(** X6.  When the answer to the data request is a network error or a status
    that is neither a success nor 401, each operation returns its empty value
    ([[]], [null], or the empty envelope) after that single request, without a
    refresh and with its tokens untouched. *)
Theorem plain_failure_gives_empty (server : Server) (LocalTZA : Z -> bool -> Z)
    (now page pageSize : Z)
    (fuel : nat) (query memberId sessionId : string)
    (startsBefore locationId : option string) (w : World) :
  ready w ->
  (plainFailure (server (trace w) (Get (MembersSearch query) (accessToken (this w)))) ->
   searchCustomers server (S fuel) query w
     = (Ok (JArr []), asked (MembersSearch query) w)) /\
  (plainFailure (server (trace w) (Get (MemberById memberId) (accessToken (this w)))) ->
   getCustomerById server (S fuel) memberId w
     = (Ok JNull, asked (MemberById memberId) w)) /\
  (plainFailure (server (trace w) (Get (MemberBookings memberId) (accessToken (this w)))) ->
   getCustomerBookings server (S fuel) memberId w
     = (Ok (JArr []), asked (MemberBookings memberId) w)) /\
  (plainFailure (server (trace w)
                   (Get (Sessions page pageSize
                           (startsBeforeParam LocalTZA now startsBefore)
                           (locationParam locationId))
                        (accessToken (this w)))) ->
   getSessions server LocalTZA (S fuel) now page pageSize startsBefore locationId w
     = (Ok emptyEnvelope,
        asked (Sessions page pageSize (startsBeforeParam LocalTZA now startsBefore)
                        (locationParam locationId)) w)) /\
  (plainFailure (server (trace w) (Get (SessionById sessionId) (accessToken (this w)))) ->
   getSessionById server (S fuel) sessionId w
     = (Ok JNull, asked (SessionById sessionId) w)).
Proof.
  intros [Hm Ht].
  split; [|split; [|split; [|split]]]; intros Hf.
  - cbn [searchCustomers]. plain_failure Hm Ht Hf.
  - cbn [getCustomerById]. plain_failure Hm Ht Hf.
  - cbn [getCustomerBookings]. plain_failure Hm Ht Hf.
  - cbn [getSessions]. plain_failure Hm Ht Hf.
  - cbn [getSessionById]. plain_failure Hm Ht Hf.
Qed.


Lemma plain_failure_gives_empty_witness :
  searchCustomers (broken 503) 1 "ab" (fresh configured)
    = (Ok (JArr []), asked (MembersSearch "ab") (fresh configured)) /\
  getCustomerById offline 1 "42" (fresh configured)
    = (Ok JNull, asked (MemberById "42") (fresh configured)) /\
  getCustomerBookings (broken 404) 1 "42" (fresh configured)
    = (Ok (JArr []), asked (MemberBookings "42") (fresh configured)) /\
  getSessionById offline 1 "s1" (fresh configured)
    = (Ok JNull, asked (SessionById "s1") (fresh configured)).
Proof.
  assert (Hready : ready (fresh configured)) by (split; reflexivity).
  split; [|split; [|split]].
  - apply (plain_failure_gives_empty (broken 503) (JsDate.fixedZone 0) sampleNow 0 200 0
             "ab" "42" "s1" None None (fresh configured) Hready).
    right. exists 503, None. repeat split. lia.
  - apply (plain_failure_gives_empty offline (JsDate.fixedZone 0) sampleNow 0 200 0
             "ab" "42" "s1" None None (fresh configured) Hready).
    left. reflexivity.
  - apply (plain_failure_gives_empty (broken 404) (JsDate.fixedZone 0) sampleNow 0 200 0
             "ab" "42" "s1" None None (fresh configured) Hready).
    right. exists 404, None. repeat split. lia.
  - apply (plain_failure_gives_empty offline (JsDate.fixedZone 0) sampleNow 0 200 0
             "ab" "42" "s1" None None (fresh configured) Hready).
    left. reflexivity.
Defined.

(** X7.  With the credentials set but no access token held,
    [searchCustomers], [getSessions] and [getSessionById] first authenticate;
    when the password grant is refused (a network error or a non-success
    status) they return their empty value after that one request: no data
    request is sent and the instance is as it was. *)
Theorem refused_grant_gives_empty (server : Server) (LocalTZA : Z -> bool -> Z)
    (now page pageSize : Z)
    (fuel : nat) (query sessionId : string)
    (startsBefore locationId : option string) (w : World) :
  missingCredentials (this w) = false ->
  truthy (accessToken (this w)) = false ->
  refusedGrant (server (trace w) (passwordGrant (this w))) ->
  searchCustomers server (S fuel) query w
    = (Ok (JArr []), granted (passwordGrant (this w)) w) /\
  getSessions server LocalTZA (S fuel) now page pageSize startsBefore locationId w
    = (Ok emptyEnvelope, granted (passwordGrant (this w)) w) /\
  getSessionById server (S fuel) sessionId w
    = (Ok JNull, granted (passwordGrant (this w)) w).
Proof.
  intros Hm Ht Hf. unfold granted, passwordGrant in *.
  repeat split.
  - cbn [searchCustomers]. ClientFacts.run. rewrite Hm, Ht. cbn. rewrite Hm.
    destruct Hf as [Hf | [st [body [Hf Hok]]]]; rewrite Hf; cbn;
      rewrite ?Hok; reflexivity.
  - cbn [getSessions]. ClientFacts.run. rewrite Hm, Ht. cbn. rewrite Hm.
    destruct Hf as [Hf | [st [body [Hf Hok]]]]; rewrite Hf; cbn;
      rewrite ?Hok; reflexivity.
  - cbn [getSessionById]. ClientFacts.run. rewrite Hm, Ht. cbn. rewrite Hm.
    destruct Hf as [Hf | [st [body [Hf Hok]]]]; rewrite Hf; cbn;
      rewrite ?Hok; reflexivity.
Qed.

Lemma refused_grant_gives_empty_witness :
  searchCustomers (broken 401) 1 "ab" (fresh unauthenticated)
    = (Ok (JArr []), granted (passwordGrant unauthenticated) (fresh unauthenticated)) /\
  getSessions (broken 401) (JsDate.fixedZone 0) 1 sampleNow 0 200 None None
              (fresh unauthenticated)
    = (Ok emptyEnvelope, granted (passwordGrant unauthenticated) (fresh unauthenticated)) /\
  getSessionById (broken 401) 1 "s1" (fresh unauthenticated)
    = (Ok JNull, granted (passwordGrant unauthenticated) (fresh unauthenticated)).
Proof.
  apply (refused_grant_gives_empty (broken 401) (JsDate.fixedZone 0) sampleNow 0 200 0
           "ab" "s1" None None (fresh unauthenticated)).
  - reflexivity.
  - reflexivity.
  - right. exists 401, None. split; reflexivity.
Defined.


(** X8.  With the credentials set but no access token held, a granted
    password request stores the tokens of the answer, and the data request
    that follows carries the access token just granted; a successful answer
    to it is returned: [payload] for the search, the body itself for the
    session operations (for the listing, a body that is not [null]). *)
Theorem first_use_authenticates (server : Server) (LocalTZA : Z -> bool -> Z)
    (now page pageSize : Z)
    (fuel : nat) (query sessionId : string) (startsBefore locationId : option string)
    (w : World) (st st' : Z) (data access refresh1 refresh2 body : Json)
    (rows : list Json) :
  missingCredentials (this w) = false ->
  truthy (accessToken (this w)) = false ->
  server (trace w) (passwordGrant (this w)) = Answer st (Some data) ->
  okStatus st = true ->
  prop "access_token" data = Some access ->
  prop "refresh_token" data = Some refresh1 ->
  prop "refreshToken" data = Some refresh2 ->
  okStatus st' = true ->
  let w1 := {| this := withTokens access (or_else refresh1 refresh2) (this w);
               trace := (trace w ++ [passwordGrant (this w)])%list |} in
  (server (trace w1) (Get (MembersSearch query) access)
     = Answer st' (Some (JObj [("payload", JArr rows)])) ->
   searchCustomers server (S fuel) query w
     = (Ok (JArr rows), asked (MembersSearch query) w1)) /\
  (server (trace w1)
          (Get (Sessions page pageSize (startsBeforeParam LocalTZA now startsBefore)
                         (locationParam locationId)) access)
     = Answer st' (Some body) ->
   prop "payload" body <> None ->
   getSessions server LocalTZA (S fuel) now page pageSize startsBefore locationId w
     = (Ok body,
        asked (Sessions page pageSize (startsBeforeParam LocalTZA now startsBefore)
                        (locationParam locationId)) w1)) /\
  (server (trace w1) (Get (SessionById sessionId) access) = Answer st' (Some body) ->
   getSessionById server (S fuel) sessionId w
     = (Ok body, asked (SessionById sessionId) w1)).
Proof.
  intros Hm Ht Hg Hok Ha Hr1 Hr2 Hok' w1.
  assert (Hne : (st' =? 401) = false).
  { apply Z.eqb_neq. intros ->. discriminate Hok'. }
  unfold passwordGrant in *. subst w1. unfold asked, withTokens. cbn [this trace].
  split; [|split]; intros Hs.
  - cbn [searchCustomers]. ClientFacts.run. rewrite Hm, Ht. cbn. rewrite Hm, Hg. cbn.
    rewrite Hok. cbn. rewrite Ha. cbn. rewrite Hr1. cbn. rewrite Hr2. cbn.
    rewrite Hs. cbn. rewrite Hne, Hok'. reflexivity.
  - intros Hp. destruct (prop "payload" body) as [payload|] eqn:Hpayload; [|congruence].
    cbn [getSessions]. ClientFacts.run. rewrite Hm, Ht. cbn. rewrite Hm, Hg. cbn.
    rewrite Hok. cbn. rewrite Ha. cbn. rewrite Hr1. cbn. rewrite Hr2. cbn.
    rewrite Hs. cbn. rewrite Hne, Hok'. cbn. rewrite Hpayload. reflexivity.
  - cbn [getSessionById]. ClientFacts.run. rewrite Hm, Ht. cbn. rewrite Hm, Hg. cbn.
    rewrite Hok. cbn. rewrite Ha. cbn. rewrite Hr1. cbn. rewrite Hr2. cbn.
    rewrite Hs. cbn. rewrite Hne, Hok'. reflexivity.
Qed.

Lemma first_use_authenticates_witness :
  let w1 := {| this := withTokens (JStr "live") (JStr "again") unauthenticated;
               trace := [passwordGrant unauthenticated] |} in
  searchCustomers (strict [row]) 1 "ab" (fresh unauthenticated)
    = (Ok (JArr [row]), asked (MembersSearch "ab") w1) /\
  getSessionById (strict [row]) 1 "s1" (fresh unauthenticated)
    = (Ok (JObj [("id", JStr "s1")]), asked (SessionById "s1") w1).
Proof.
  cbv zeta.
  destruct (first_use_authenticates (strict [row]) (JsDate.fixedZone 0) sampleNow 0 200 0
              "ab" "s1" None None (fresh unauthenticated) 200 200
              (JObj [("access_token", JStr "live"); ("refresh_token", JStr "again")])
              (JStr "live") (JStr "again") JUndefined (JObj [("id", JStr "s1")]) [row])
    as [Hsearch [_ Hsession]]; try reflexivity.
  split; [apply Hsearch | apply Hsession]; reflexivity.
Defined.

(** X9.  When the data request is answered 401 and the refresh grant that
    follows is refused, [searchCustomers], [getSessions] and [getSessionById]
    return their empty value after exactly these two requests, with the
    instance as it was; the operation is not retried. *)
Theorem refused_refresh_gives_empty (server : Server) (LocalTZA : Z -> bool -> Z)
    (now page pageSize : Z)
    (fuel : nat) (query sessionId : string) (startsBefore locationId : option string)
    (w : World) :
  ready w ->
  let failsOn e :=
    (exists body, server (trace w) (Get e (accessToken (this w))) = Answer 401 body) /\
    refusedGrant (server (trace (asked e w)) (refreshGrant (this w))) in
  let listing := Sessions page pageSize (startsBeforeParam LocalTZA now startsBefore)
                          (locationParam locationId) in
  (failsOn (MembersSearch query) ->
   searchCustomers server (S fuel) query w
     = (Ok (JArr []), granted (refreshGrant (this w)) (asked (MembersSearch query) w))) /\
  (failsOn listing ->
   getSessions server LocalTZA (S fuel) now page pageSize startsBefore locationId w
     = (Ok emptyEnvelope, granted (refreshGrant (this w)) (asked listing w))) /\
  (failsOn (SessionById sessionId) ->
   getSessionById server (S fuel) sessionId w
     = (Ok JNull, granted (refreshGrant (this w)) (asked (SessionById sessionId) w))).
Proof.
  intros [Hm Ht]. cbv zeta.
  unfold granted, refreshGrant, asked. cbn [this trace].
  split; [|split]; intros [[body Hs] Hf].
  - cbn [searchCustomers]. ClientFacts.run. rewrite Hm, Ht. cbn. rewrite Hs. cbn.
    destruct Hf as [Hf | [st [b [Hf Hok]]]]; rewrite Hf; cbn; rewrite ?Hok; reflexivity.
  - cbn [getSessions]. ClientFacts.run. rewrite Hm, Ht. cbn. rewrite Hs. cbn.
    destruct Hf as [Hf | [st [b [Hf Hok]]]]; rewrite Hf; cbn; rewrite ?Hok; reflexivity.
  - cbn [getSessionById]. ClientFacts.run. rewrite Hm, Ht. cbn. rewrite Hs. cbn.
    destruct Hf as [Hf | [st [b [Hf Hok]]]]; rewrite Hf; cbn; rewrite ?Hok; reflexivity.
Qed.

Lemma refused_refresh_gives_empty_witness :
  searchCustomers (broken 401) 1 "ab" (fresh configured)
    = (Ok (JArr []),
       granted (refreshGrant configured) (asked (MembersSearch "ab") (fresh configured))).
Proof.
  assert (Hready : ready (fresh configured)) by (split; reflexivity).
  apply (refused_refresh_gives_empty (broken 401) (JsDate.fixedZone 0) sampleNow 0 200 0
           "ab" "s1" None None (fresh configured) Hready).
  split.
  - exists None. reflexivity.
  - right. exists 401, None. split; reflexivity.
Defined.


(** X10.  [getCustomerById] tolerates a refused list: when the member record is
    read and the requests for the member's sessions and active memberships
    are answered with a non-success status (401 included, which is not
    retried here), the record is returned with empty lists and zero totals.
    A network error on the sessions request, however, loses the whole
    record: the result is [null]. *)
Theorem customer_record_survives_refused_lists (server : Server) (fuel : nat)
    (memberId : string) (w : World) (st : Z) (fields : list (string * Json)) :
  truthy (accessToken (this w)) = true ->
  server (trace w) (Get (MemberById memberId) (accessToken (this w)))
    = Answer st (Some (JObj fields)) ->
  okStatus st = true ->
  let w1 := asked (MemberById memberId) w in
  let w2 := asked (MemberSessions memberId) w1 in
  let w3 := asked (MemberActiveMemberships memberId) w2 in
  ((exists s1 b1, server (trace w1) (Get (MemberSessions memberId) (accessToken (this w)))
                  = Answer s1 b1 /\ okStatus s1 = false) ->
   (exists s2 b2, server (trace w2)
                    (Get (MemberActiveMemberships memberId) (accessToken (this w)))
                  = Answer s2 b2 /\ okStatus s2 = false) ->
   getCustomerById server (S fuel) memberId w
     = (Ok (JObj (setField "totalMemberships" (JNum 0)
                 (setField "totalSessions" (JNum 0)
                 (setField "activeMemberships" (JArr [])
                 (setField "sessions" (JArr []) fields))))), w3)) /\
  (server (trace w1) (Get (MemberSessions memberId) (accessToken (this w))) = Rejected ->
   getCustomerById server (S fuel) memberId w = (Ok JNull, w2)).
Proof.
  intros Ht Hs Hok. cbv zeta.
  assert (Hne : (st =? 401) = false).
  { apply Z.eqb_neq. intros ->. discriminate Hok. }
  unfold asked. cbn [this trace].
  split.
  - intros [s1 [b1 [Hs1 Hok1]]] [s2 [b2 [Hs2 Hok2]]].
    cbn [getCustomerById]. ClientFacts.run. rewrite Ht. cbn. rewrite Hs. cbn.
    rewrite Hne, Hok. cbn. rewrite Hs1. cbn. rewrite Hok1. cbn.
    rewrite Hs2. cbn. rewrite Hok2. cbn. reflexivity.
  - intros Hs1.
    cbn [getCustomerById]. ClientFacts.run. rewrite Ht. cbn. rewrite Hs. cbn.
    rewrite Hne, Hok. cbn. rewrite Hs1. cbn. reflexivity.
Qed.

Lemma customer_record_survives_refused_lists_witness :
  getCustomerById memberOnly 1 "42" (fresh configured)
    = (Ok (JObj [ ("id", JStr "42"); ("firstName", JStr "Asha");
                  ("sessions", JArr []); ("activeMemberships", JArr []);
                  ("totalSessions", JNum 0); ("totalMemberships", JNum 0) ]),
       asked (MemberActiveMemberships "42")
         (asked (MemberSessions "42") (asked (MemberById "42") (fresh configured)))).
Proof.
  apply (customer_record_survives_refused_lists memberOnly 0 "42" (fresh configured) 200
           [("id", JStr "42"); ("firstName", JStr "Asha")]); try reflexivity.
  - exists 500, None. split; reflexivity.
  - exists 500, None. split; reflexivity.
Defined.


End ClientLogicFacts.

(** ** Data normaliser, continued *)

Module NormalizerMoreFacts.
Import Js Normalizer NormalizerMore.



Lemma existsb_permutation {A : Type} (f : A -> bool) (l l' : list A) :
  Permutation l l' -> existsb f l = existsb f l'.
Proof.
  induction 1 as [| x l l' _ IH | x y l | l l' l'' _ IH1 _ IH2]; cbn.
  - reflexivity.
  - rewrite IH. reflexivity.
  - destruct (f x), (f y); reflexivity.
  - congruence.
Qed.

(** X12.  The status the search component shows does not depend on the order
    in which the memberships were loaded. *)
Theorem shown_status_order_independent (parseDate : string -> option Z) (now : Z)
    (l l' : list Membership) :
  Permutation l l' ->
  shownMembershipStatus parseDate now l = shownMembershipStatus parseDate now l'.
Proof.
  intros H. unfold shownMembershipStatus.
  rewrite (existsb_permutation _ l l' H), (existsb_permutation _ l l' H).
  destruct l as [|m l], l' as [|m' l']; try reflexivity.
  - apply Permutation_nil in H. discriminate H.
  - apply Permutation_sym, Permutation_nil in H. discriminate H.
Qed.

Lemma shown_status_order_independent_witness :
  shownMembershipStatus sampleParse sampleNow
    [ {| isFrozen := true; endDate := None |};
      {| isFrozen := false; endDate := Some "2030-01-01T00:00:00Z" |} ]
  = shownMembershipStatus sampleParse sampleNow
      [ {| isFrozen := false; endDate := Some "2030-01-01T00:00:00Z" |};
        {| isFrozen := true; endDate := None |} ].
Proof.
  apply (shown_status_order_independent sampleParse sampleNow). apply perm_swap.
Defined.

(** X13.  On a single membership the status shown by the component and the
    status computed by the client agree, unless the end date cannot be read
    or is exactly now: in those two cases the client says "active" and the
    component "expired". *)
Theorem shown_status_agrees_on_one (parseDate : string -> option Z) (now : Z)
    (m : Membership) :
  ((endDate m = None \/ endDate m = Some "" \/
    exists s t, endDate m = Some s /\ parseDate s = Some t /\ t <> now) ->
   shownMembershipStatus parseDate now [m] = getMembershipStatus parseDate now (Some m)) /\
  (isFrozen m = false ->
   (exists s, endDate m = Some s /\ s <> "" /\
              (parseDate s = None \/ parseDate s = Some now)) ->
   getMembershipStatus parseDate now (Some m) = "active" /\
   shownMembershipStatus parseDate now [m] = "expired").
Proof.
  unfold shownMembershipStatus, getMembershipStatus, notEnded. cbn [existsb].
  split.
  - intros [He | [He | [s [t [He [Hp Hne]]]]]]; rewrite He; cbn [truthyOpt].
    + destruct (isFrozen m); reflexivity.
    + destruct (isFrozen m); reflexivity.
    + rewrite Hp. destruct (isFrozen m); cbn; [reflexivity|].
      destruct (truthyStr s); cbn; [|reflexivity].
      destruct (Z.ltb_spec t now), (Z.ltb_spec now t); try lia; reflexivity.
  - intros Hf [s [He [Hs Hp]]]. rewrite Hf, He. cbn [truthyOpt].
    assert (Ht : truthyStr s = true).
    { unfold truthyStr. destruct (String.eqb_spec s ""); [contradiction|reflexivity]. }
    rewrite Ht. destruct Hp as [Hp | Hp]; rewrite Hp; cbn.
    + split; reflexivity.
    + rewrite Z.ltb_irrefl. split; reflexivity.
Qed.

Lemma shown_status_agrees_on_one_witness :
  shownMembershipStatus sampleParse sampleNow
    [ {| isFrozen := false; endDate := Some "2020-01-01T00:00:00Z" |} ]
  = getMembershipStatus sampleParse sampleNow
      (Some {| isFrozen := false; endDate := Some "2020-01-01T00:00:00Z" |}) /\
  getMembershipStatus sampleParse sampleNow
    (Some {| isFrozen := false; endDate := Some "next month" |}) = "active" /\
  shownMembershipStatus sampleParse sampleNow
    [ {| isFrozen := false; endDate := Some "next month" |} ] = "expired".
Proof.
  split.
  - apply (proj1 (shown_status_agrees_on_one sampleParse sampleNow
                    {| isFrozen := false; endDate := Some "2020-01-01T00:00:00Z" |})).
    right; right. exists "2020-01-01T00:00:00Z", 1577836800000.
    repeat split. unfold sampleNow. lia.
  - apply (proj2 (shown_status_agrees_on_one sampleParse sampleNow
                    {| isFrozen := false; endDate := Some "next month" |})).
    + reflexivity.
    + exists "next month". repeat split; [discriminate | left; reflexivity].
Defined.


Lemma lastN_suffix {A : Type} (n : nat) (l : list A) :
  (firstn (List.length l - n) l ++ lastN n l)%list = l /\
  List.length (lastN n l) = Nat.min n (List.length l).
Proof.
  unfold lastN. split; [apply firstn_skipn|].
  rewrite length_skipn. lia.
Qed.

Lemma lastOf_snoc {A : Type} (l : list A) (x : A) : lastOf (l ++ [x]) = Some x.
Proof.
  unfold lastOf. rewrite length_app. cbn [List.length].
  replace (List.length l + 1 - 1)%nat with (List.length l) by lia.
  rewrite nth_error_app2 by lia. rewrite Nat.sub_diag. reflexivity.
Qed.

(** X14.  The recent sessions of a formatted customer are the last five of
    the customer's sessions, in their order (all of them when there are
    fewer), and the last session's name and date are those of the final
    entry of the list. *)
Theorem recent_sessions_are_the_last_five (parseDate : string -> option Z) (now : Z)
    (customer : Customer) (l : list Booking) :
  sessions customer = Some l ->
  let formatted := formatCustomerData parseDate now customer in
  (exists older, l = (older ++ recentSessions formatted)%list) /\
  List.length (recentSessions formatted) = Nat.min 5 (List.length l) /\
  (forall earlier final, l = (earlier ++ [final])%list ->
     lastSessionName formatted = orNull (opt (session final) sessionName) /\
     lastSessionDate formatted = orNull (opt (session final) startsAt)).
Proof.
  intros Hs. cbv zeta. unfold formatCustomerData. cbn. rewrite Hs. cbn [opt].
  destruct (lastN_suffix 5 l) as [Hsplit Hlen].
  split; [|split].
  - exists (firstn (List.length l - 5) l). symmetry. exact Hsplit.
  - exact Hlen.
  - intros earlier final ->. rewrite lastOf_snoc. split; reflexivity.
Qed.

Lemma recent_sessions_are_the_last_five_witness :
  let formatted := formatCustomerData sampleParse sampleNow regularMember in
  (exists older, sevenBookings = (older ++ recentSessions formatted)%list) /\
  List.length (recentSessions formatted) = Nat.min 5 (List.length sevenBookings) /\
  (forall earlier final, sevenBookings = (earlier ++ [final])%list ->
     lastSessionName formatted = orNull (opt (session final) sessionName) /\
     lastSessionDate formatted = orNull (opt (session final) startsAt)).
Proof.
  apply (recent_sessions_are_the_last_five sampleParse sampleNow regularMember sevenBookings).
  reflexivity.
Defined.

(** X15.  For a customer with at least one session on record the visit and
    session totals are the number of those sessions, whatever the visit
    statistics say; the activity level, however, is computed from the visit
    statistics alone, so that a customer without them is "new" however many
    sessions are on record. *)
Theorem totals_follow_sessions_level_follows_visits (parseDate : string -> option Z)
    (now : Z) (customer : Customer) (first : Booking) (others : list Booking) :
  sessions customer = Some (first :: others) ->
  let formatted := formatCustomerData parseDate now customer in
  totalVisits formatted = Z.of_nat (S (List.length others)) /\
  totalSessions formatted = Z.of_nat (S (List.length others)) /\
  activityLevel formatted = getActivityLevel (orZero (opt (visits customer) total)) /\
  (visits customer = None -> activityLevel formatted = "new").
Proof.
  intros Hs. cbv zeta. unfold formatCustomerData. cbn -[Z.of_nat]. rewrite Hs.
  cbn [List.length]. unfold orElseZ.
  assert (Hne : (Z.of_nat (S (List.length others)) =? 0) = false).
  { apply Z.eqb_neq. lia. }
  rewrite Hne. repeat split. intros Hv. rewrite Hv. reflexivity.
Qed.

Lemma totals_follow_sessions_level_follows_visits_witness :
  let formatted := formatCustomerData sampleParse sampleNow regularMember in
  totalVisits formatted = 7 /\
  totalSessions formatted = 7 /\
  activityLevel formatted = "new".
Proof.
  destruct (totals_follow_sessions_level_follows_visits sampleParse sampleNow regularMember
              (booking "a" true) (List.tl sevenBookings) eq_refl)
    as [Hv [Hs [_ Hl]]].
  cbv zeta. split; [exact Hv|]. split; [exact Hs|]. apply Hl. reflexivity.
Defined.

(** X16.  The membership fields of a formatted customer come from the first
    active membership alone: two customers with the same first membership get
    the same name, type, dates, frozen flag, credits, usage, status and
    membership id, whatever other memberships they hold; and the status is
    "inactive" exactly when there is no first membership. *)
Theorem membership_fields_from_first (parseDate : string -> option Z) (now : Z)
    (c1 c2 : Customer) :
  firstMembership c1 = firstMembership c2 ->
  let f1 := formatCustomerData parseDate now c1 in
  let f2 := formatCustomerData parseDate now c2 in
  currentMembershipName f1 = currentMembershipName f2 /\
  currentMembershipType f1 = currentMembershipType f2 /\
  membershipStartDate f1 = membershipStartDate f2 /\
  membershipEndDate f1 = membershipEndDate f2 /\
  membershipFrozen f1 = membershipFrozen f2 /\
  creditsLeft f1 = creditsLeft f2 /\
  sessionsUsed f1 = sessionsUsed f2 /\
  sessionsLimit f1 = sessionsLimit f2 /\
  appointmentsUsed f1 = appointmentsUsed f2 /\
  appointmentsLimit f1 = appointmentsLimit f2 /\
  membershipStatus f1 = membershipStatus f2 /\
  membershipId f1 = membershipId f2 /\
  (membershipStatus f1 = "inactive" <-> firstMembership c1 = None).
Proof.
  intros H. cbv zeta. unfold formatCustomerData. cbn.
  fold (firstMembership c1). fold (firstMembership c2). rewrite H.
  repeat (split; [reflexivity|]).
  rewrite <- H.
  destruct (firstMembership c1) as [m|]; cbn.
  - split; [|discriminate].
    destruct (m_isFrozen m); [discriminate|].
    destruct (if truthyOpt (m_endDate m) then _ else _) as [[t|]|];
      try discriminate.
    destruct (t <? now); discriminate.
  - split; reflexivity.
Qed.

Lemma membership_fields_from_first_witness :
  let f1 := formatCustomerData sampleParse sampleNow regularMember in
  let f2 := formatCustomerData sampleParse sampleNow frozenOnlyMember in
  currentMembershipName f1 = currentMembershipName f2 /\
  currentMembershipType f1 = currentMembershipType f2 /\
  membershipStartDate f1 = membershipStartDate f2 /\
  membershipEndDate f1 = membershipEndDate f2 /\
  membershipFrozen f1 = membershipFrozen f2 /\
  creditsLeft f1 = creditsLeft f2 /\
  sessionsUsed f1 = sessionsUsed f2 /\
  sessionsLimit f1 = sessionsLimit f2 /\
  appointmentsUsed f1 = appointmentsUsed f2 /\
  appointmentsLimit f1 = appointmentsLimit f2 /\
  membershipStatus f1 = membershipStatus f2 /\
  membershipId f1 = membershipId f2 /\
  (membershipStatus f1 = "inactive" <-> firstMembership regularMember = None).
Proof.
  apply (membership_fields_from_first sampleParse sampleNow regularMember frozenOnlyMember).
  reflexivity.
Defined.

(** The member of the examples holds a frozen membership first and an open
    one second: the formatted status is "frozen", the component, given the
    same two memberships, shows "active". *)
Lemma first_membership_decides_example :
  membershipStatus (formatCustomerData sampleParse sampleNow regularMember) = "frozen" /\
  shownMembershipStatus sampleParse sampleNow
    (List.map statusView [frozenPlan; openPlan]) = "active".
Proof. split; reflexivity. Qed.

End NormalizerMoreFacts.

(** ** The proxy function *)

Module ProxyFacts.
Import Js Proxy.

Lemma prop_defined (key : string) (data : Json) :
  prop key data = None <-> (data = JNull \/ data = JUndefined).
Proof.
  destruct data; cbn; split; intros H; try discriminate; auto;
    destruct H as [H|H]; discriminate H.
Qed.

(** X17.  The proxy answers a request with 200 or 500 and makes at most one
    upstream request.  It answers 200 exactly when that one request was
    answered with a success status and a JSON body other than [null], and the
    body of the answer is then that JSON, unchanged; a non-success upstream
    status, 401 and 404 included, is never passed on. *)
Theorem proxy_answers (momenceToken : option string) (input : option MomenceRequest)
    (now : Z) (upstream : Url -> Momence.Fetched) :
  let answer := fst (handler POST momenceToken input now upstream) in
  let calls := snd (handler POST momenceToken input now upstream) in
  (status answer = 200 \/ status answer = 500) /\
  (List.length calls <= 1)%nat /\
  (status answer = 200 <->
   exists url st data,
     calls = [url] /\ upstream url = Momence.Answer st (Some data) /\
     Momence.okStatus st = true /\ data <> JNull /\ data <> JUndefined /\
     body answer = Data data).
Proof.
  cbv zeta. unfold handler.
  destruct (negb (truthyOpt momenceToken)).
  { cbn. repeat split; auto; try discriminate. intros [u [s [d [H _]]]]. discriminate H. }
  destruct input as [r|].
  2:{ cbn. repeat split; auto; try discriminate. intros [u [s [d [H _]]]]. discriminate H. }
  destruct (route now r) as [message|url].
  { cbn. repeat split; auto; try discriminate. intros [u [s [d [H _]]]]. discriminate H. }
  destruct (upstream url) as [|st json] eqn:Hup.
  { cbn. repeat split; auto; try discriminate.
    intros [u [s [d [H [Hu _]]]]]. inversion H; subst u. congruence. }
  destruct (Momence.okStatus st) eqn:Hok; cbn.
  2:{ repeat split; auto; try discriminate.
      intros [u [s [d [H [Hu [Hs _]]]]]]. inversion H; subst u.
      rewrite Hup in Hu. inversion Hu; subst. congruence. }
  destruct json as [data|].
  2:{ cbn. repeat split; auto; try discriminate.
      intros [u [s [d [H [Hu _]]]]]. inversion H; subst u.
      rewrite Hup in Hu. discriminate Hu. }
  destruct (prop "payload" data) eqn:Hp; cbn.
  - repeat split; auto.
    intros _. exists url, st, data. repeat split; auto.
    + intros ->. discriminate Hp.
    + intros ->. discriminate Hp.
  - repeat split; auto; try discriminate.
    intros [u [s [d [H [Hu [_ [Hn [Hd _]]]]]]]]. inversion H; subst u.
    rewrite Hup in Hu. inversion Hu; subst.
    apply prop_defined in Hp. destruct Hp; contradiction.
Qed.

(** X18.  A request that does not pass the checks of the proxy is answered
    500 without any upstream request: when the token is not configured; when
    a member action comes without a member id, or with the id 0; when the
    session details are asked without a session id, or with the id 0; and
    when the action is none of the five. *)
Theorem proxy_rejects_without_upstream (momenceToken : option string)
    (r : MomenceRequest) (now : Z) (upstream : Url -> Momence.Fetched) :
  (truthyOpt momenceToken = false ->
   forall input,
     handler POST momenceToken input now upstream
       = (failed (Some "Momence API not configured"), [])) /\
  (truthyOpt momenceToken = true ->
   (action r = "getMemberSessions" \/ action r = "getMemberMemberships") ->
   (memberId r = None \/ memberId r = Some 0) ->
   handler POST momenceToken (Some r) now upstream
     = (failed (Some "memberId is required"), [])) /\
  (truthyOpt momenceToken = true ->
   action r = "getSessionDetails" ->
   (sessionId r = None \/ sessionId r = Some 0) ->
   handler POST momenceToken (Some r) now upstream
     = (failed (Some "sessionId is required"), [])) /\
  (truthyOpt momenceToken = true ->
   ~ In (action r) ["searchMembers"; "getMemberSessions"; "getMemberMemberships";
                    "getSessions"; "getSessionDetails"] ->
   handler POST momenceToken (Some r) now upstream
     = (failed (Some ("Unknown action: " ++ action r)), [])).
Proof.
  split; [|split; [|split]].
  - intros Ht input. unfold handler. rewrite Ht. reflexivity.
  - intros Ht Ha Hm. unfold handler, route. rewrite Ht. cbn [negb].
    assert (Hg : givenId (memberId r) = None) by (destruct Hm as [-> | ->]; reflexivity).
    destruct Ha as [-> | ->]; cbn; rewrite Hg; reflexivity.
  - intros Ht Ha Hs. unfold handler, route. rewrite Ht, Ha. cbn.
    destruct Hs as [-> | ->]; reflexivity.
  - intros Ht Hnot. unfold handler, route. rewrite Ht. cbn [negb].
    repeat match goal with
           | |- context [(action r =? ?k)%string] =>
               destruct (String.eqb_spec (action r) k) as [He|_];
               [exfalso; apply Hnot; rewrite He; cbn; tauto|]
           end.
    reflexivity.
Qed.

Lemma proxy_rejects_without_upstream_witness :
  (forall input,
     handler POST None input 0 onePage
       = (failed (Some "Momence API not configured"), [])) /\
  handler POST (Some "token") (Some (sessionsOf (Some 0))) 0 onePage
    = (failed (Some "memberId is required"), []) /\
  handler POST (Some "token")
          (Some {| action := "deleteMember"; query := None; memberId := Some 7;
                   sessionId := None; page := None; pageSize := None |}) 0 onePage
    = (failed (Some "Unknown action: deleteMember"), []).
Proof.
  split; [|split].
  - apply (proj1 (proxy_rejects_without_upstream None (searchFor "ab") 0 onePage)).
    reflexivity.
  - apply (proj1 (proj2 (proxy_rejects_without_upstream (Some "token")
                           (sessionsOf (Some 0)) 0 onePage))).
    + reflexivity.
    + left. reflexivity.
    + right. reflexivity.
  - apply (proj2 (proj2 (proj2 (proxy_rejects_without_upstream (Some "token")
             {| action := "deleteMember"; query := None; memberId := Some 7;
                sessionId := None; page := None; pageSize := None |} 0 onePage)))).
    + reflexivity.
    + cbn. intros [H|[H|[H|[H|[H|[]]]]]]; discriminate H.
Defined.

End ProxyFacts.

(** ** The new-ticket form *)

Module FormFacts.
Import Js Form.

Lemma click_in_range (s : Z) (c : Click) : 1 <= s <= 4 -> 1 <= click s c <= 4.
Proof.
  intros H. destruct c; cbn; unfold nextStep, prevStep.
  - destruct (Z.ltb_spec s 4); lia.
  - destruct (Z.ltb_spec 1 s); lia.
Qed.

Lemma fold_click_in_range (clicks : list Click) :
  forall s, 1 <= s <= 4 -> 1 <= fold_left click clicks s <= 4.
Proof.
  induction clicks as [|c clicks IH]; intros s H; cbn; [exact H|].
  apply IH. apply click_in_range. exact H.
Qed.

(** X19.  Whatever is clicked, Next or Previous and in whatever order, the
    form stays on one of its four steps. *)
Theorem step_stays_in_range (clicks : list Click) : 1 <= stepAfter clicks <= 4.
Proof. apply fold_click_in_range. lia. Qed.

Section Files.

Variable File : Type.

Lemma filterIndex_spec (index : nat) (prev : list File) :
  forall i, (i <= index)%nat ->
    filterIndex File index i prev
      = (firstn (index - i) prev ++ skipn (S (index - i)) prev)%list.
Proof.
  induction prev as [|f rest IH]; intros i Hi; cbn [filterIndex].
  - rewrite firstn_nil, skipn_nil. reflexivity.
  - destruct (Nat.eqb_spec i index) as [->|Hne].
    + rewrite Nat.sub_diag. cbn [firstn skipn app].
      clear IH Hi. revert index. induction rest as [|g rest IHr]; intros index.
      * reflexivity.
      * cbn [filterIndex].
        destruct (Nat.eqb_spec (S index) index) as [Heq|_]; [lia|].
        f_equal. specialize (IHr (S index)).
        assert (Hgen : forall l j k, (k < j)%nat -> filterIndex File k j l = l).
        { clear. induction l as [|x l IHl]; intros j k Hjk; cbn; [reflexivity|].
          destruct (Nat.eqb_spec j k); [lia|]. f_equal. apply IHl. lia. }
        apply Hgen. lia.
    + rewrite (IH (S i)) by lia.
      replace (index - i)%nat with (S (index - S i)) by lia.
      reflexivity.
Qed.

(** X20.  Removing the attachment at a position removes that one file and
    keeps the others in order; a position past the end removes nothing. *)
Theorem removeFile_removes_one (index : nat) (prev : list File) :
  removeFile File index prev = (firstn index prev ++ skipn (S index) prev)%list /\
  ((index < List.length prev)%nat ->
   S (List.length (removeFile File index prev)) = List.length prev) /\
  ((List.length prev <= index)%nat -> removeFile File index prev = prev).
Proof.
  assert (H : removeFile File index prev
              = (firstn index prev ++ skipn (S index) prev)%list).
  { unfold removeFile. rewrite filterIndex_spec by lia. rewrite Nat.sub_0_r. reflexivity. }
  split; [exact H|]. split; intros Hlen; rewrite H.
  - rewrite length_app, length_firstn, length_skipn. lia.
  - rewrite firstn_all2 by lia. rewrite skipn_all2 by lia. apply app_nil_r.
Qed.

Lemma applyFileAction_at_most_five (prev : list File) (a : FileAction File) :
  (List.length prev <= 5)%nat -> (List.length (applyFileAction File prev a) <= 5)%nat.
Proof.
  intros H. destruct a as [newFiles|index]; cbn [applyFileAction].
  - unfold handleFileChange. rewrite length_firstn. lia.
  - destruct (removeFile_removes_one index prev) as [-> _].
    rewrite length_app, length_firstn, length_skipn. lia.
Qed.

(** X21.  The form never holds more than five attachments, whatever is chosen
    and removed; choosing files keeps the ones already attached, in order and
    in front, and fills up to five with the first of the new ones. *)
Theorem attachments_at_most_five (actions : list (FileAction File)) :
  (List.length (filesAfter File actions) <= 5)%nat /\
  (forall newFiles prev,
     (List.length prev <= 5)%nat ->
     handleFileChange File newFiles prev
       = (prev ++ firstn (5 - List.length prev) newFiles)%list).
Proof.
  split.
  - unfold filesAfter.
    assert (H : forall l, (List.length l <= 5)%nat ->
                          (List.length (fold_left (applyFileAction File) actions l) <= 5)%nat).
    { induction actions as [|a actions IH]; intros l Hl; cbn; [exact Hl|].
      apply IH. apply applyFileAction_at_most_five. exact Hl. }
    apply H. cbn. lia.
  - intros newFiles prev Hlen. unfold handleFileChange.
    rewrite firstn_app. rewrite firstn_all2 by lia. reflexivity.
Qed.

End Files.

Lemma removeFile_removes_one_witness :
  S (List.length (removeFile string 1 ["a.png"; "b.png"; "c.png"])) = 3%nat /\
  removeFile string 7 ["a.png"; "b.png"; "c.png"] = ["a.png"; "b.png"; "c.png"].
Proof.
  destruct (removeFile_removes_one string 1 ["a.png"; "b.png"; "c.png"]) as [_ [Hin _]].
  destruct (removeFile_removes_one string 7 ["a.png"; "b.png"; "c.png"]) as [_ [_ Hout]].
  split; [apply Hin | apply Hout]; cbn; lia.
Defined.

Lemma attachments_at_most_five_witness :
  handleFileChange string ["d"; "e"; "f"] ["a"; "b"; "c"]
    = (["a"; "b"; "c"] ++ firstn (5 - 3) ["d"; "e"; "f"])%list.
Proof.
  apply (proj2 (attachments_at_most_five string []) ["d"; "e"; "f"] ["a"; "b"; "c"]).
  cbn. lia.
Defined.

End FormFacts.
